(** * The teaser-deck pipeline: a shallow embedding and its checked properties

    The Python sources embedded here are

    - [utils/ingestor.py]   ([ingest_company_data]),
    - [utils/agent.py]      ([clean_json_string], [analyze_data]),
    - [utils/web_search.py] ([generate_search_queries],
      [generate_fallback_queries], [search_text_tavily], [search_images],
      [search_certifications], [search_business_info],
      [get_web_data_for_company]),
    - [utils/generator.py]  ([clean_text], [format_list],
      [get_unique_output_path], [calculate_optimal_font_size], the lines
      and paragraphs of [fill_text_placeholder], the texts built by
      [create_presentation_from_template] and the choice of a generator in
      [create_presentation]),
    - [main.py]             ([run_pipeline] and the entry point).

    Python values that travel through the pipeline are JSON shaped, so they
    are modelled by one inductive type [json]; Python exceptions by [exn];
    a call that may raise returns a [result].  The outside world (the file
    system, the language model, the search provider, the standard library's
    JSON decoder) is passed in explicitly, so every function below is an
    ordinary total function that can be run on concrete inputs.

    Text is modelled as [string], a sequence of 8-bit characters; [len] and
    case folding therefore agree with Python on ASCII text. *)

From Stdlib Require Import ZArith String Ascii List Lia Bool DecimalString DecimalNat.
From Stdlib Require Import Floats.
From stdpp Require Import base list strings gmap.
From Equations Require Import Equations.

Local Open Scope string_scope.
Local Open Scope Z_scope.

(** Appending to a text that starts with a known character simplifies. *)
#[local] Arguments String.append : simpl nomatch.

(** ** Python values, exceptions and results *)

Module Py.

(** The values [json.loads] can produce.  An integer literal becomes a Python
    [int]; a literal with a fraction or an exponent (or [NaN], [Infinity]) a
    [float], kept here as its lexeme.  A [dict] is an association list whose
    keys are unique and in insertion order. *)
#[warnings="-register-all"]
Inductive json : Type :=
| JNull
| JBool (b : bool)
| JInt (z : Z)
| JFloat (lexeme : string)
| JStr (s : string)
| JArr (items : list json)
| JObj (members : list (string * json)).

Abbreviation dict := (list (string * json)).

(** The exception classes the sources tell apart.  [analyze_data] has a
    handler for [json.JSONDecodeError] and one for [Exception]; every other
    handler in the embedded code catches [Exception].  Only subclasses of
    [Exception] are modelled. *)
Inductive exn : Type :=
| JSONDecodeError (msg : string)
| AttributeError (msg : string)
| ValueError (msg : string)
| OtherException (class_name msg : string).

Definition is_JSONDecodeError (e : exn) : bool :=
  match e with JSONDecodeError _ => true | _ => false end.

Inductive result (A : Type) : Type :=
| Ok (a : A)
| Raised (e : exn).
Arguments Ok {A} a.
Arguments Raised {A} e.

(** What [chain.invoke] of the language-model chain does: it raises, or it
    returns a response whose [content] is text. *)
Inductive llm_outcome : Type :=
| Raises (e : exn)
| Replies (content : string).

(** A computation that records, in order, the calls and console lines it
    makes.  The sources are sequential, so a list is the whole story. *)
Definition traced (E A : Type) : Type := list E * A.

#[global] Instance traced_ret {E} : MRet (traced E) := λ A (a : A), ([], a).
#[global] Instance traced_bind {E} : MBind (traced E) :=
  λ A B (f : A → traced E B) (m : traced E A),
    let '(t1, a) := m in let '(t2, b) := f a in ((t1 ++ t2)%list, b).

Definition tell {E} (e : E) : traced E unit := ([e], tt).
Definition trace_of {E A} (m : traced E A) : list E := fst m.
Definition value_of {E A} (m : traced E A) : A := snd m.

(** [d.get(key)]: [None] when the key is absent. *)
Fixpoint dict_get (key : string) (d : dict) : option json :=
  match d with
  | [] => None
  | (k, v) :: rest => if String.eqb k key then Some v else dict_get key rest
  end.

(** [d.get(key, default)]. *)
Definition dict_get_default (key : string) (default : json) (d : dict) : json :=
  match dict_get key d with Some v => v | None => default end.

(** [d[key] = value]: replaces in place, or appends a new key. *)
Fixpoint dict_set (key : string) (value : json) (d : dict) : dict :=
  match d with
  | [] => [(key, value)]
  | (k, v) :: rest =>
      if String.eqb k key then (k, value) :: rest
      else (k, v) :: dict_set key value rest
  end.

(** *** [str] methods *)

Definition is_upper (c : ascii) : bool :=
  let n := nat_of_ascii c in (65 <=? n)%nat && (n <=? 90)%nat.

Definition ascii_lower (c : ascii) : ascii :=
  if is_upper c then ascii_of_nat (nat_of_ascii c + 32) else c.

(** [s.lower()] *)
Fixpoint str_lower (s : string) : string :=
  match s with
  | EmptyString => EmptyString
  | String c r => String (ascii_lower c) (str_lower r)
  end.

(** [s.startswith(p)] *)
Definition str_startswith (p s : string) : bool := String.prefix p s.

(** [sub in s] *)
Fixpoint str_contains (sub s : string) : bool :=
  String.prefix sub s ||
  match s with
  | EmptyString => false
  | String _ r => str_contains sub r
  end.

(** [s[n:]] *)
Fixpoint str_drop (n : nat) (s : string) : string :=
  match n, s with
  | O, _ => s
  | S n', String _ r => str_drop n' r
  | S _, EmptyString => EmptyString
  end.

(** [s[:n]] *)
Fixpoint str_take (n : nat) (s : string) : string :=
  match n, s with
  | S n', String c r => String c (str_take n' r)
  | _, _ => EmptyString
  end.

(** [s.endswith(suffix)] *)
Definition str_endswith (suffix s : string) : bool :=
  (String.length suffix <=? String.length s)%nat &&
  String.eqb (str_drop (String.length s - String.length suffix) s) suffix.

(** [s.endswith((a, b, ...))] *)
Definition str_endswith_any (suffixes : list string) (s : string) : bool :=
  existsb (fun suf => str_endswith suf s) suffixes.

(** [s.replace(old, new)] for a non-empty [old]: leftmost, non-overlapping
    occurrences.  [skip] counts the characters of a matched occurrence that
    are still to be dropped. *)
Fixpoint str_replace_from (old new : string) (skip : nat) (s : string) : string :=
  match s with
  | EmptyString => EmptyString
  | String c r =>
      match skip with
      | S k => str_replace_from old new k r
      | O =>
          if String.prefix old s
          then new ++ str_replace_from old new (String.length old - 1) r
          else String c (str_replace_from old new O r)
      end
  end.

Definition str_replace (old new s : string) : string :=
  str_replace_from old new O s.

(** The ASCII characters [str.isspace] accepts. *)
Definition is_space (c : ascii) : bool :=
  let n := nat_of_ascii c in
  ((9 <=? n)%nat && (n <=? 13)%nat) || ((28 <=? n)%nat && (n <=? 32)%nat).

Fixpoint str_lstrip (s : string) : string :=
  match s with
  | EmptyString => EmptyString
  | String c r => if is_space c then str_lstrip r else s
  end.

Fixpoint str_rstrip (s : string) : string :=
  match s with
  | EmptyString => EmptyString
  | String c r =>
      let r' := str_rstrip r in
      if is_space c && String.eqb r' EmptyString then EmptyString
      else String c r'
  end.

(** [s.strip()] *)
Definition str_strip (s : string) : string := str_rstrip (str_lstrip s).

(** [s * n] *)
Fixpoint str_times (s : string) (n : nat) : string :=
  match n with
  | O => EmptyString
  | S n' => s ++ str_times s n'
  end.

(** [str(n)] for a non-negative [int]. *)
Definition str_of_nat (n : nat) : string :=
  NilEmpty.string_of_uint (Nat.to_uint n).

(** [len(s)] *)
Definition len (s : string) : Z := Z.of_nat (String.length s).

Definition newline : string := String (ascii_of_nat 10) EmptyString.

(** The double-quote character, and a text between double quotes. *)
Definition dquote : ascii := ascii_of_nat 34.
Definition quoted (s : string) : string :=
  String dquote (s ++ String dquote EmptyString).

End Py.

(** ** The standard library's JSON decoder

    [json.loads] belongs to Python, not to this repository: the embedded
    functions take the decoder as a parameter and the theorems hold for any
    decoder.  [json_loads] below is a reference decoder following the
    scanner of CPython's [json] package (strict mode) on 8-bit text; it is
    what the examples run.  [None] stands for [json.JSONDecodeError].

    CPython's decoder raises two more exceptions, neither of them a
    [json.JSONDecodeError]: [RecursionError] when the arrays and objects of
    the text are nested deeper than the interpreter's recursion limit allows,
    and [ValueError] on an integer literal of more than 4300 digits.  Where
    the class of the exception matters, as in [analyze_data], the decoder is
    therefore a function to [result]; [loads_within] is the reference decoder
    with a recursion limit. *)

Module Json.
Import Py.

Definition is_ws (c : ascii) : bool :=
  let n := nat_of_ascii c in
  (n =? 32)%nat || (n =? 9)%nat || (n =? 10)%nat || (n =? 13)%nat.

Fixpoint skip_ws (s : string) : string :=
  match s with
  | String c r => if is_ws c then skip_ws r else s
  | EmptyString => EmptyString
  end.

Definition is_digit (c : ascii) : bool :=
  let n := nat_of_ascii c in (48 <=? n)%nat && (n <=? 57)%nat.

(** The longest prefix of decimal digits, and what follows it. *)
Fixpoint span_digits (s : string) : string * string :=
  match s with
  | String c r =>
      if is_digit c then let '(ds, rest) := span_digits r in (String c ds, rest)
      else (EmptyString, s)
  | EmptyString => (EmptyString, EmptyString)
  end.

Fixpoint Z_of_digits (acc : Z) (ds : string) : Z :=
  match ds with
  | String c r => Z_of_digits (10 * acc + Z.of_nat (nat_of_ascii c - 48)) r
  | EmptyString => acc
  end.

(** The integer part of a number: an optional minus sign, then either a
    single 0 or a non-zero digit followed by digits. *)
Definition scan_int_part (s : string) : option (bool * string * string) :=
  let '(neg, s1) :=
    match s with
    | String "-"%char r => (true, r)
    | _ => (false, s)
    end in
  match s1 with
  | String "0"%char r => Some (neg, "0", r)
  | String c _ =>
      if is_digit c then let '(ds, rest) := span_digits s1 in Some (neg, ds, rest)
      else None
  | EmptyString => None
  end.

(** The optional fraction: a dot and at least one digit. *)
Definition scan_frac (s : string) : string * string :=
  match s with
  | String "."%char r =>
      match span_digits r with
      | (EmptyString, _) => (EmptyString, s)
      | (ds, rest) => (String "."%char ds, rest)
      end
  | _ => (EmptyString, s)
  end.

(** The optional exponent: e or E, an optional sign, at least one digit. *)
Definition scan_exp (s : string) : string * string :=
  match s with
  | String e r =>
      if Ascii.eqb e "e"%char || Ascii.eqb e "E"%char then
        let '(sign, r1) :=
          match r with
          | String "+"%char r' => ("+", r')
          | String "-"%char r' => ("-", r')
          | _ => (EmptyString, r)
          end in
        match span_digits r1 with
        | (EmptyString, _) => (EmptyString, s)
        | (ds, rest) => (String e (sign ++ ds), rest)
        end
      else (EmptyString, s)
  | EmptyString => (EmptyString, s)
  end.

Definition scan_number (s : string) : option (json * string) :=
  match scan_int_part s with
  | None => None
  | Some (neg, ds, r0) =>
      let '(frac, r1) := scan_frac r0 in
      let '(exp, r2) := scan_exp r1 in
      match frac, exp with
      | EmptyString, EmptyString =>
          Some (JInt (if neg then - Z_of_digits 0 ds else Z_of_digits 0 ds), r0)
      | _, _ => Some (JFloat ((if neg then "-" else EmptyString) ++ ds ++ frac ++ exp), r2)
      end
  end.

(** *** String literals *)

Definition hex_value (c : ascii) : option N :=
  let n := N_of_ascii c in
  if is_digit c then Some (n - 48)%N
  else if ((97 <=? n) && (n <=? 102))%N then Some (n - 87)%N
  else if ((65 <=? n) && (n <=? 70))%N then Some (n - 55)%N
  else None.

Definition hex4 (a b c d : ascii) : option N :=
  match hex_value a, hex_value b, hex_value c, hex_value d with
  | Some x, Some y, Some z, Some w => Some (4096 * x + 256 * y + 16 * z + w)%N
  | _, _, _, _ => None
  end.

(** A decoded piece of a string literal: a character copied from the input,
    or the 16-bit unit of a [\uXXXX] escape. *)
Inductive piece : Type :=
| Raw (c : ascii)
| Unit16 (u : N).

Definition byte (n : N) : ascii := ascii_of_N n.

(** UTF-8 of a code point. *)
Definition utf8 (cp : N) : string :=
  if (cp <? 128)%N then String (byte cp) EmptyString
  else if (cp <? 2048)%N then
    String (byte (192 + cp / 64)) (String (byte (128 + cp mod 64)) EmptyString)
  else if (cp <? 65536)%N then
    String (byte (224 + cp / 4096))
      (String (byte (128 + (cp / 64) mod 64))
         (String (byte (128 + cp mod 64)) EmptyString))
  else
    String (byte (240 + cp / 262144))
      (String (byte (128 + (cp / 4096) mod 64))
         (String (byte (128 + (cp / 64) mod 64))
            (String (byte (128 + cp mod 64)) EmptyString))).

Definition is_high_surrogate (u : N) : bool := ((55296 <=? u) && (u <=? 56319))%N.
Definition is_low_surrogate (u : N) : bool := ((56320 <=? u) && (u <=? 57343))%N.

(** A high surrogate directly followed by a low one is one code point. *)
Fixpoint assemble (ps : list piece) : string :=
  match ps with
  | [] => EmptyString
  | Raw c :: rest => String c (assemble rest)
  | Unit16 hi :: rest =>
      match rest with
      | Unit16 lo :: rest' =>
          if is_high_surrogate hi && is_low_surrogate lo
          then utf8 (65536 + (hi - 55296) * 1024 + (lo - 56320))%N ++ assemble rest'
          else utf8 hi ++ assemble rest
      | _ => utf8 hi ++ assemble rest
      end
  end.

Definition simple_escape (c : ascii) : option ascii :=
  match c with
  | "034"%char => Some "034"%char
  | "\"%char => Some "\"%char
  | "/"%char => Some "/"%char
  | "b"%char => Some (ascii_of_nat 8)
  | "f"%char => Some (ascii_of_nat 12)
  | "n"%char => Some (ascii_of_nat 10)
  | "r"%char => Some (ascii_of_nat 13)
  | "t"%char => Some (ascii_of_nat 9)
  | _ => None
  end.

(** The body of a string literal, after its opening quote: the pieces up to
    the closing quote and the text after it.  A control character, an unknown
    escape or a missing closing quote is an error. *)
Fixpoint scan_pieces (s : string) : option (list piece * string) :=
  match s with
  | EmptyString => None
  | String c r =>
      if Ascii.eqb c dquote then Some ([], r)
      else if Ascii.eqb c "\"%char then
        match r with
        | String "u"%char (String h1 (String h2 (String h3 (String h4 r')))) =>
            match hex4 h1 h2 h3 h4, scan_pieces r' with
            | Some u, Some (ps, rest) => Some (Unit16 u :: ps, rest)
            | _, _ => None
            end
        | String e r' =>
            match simple_escape e, scan_pieces r' with
            | Some c', Some (ps, rest) => Some (Raw c' :: ps, rest)
            | _, _ => None
            end
        | EmptyString => None
        end
      else if (nat_of_ascii c <? 32)%nat then None
      else
        match scan_pieces r with
        | Some (ps, rest) => Some (Raw c :: ps, rest)
        | None => None
        end
  end.

Definition scanstring (s : string) : option (string * string) :=
  match scan_pieces s with
  | Some (ps, rest) => Some (assemble ps, rest)
  | None => None
  end.

(** [s] with [lit] removed from its front. *)
Definition strip_prefix (lit s : string) : option string :=
  if String.prefix lit s then Some (str_drop (String.length lit) s) else None.

(** *** Values

    [scan_once] reads one value; the array and object loops read the items
    after the opening bracket.  Every call consumes input, so fuel equal to
    the length of the text (plus one) is never exhausted. *)
Fixpoint scan_once (fuel : nat) (s : string) : option (json * string) :=
  match fuel with
  | O => None
  | S fuel' =>
      match s with
      | EmptyString => None
      | String c r =>
          if Ascii.eqb c dquote then
            match scanstring r with
            | Some (str, rest) => Some (JStr str, rest)
            | None => None
            end
          else if Ascii.eqb c "{"%char then
            match skip_ws r with
            | String "}"%char rest => Some (JObj [], rest)
            | String "034"%char rest =>
                match scan_members fuel' [] rest with
                | Some (d, rest') => Some (JObj d, rest')
                | None => None
                end
            | _ => None
            end
          else if Ascii.eqb c "["%char then
            match skip_ws r with
            | String "]"%char rest => Some (JArr [], rest)
            | r' =>
                match scan_items fuel' [] r' with
                | Some (items, rest) => Some (JArr items, rest)
                | None => None
                end
            end
          else
            match strip_prefix "null" s, strip_prefix "true" s, strip_prefix "false" s with
            | Some rest, _, _ => Some (JNull, rest)
            | _, Some rest, _ => Some (JBool true, rest)
            | _, _, Some rest => Some (JBool false, rest)
            | _, _, _ =>
                match scan_number s with
                | Some v => Some v
                | None =>
                    match strip_prefix "NaN" s, strip_prefix "Infinity" s,
                          strip_prefix "-Infinity" s with
                    | Some rest, _, _ => Some (JFloat "NaN", rest)
                    | _, Some rest, _ => Some (JFloat "Infinity", rest)
                    | _, _, Some rest => Some (JFloat "-Infinity", rest)
                    | _, _, _ => None
                    end
                end
            end
      end
  end

(** The items of an array, [s] standing at the next value. *)
with scan_items (fuel : nat) (acc : list json) (s : string) : option (list json * string) :=
  match fuel with
  | O => None
  | S fuel' =>
      match scan_once fuel' s with
      | None => None
      | Some (v, rest) =>
          match skip_ws rest with
          | String "]"%char rest' => Some ((acc ++ [v])%list, rest')
          | String ","%char rest' => scan_items fuel' (acc ++ [v])%list (skip_ws rest')
          | _ => None
          end
      end
  end

(** The members of an object, [s] standing just after the opening quote of
    the next key.  A repeated key keeps its place and takes the last value. *)
with scan_members (fuel : nat) (acc : dict) (s : string) : option (dict * string) :=
  match fuel with
  | O => None
  | S fuel' =>
      match scanstring s with
      | None => None
      | Some (key, rest) =>
          match skip_ws rest with
          | String ":"%char rest1 =>
              match scan_once fuel' (skip_ws rest1) with
              | None => None
              | Some (v, rest2) =>
                  match skip_ws rest2 with
                  | String "}"%char rest3 => Some (dict_set key v acc, rest3)
                  | String ","%char rest3 =>
                      match skip_ws rest3 with
                      | String "034"%char rest4 =>
                          scan_members fuel' (dict_set key v acc) rest4
                      | _ => None
                      end
                  | _ => None
                  end
              end
          | _ => None
          end
      end
  end.

(** [json.loads(s)]: one value, surrounded by optional white space. *)
Definition json_loads (s : string) : option json :=
  match scan_once (S (String.length s)) (skip_ws s) with
  | Some (v, rest) =>
      match skip_ws rest with
      | EmptyString => Some v
      | _ => None
      end
  | None => None
  end.

(** The reference decoder as a call that raises where the text is no JSON. *)
Definition json_loads_raising (s : string) : result json :=
  match json_loads s with
  | Some v => Ok v
  | None => Raised (JSONDecodeError "Expecting value")
  end.

(** The arrays opened at the very start of a text. *)
Fixpoint opening_brackets (s : string) : nat :=
  match s with
  | String "["%char r => S (opening_brackets r)
  | _ => O
  end.

(** CPython's scanner calls itself once for every array it enters, before it
    looks at what follows, and raises [RecursionError] when the interpreter's
    limit is reached: a text that starts with more than [limit] opening
    brackets raises it whatever comes after them.  Every other text is left
    to the reference decoder. *)
Definition recursion_error : exn :=
  OtherException "RecursionError"
    "maximum recursion depth exceeded while decoding a JSON array from a unicode string".

Definition loads_within (limit : nat) (s : string) : result json :=
  if (limit <? opening_brackets (skip_ws s))%nat then Raised recursion_error
  else json_loads_raising s.

End Json.

(** ** [os.path] on POSIX paths, and the set of existing paths *)

Module OsPath.
Import Py.

Definition sep : ascii := "/"%char.
Definition extsep : ascii := "."%char.

(** [s.rfind(c)], [None] for Python's -1. *)
Fixpoint str_rfind (c : ascii) (s : string) : option nat :=
  match s with
  | EmptyString => None
  | String a r =>
      match str_rfind c r with
      | Some i => Some (S i)
      | None => if Ascii.eqb a c then Some O else None
      end
  end.

(** [s.rfind(c) + 1] *)
Definition after_last (c : ascii) (s : string) : nat :=
  match str_rfind c s with Some i => S i | None => O end.

(** [s == c * len(s)] *)
Fixpoint all_chars (c : ascii) (s : string) : bool :=
  match s with
  | EmptyString => true
  | String a r => Ascii.eqb a c && all_chars c r
  end.

(** [s.rstrip(c)] *)
Fixpoint rstrip_char (c : ascii) (s : string) : string :=
  match s with
  | EmptyString => EmptyString
  | String a r =>
      let r' := rstrip_char c r in
      if Ascii.eqb a c && String.eqb r' EmptyString then EmptyString
      else String a r'
  end.

(** [os.path.basename(p)] *)
Definition basename (p : string) : string := str_drop (after_last sep p) p.

(** [os.path.dirname(p)] *)
Definition dirname (p : string) : string :=
  let head := str_take (after_last sep p) p in
  if negb (String.eqb head EmptyString) && negb (all_chars sep head)
  then rstrip_char sep head
  else head.

(** [os.path.splitext(p)]: the extension starts at the last dot of the last
    component, unless only dots precede it there. *)
Definition splitext (p : string) : string * string :=
  let filenameIndex := after_last sep p in
  match str_rfind extsep p with
  | Some dotIndex =>
      if (filenameIndex <=? dotIndex)%nat &&
         negb (all_chars extsep (str_take (dotIndex - filenameIndex) (str_drop filenameIndex p)))
      then (str_take dotIndex p, str_drop dotIndex p)
      else (p, EmptyString)
  | None => (p, EmptyString)
  end.

(** [os.path.join(a, b)] *)
Definition join (a b : string) : string :=
  if str_startswith "/" b then b
  else if String.eqb a EmptyString || str_endswith "/" a then a ++ b
  else a ++ "/" ++ b.

(** [os.path.join(a, *parts)] *)
Definition join_all (a : string) (parts : list string) : string :=
  fold_left join parts a.

(** [os.path.exists(p)], the file system being the set of paths that exist. *)
Definition path_exists (fs : gset string) (p : string) : bool :=
  bool_decide (p ∈ fs).

End OsPath.

(** ** [utils/agent.py]: the structured-data extractor *)

Module Agent.
Import Py.

Definition clean_json_string (json_string : string) : string :=
  let json_string :=
    if str_contains "```" json_string
    then str_replace "```" EmptyString (str_replace "```json" EmptyString json_string)
    else json_string in
  str_strip json_string.

(** The record the [json.JSONDecodeError] handler returns. *)
Definition error_record : dict :=
  [ ("company_name", JStr "Unknown");
    ("company_codename", JStr "Project Error");
    ("sector", JStr "Error");
    ("business_overview", JArr [JStr "AI could not process data."]);
    ("product_portfolio", JArr []);
    ("applications", JArr []);
    ("financials", JObj []);
    ("assumptions", JStr "N/A");
    ("metrics_point", JStr "N/A");
    ("upcoming_facility", JStr "N/A");
    ("sales", JStr "N/A");
    ("global_presence", JStr "N/A");
    ("investment_highlights", JArr []) ].

Section Extractor.

(** [json.loads], which returns the decoded value or raises, and the chain
    applied to the prompt built from a raw text. *)
Variable loads : string -> result json.
Variable chain_invoke : string -> llm_outcome.

(** The whole body of [analyze_data] after the prompt is built sits in one
    [try]: the first handler takes a [json.JSONDecodeError] raised anywhere
    in it, by [chain.invoke] or by [json.loads]; the second takes every
    other exception, among them the [RecursionError] and the [ValueError] of
    [json.loads] and the [AttributeError] of [data.get] on a decoded value
    that is no [dict]. *)
Definition analyze_data (raw_text : string) : option dict :=
  match chain_invoke raw_text with
  | Raises e => if is_JSONDecodeError e then Some error_record else None
  | Replies content =>
      match loads (clean_json_string content) with
      | Raised e => if is_JSONDecodeError e then Some error_record else None
      | Ok (JObj data) => Some data
      | Ok _ => None
      end
  end.

End Extractor.

End Agent.

(** ** [utils/ingestor.py]: the document ingestor *)

Module Ingestor.
Import Py OsPath.

(** What the ingestor reads from disk.  [pdf_pages] is [pdfplumber.open]
    with one [extract_text] result per page; [excel_sheets] is
    [pd.ExcelFile] with, per sheet name, the text of
    [read_excel(...).to_string(index=False)]. *)
Record disk : Type := {
  paths : gset string;
  listdir : string -> result (list string);
  read_text : string -> result string;
  pdf_pages : string -> result (list (result (option string)));
  excel_sheets : string -> result (list (string * result string))
}.

Definition nl : string := newline.

(** The page loop of a PDF: pages with no text are skipped; a page that
    raises ends the whole file. *)
Fixpoint pdf_text (pages : list (result (option string))) (text : string) : result string :=
  match pages with
  | [] => Ok text
  | Raised e :: _ => Raised e
  | Ok None :: rest => pdf_text rest text
  | Ok (Some page_text) :: rest =>
      if String.eqb page_text EmptyString then pdf_text rest text
      else pdf_text rest (text ++ page_text ++ nl)
  end.

(** The sheet loop of a spreadsheet: sheets read before one that raises
    stay in the corpus. *)
Fixpoint excel_text (filename : string) (sheets : list (string * result string))
    (combined_text : string) : string :=
  match sheets with
  | [] => combined_text
  | (sheet_name, Raised _) :: _ => combined_text
  | (sheet_name, Ok table_text) :: rest =>
      excel_text filename rest
        (combined_text ++ nl ++ nl ++ "--- FILE: " ++ filename ++ " | SHEET: "
           ++ sheet_name ++ " ---" ++ nl ++ table_text)
  end.

(** One turn of the loop over the directory listing. *)
Definition ingest_file (d : disk) (folder_path : string)
    (combined_text : string) (filename : string) : string :=
  let file_path := join folder_path filename in
  if str_startswith "." filename then combined_text
  else if str_endswith_any [".txt"; ".md"] (str_lower filename) then
    match read_text d file_path with
    | Ok content =>
        combined_text ++ nl ++ nl ++ "--- FILE: " ++ filename ++ " ---" ++ nl ++ content
    | Raised _ => combined_text
    end
  else if str_endswith ".pdf" (str_lower filename) then
    match pdf_pages d file_path with
    | Ok pages =>
        match pdf_text pages EmptyString with
        | Ok text =>
            combined_text ++ nl ++ nl ++ "--- FILE: " ++ filename
              ++ " (PDF Content) ---" ++ nl ++ text
        | Raised _ => combined_text
        end
    | Raised _ => combined_text
    end
  else if str_endswith_any [".xlsx"; ".xls"] (str_lower filename) then
    match excel_sheets d file_path with
    | Ok sheets => excel_text filename sheets combined_text
    | Raised _ => combined_text
    end
  else combined_text.

Definition folder_not_found (folder_path : string) : string :=
  "Error: Folder not found at " ++ folder_path.

Definition no_files_found : string := "Warning: No files found in this folder.".

(** [os.listdir] is outside every [try]: if it raises, so does the ingestor. *)
Definition ingest_company_data (d : disk) (folder_path : string) : result string :=
  if negb (path_exists (paths d) folder_path) then Ok (folder_not_found folder_path)
  else
    match listdir d folder_path with
    | Raised e => Raised e
    | Ok [] => Ok no_files_found
    | Ok files => Ok (fold_left (ingest_file d folder_path) files EmptyString)
    end.

End Ingestor.

(** ** [utils/generator.py]: output paths and font sizes *)

Module Generator.
Import Py OsPath.

(** *** [get_unique_output_path] *)

(** The name tried at a given value of [counter]. *)
Definition candidate (directory name_without_ext ext : string) (counter : nat) : string :=
  let new_name := name_without_ext ++ "_" ++ str_of_nat counter ++ ext in
  join directory new_name.

Definition too_many_files : exn :=
  ValueError "Too many files with similar names exist".

(** The bound on [counter] in [if counter > 1000]. *)
Definition attempt_cap : nat := 1000.

(** The [while True] loop: it leaves by [return] at the first free name, or
    by [raise] once [counter] has passed the cap. *)
Equations? unique_path_loop (fs : gset string) (directory name_without_ext ext : string)
    (counter : nat) : result string by wf (S attempt_cap - counter)%nat lt :=
unique_path_loop fs directory name_without_ext ext counter
  with path_exists fs (candidate directory name_without_ext ext counter) => {
  | false := Ok (candidate directory name_without_ext ext counter);
  | true with le_lt_dec (S counter) attempt_cap => {
    | left _ := unique_path_loop fs directory name_without_ext ext (S counter);
    | right _ := Raised too_many_files } }.
Proof. lia. Qed.

Definition get_unique_output_path (fs : gset string) (output_path : string) : result string :=
  if negb (path_exists fs output_path) then Ok output_path
  else
    let directory := dirname output_path in
    let base_name := basename output_path in
    let '(name_without_ext, ext) := splitext base_name in
    unique_path_loop fs directory name_without_ext ext 1.

(** [prs.save(get_unique_output_path(output_path))]: the file written and the
    file system afterwards. *)
Definition save_presentation (fs : gset string) (output_path : string)
    : result (string * gset string) :=
  match get_unique_output_path fs output_path with
  | Ok unique_output_path => Ok (unique_output_path, {[unique_output_path]} ∪ fs)
  | Raised e => Raised e
  end.

(** *** [calculate_optimal_font_size]

    Python's [float] is IEEE 754 binary64, which is what [PrimFloat] is.
    The conversion of an [int] rounds to nearest-even; [a / b] on two [int]s
    is the correctly rounded quotient, equal to the quotient of the converted
    operands as long as both are below 2^53 in magnitude, which holds for
    lengths in EMU and for text lengths. *)

Definition float_of_int (z : Z) : float :=
  SF2Prim (binary_normalize prec emax z 0 false).

(** [int(x)]: truncation toward zero; [None] when Python raises
    ([OverflowError] on an infinity, [ValueError] on a NaN). *)
Definition int_of_float (x : float) : option Z :=
  match Prim2SF x with
  | S754_zero _ => Some 0
  | S754_finite s m e =>
      let magnitude :=
        if e <? 0 then Z.shiftr (Z.pos m) (- e) else Z.shiftl (Z.pos m) e in
      Some (if s then - magnitude else magnitude)
  | S754_infinity _ | S754_nan => None
  end.

Definition true_div (a b : Z) : float :=
  PrimFloat.div (float_of_int a) (float_of_int b).

(** [Inches(1)], in English Metric Units. *)
Definition inch : Z := 914400.

Definition cannot_convert : exn :=
  OtherException "OverflowError" "cannot convert float to integer".

(** [int((placeholder_width / Inches(1)) * 12)] *)
Definition chars_per_line (placeholder_width : Z) : option Z :=
  int_of_float (PrimFloat.mul (true_div placeholder_width inch) (float_of_int 12)).

(** [int((placeholder_height / Inches(1)) * 2)] *)
Definition lines_available (placeholder_height : Z) : option Z :=
  int_of_float (PrimFloat.mul (true_div placeholder_height inch) (float_of_int 2)).

(** [max(1, text_length / chars_per_line)] *)
Definition estimated_lines (text_length chars : Z) : float :=
  let q := true_div text_length chars in
  if PrimFloat.ltb (float_of_int 1) q then q else float_of_int 1.

(** [lines_available * 0.8] *)
Definition line_budget (lines : Z) : float :=
  PrimFloat.mul (float_of_int lines) 0x1.999999999999ap-1%float.

(** [int(max_size * ratio)] with [ratio = (lines_available * 0.8) / estimated_lines] *)
Definition shrunk_size (max_size : Z) (budget estimated : float) : option Z :=
  int_of_float (PrimFloat.mul (float_of_int max_size) (PrimFloat.div budget estimated)).

Definition calculate_optimal_font_size
    (text_length placeholder_width placeholder_height min_size max_size : Z) : result Z :=
  match chars_per_line placeholder_width, lines_available placeholder_height with
  | Some chars, Some lines =>
      if (chars =? 0) || (lines =? 0) then Ok 12
      else
        let estimated := estimated_lines text_length chars in
        if PrimFloat.leb estimated (line_budget lines) then Ok max_size
        else
          match shrunk_size max_size (line_budget lines) estimated with
          | Some calculated_size => Ok (Z.max min_size (Z.min calculated_size max_size))
          | None => Raised cannot_convert
          end
  | _, _ => Raised cannot_convert
  end.

(** The call in [fill_text_placeholder]: [min_size=8], [max_size=14]. *)
Definition fill_font_size (text_length placeholder_width placeholder_height : Z) : result Z :=
  calculate_optimal_font_size text_length placeholder_width placeholder_height 8 14.

End Generator.

(** ** [utils/web_search.py]: query generation and the certification search *)

Module WebSearch.
Import Py.

Definition clean_json_string (json_string : string) : string :=
  let json_string :=
    if str_contains "```" json_string
    then str_replace "```" EmptyString (str_replace "```json" EmptyString json_string)
    else json_string in
  str_strip json_string.

(** The outside services: the chain applied to the prompt variables
    ([company_name], [company_data], [search_type]), [json.loads] ([None]
    when it raises: the one handler of this module takes every exception
    alike), the [TAVILY_API_KEY] variable, and the POST to the search
    provider with [raise_for_status] and [response.json()]. *)
Record services : Type := {
  chain_invoke : json -> string -> string -> llm_outcome;
  loads : string -> option json;
  tavily_api_key : option string;
  tavily_post : json -> Z -> result json
}.

(** The calls the trace records. *)
Inductive call : Type :=
| ModelCall (company_name : json) (company_data search_type : string)
| TextSearch (query : json) (max_results : Z).

Definition generate_fallback_queries (search_type : string) : list json :=
  let fallbacks : dict :=
    [ ("images", JArr [JStr "generic manufacturing products stock photo";
                       JStr "industrial facility interior"]);
      ("certifications", JArr [JStr "ISO 9001 certification";
                               JStr "industry certifications"]);
      ("business_info", JArr [JStr "industry market trends";
                              JStr "sector growth analysis"]);
      ("partners", JArr [JStr "business partnerships";
                         JStr "industry collaborations"]) ] in
  match dict_get_default search_type (JArr [JStr "general search"]) fallbacks with
  | JArr queries => queries
  | _ => []
  end.

(** [company_data[:2000] if len(company_data) > 2000 else company_data] *)
Definition truncated (company_data : string) : string :=
  if 2000 <? len company_data then str_take 2000 company_data else company_data.

Definition generate_search_queries (w : services) (company_name : json)
    (company_data search_type : string) : traced call (list json) :=
  let truncated_data := truncated company_data in
  _ ← tell (ModelCall company_name truncated_data search_type);
  match chain_invoke w company_name truncated_data search_type with
  | Raises _ => mret (generate_fallback_queries search_type)
  | Replies content =>
      match loads w (clean_json_string content) with
      | Some (JArr (q :: qs)) => mret (take 5 (q :: qs))
      | Some _ => mret (generate_fallback_queries search_type)
      | None => mret (generate_fallback_queries search_type)
      end
  end.

(** One entry of the provider's [results], as [search_text_tavily] copies it. *)
Definition tavily_result (item : json) : option dict :=
  match item with
  | JObj d =>
      Some [ ("title", dict_get_default "title" (JStr EmptyString) d);
             ("body", dict_get_default "content" (JStr EmptyString) d);
             ("href", dict_get_default "url" (JStr EmptyString) d) ]
  | _ => None
  end.

(** The loop over [data.get('results', [])].  Anything that is not an array
    of objects either has nothing to iterate or raises inside the [try], and
    the handler returns the empty list, dropping what was collected. *)
Definition tavily_results (data : json) : list dict :=
  match data with
  | JObj d =>
      match dict_get_default "results" (JArr []) d with
      | JArr items =>
          match mapM tavily_result items with
          | Some results => results
          | None => []
          end
      | _ => []
      end
  | _ => []
  end.

Definition search_text_tavily (w : services) (query : json) (max_results : Z)
    : traced call (list dict) :=
  _ ← tell (TextSearch query max_results);
  match tavily_api_key w with
  | None => mret []
  | Some api_key =>
      if String.eqb api_key EmptyString then mret []
      else
        match tavily_post w query max_results with
        | Ok data => mret (tavily_results data)
        | Raised _ => mret []
        end
  end.

Definition common_certs : list string :=
  [ "ISO 9001"; "ISO 14001"; "ISO 22000"; "ISO 13485"; "ISO 45001";
    "GMP"; "WHO-GMP"; "USFDA"; "CE Mark"; "FSSAI"; "BIS"; "BRC";
    "FSSC 22000"; "HACCP"; "OHSAS 18001"; "IATF 16949"; "TS 16949";
    "USDA Organic"; "Non-GMO"; "RoHS"; "FCC"; "AEO"; "GDP"; "C-TPAT" ].

(** [cert.lower() in text_lower] *)
Definition mentions (text_lower cert : string) : bool :=
  str_contains (str_lower cert) text_lower.

(** The entries appended for a certification found in the company data. *)
Definition local_certification (cert : string) : json :=
  JObj [ ("name", JStr cert);
         ("description", JStr (cert ++ " certification standard"));
         ("verified", JBool true);
         ("source", JStr "company_data") ].

Definition local_citation (cert : string) : json :=
  JObj [ ("type", JStr "certification");
         ("name", JStr cert);
         ("source", JStr "company_data");
         ("description", JStr "Certification mentioned in provided company data") ].

(** The entries appended for a certification found in a search result. *)
Definition web_certification (cert body : string) (result : dict) : json :=
  JObj [ ("name", JStr cert);
         ("description", JStr (str_take 200 body));
         ("verified", JBool false);
         ("source", dict_get_default "href" (JStr EmptyString) result) ].

Definition web_citation (cert : string) (result : dict) : json :=
  JObj [ ("type", JStr "certification");
         ("name", JStr cert);
         ("source", dict_get_default "href" (JStr EmptyString) result);
         ("description", JStr ("Information about " ++ cert ++ " certification")) ].

(** [found_certs], [certifications], [citations] *)
Definition findings : Type := list string * list json * list json.

(** The first pass: the catalog against the company data. *)
Definition local_findings (company_data : string) : findings :=
  let company_data_lower := str_lower company_data in
  let found_certs := filter (λ cert, mentions company_data_lower cert = true) common_certs in
  (found_certs, local_certification <$> found_certs, local_citation <$> found_certs).

(** The loop over the search results.  Each result contributes at most the
    first catalog entry it mentions that was not found yet ([break]); a body
    that is no text makes [.lower()] raise, and the handler around the loop
    ends it with what was appended so far. *)
Fixpoint scan_results (results : list dict) (st : findings) : findings :=
  match results with
  | [] => st
  | result :: rest =>
      match dict_get_default "body" (JStr EmptyString) result with
      | JStr body =>
          let '(found_certs, certifications, citations) := st in
          let body_lower := str_lower body in
          match
            find (λ cert, mentions body_lower cert && negb (bool_decide (cert ∈ found_certs)))
              common_certs
          with
          | Some cert =>
              scan_results rest
                (found_certs ++ [cert],
                 certifications ++ [web_certification cert body result],
                 citations ++ [web_citation cert result])%list
          | None => scan_results rest st
          end
      | _ => st
      end
  end.

Definition search_certifications (w : services) (company_name : json)
    (company_data : string) : traced call (list json * list json) :=
  let '(found_certs, certifications, citations) := local_findings company_data in
  if (length found_certs =? 0)%nat then
    queries ← generate_search_queries w company_name company_data "certifications";
    match queries with
    | query :: _ =>
        results ← search_text_tavily w query 3;
        let '(_, certifications, citations) :=
          scan_results results (found_certs, certifications, citations) in
        mret (certifications, citations)
    | [] => mret (certifications, citations)
    end
  else mret (certifications, citations).

End WebSearch.

(** ** [main.py]: the orchestrator *)

Module Main.
Import Py OsPath.

(** The four stages [run_pipeline] imports. *)
Record stages : Type := {
  ingest_company_data : string -> result string;
  analyze_data : string -> option dict;
  get_web_data_for_company : json -> string -> result json;
  create_presentation : dict -> string -> result unit
}.

(** The status lines [run_pipeline] prints. *)
Inductive console : Type :=
| Starting (company_folder_name : string)
| Rule
| Step1 (input_dir : string)
| NoTextExtracted
| Extracted (characters : Z)
| Step2
| AgentFailed
| AnalysisComplete (codename : json)
| Step3
| WebSearchComplete
| WebSearchError (e : exn)
| ContinuingWithoutWebData
| Step4
| PptSaved
| GeneratorError (e : exn)
| PipelineComplete (output_pptx_path : string).

Inductive event : Type :=
| Print (line : console)
| Makedirs (path : string)
| Ingest (input_dir : string)
| Analyze (raw_text : string)
| WebSearch (company_name : json) (raw_text : string)
| CreatePresentation (structured_data : dict) (output_path : string).

(** The structure stored when the web search raises. *)
Definition empty_web_data : json :=
  JObj [ ("images", JArr []);
         ("certifications", JArr []);
         ("business_info", JObj []);
         ("citations", JArr []) ].

(** [not raw_text or len(raw_text) < 50] *)
Definition too_short (raw_text : string) : bool :=
  String.eqb raw_text EmptyString || (len raw_text <? 50).

(** Step 3: the [try] around the web search. *)
Definition web_step (st : stages) (company_name : json) (raw_text : string)
    (structured_data : dict) : traced event dict :=
  _ ← tell (Print Step3);
  _ ← tell (WebSearch company_name raw_text);
  match get_web_data_for_company st company_name raw_text with
  | Ok web_data =>
      _ ← tell (Print WebSearchComplete);
      mret (dict_set "web_data" web_data structured_data)
  | Raised e =>
      _ ← tell (Print (WebSearchError e));
      _ ← tell (Print ContinuingWithoutWebData);
      mret (dict_set "web_data" empty_web_data structured_data)
  end.

(** Step 4: the [try] around the generator. *)
Definition generation_step (st : stages) (structured_data : dict)
    (output_pptx_path : string) : traced event (result unit) :=
  _ ← tell (Print Step4);
  _ ← tell (CreatePresentation structured_data output_pptx_path);
  match create_presentation st structured_data output_pptx_path with
  | Ok _ =>
      _ ← tell (Print PptSaved);
      _ ← tell (Print Rule);
      _ ← tell (Print (PipelineComplete output_pptx_path));
      _ ← tell (Print Rule);
      mret (Ok tt)
  | Raised e =>
      _ ← tell (Print (GeneratorError e));
      mret (Ok tt)
  end.

(** The paths [run_pipeline] builds from the working directory. *)
Definition input_dir_of (base_dir company_folder_name : string) : string :=
  join_all base_dir ["data"; "input"; company_folder_name].

Definition output_dir_of (base_dir : string) : string :=
  join_all base_dir ["data"; "output"].

Definition output_pptx_path_of (base_dir company_folder_name : string) : string :=
  join (output_dir_of base_dir) (company_folder_name ++ "_Teaser.pptx").

(** [run_pipeline], run in the working directory [cwd].  The value is [Ok]
    when the function returns and [Raised] when an exception leaves it.
    These are the runs in which [os.makedirs] makes the output directory and
    [analyze_data] returns; [Orchestrator.run_pipeline] below has the runs
    in which they raise as well. *)
Definition run_pipeline (cwd : string) (st : stages) (company_folder_name : string)
    : traced event (result unit) :=
  _ ← tell (Print (Starting company_folder_name));
  _ ← tell (Print Rule);
  let base_dir := cwd in
  let input_dir := input_dir_of base_dir company_folder_name in
  let output_dir := output_dir_of base_dir in
  _ ← tell (Makedirs output_dir);
  let output_pptx_path := output_pptx_path_of base_dir company_folder_name in
  _ ← tell (Print (Step1 input_dir));
  _ ← tell (Ingest input_dir);
  match ingest_company_data st input_dir with
  | Raised e => mret (Raised e)
  | Ok raw_text =>
      if too_short raw_text then
        _ ← tell (Print NoTextExtracted);
        mret (Ok tt)
      else
        _ ← tell (Print (Extracted (len raw_text)));
        _ ← tell (Print Step2);
        _ ← tell (Analyze raw_text);
        match analyze_data st raw_text with
        | None | Some [] =>
            _ ← tell (Print AgentFailed);
            mret (Ok tt)
        | Some structured_data =>
            let codename :=
              dict_get_default "company_codename" (JStr "Unknown Project") structured_data in
            let company_name :=
              dict_get_default "company_name" (JStr company_folder_name) structured_data in
            _ ← tell (Print (AnalysisComplete codename));
            structured_data ← web_step st company_name raw_text structured_data;
            generation_step st structured_data output_pptx_path
        end
  end.

(** The stages that write or call out, as they appear in a trace. *)
Definition is_analyze (e : event) : bool :=
  match e with Analyze _ => true | _ => false end.
Definition is_create_presentation (e : event) : bool :=
  match e with CreatePresentation _ _ => true | _ => false end.

End Main.

(** ** [utils/generator.py]: the lines of a text placeholder *)

Module TextLayout.
Import Py.

(** [s.split(c)] for a one-character separator: never empty. *)
Fixpoint str_split (c : ascii) (s : string) : list string :=
  match s with
  | EmptyString => [EmptyString]
  | String a r =>
      if Ascii.eqb a c then EmptyString :: str_split c r
      else
        match str_split c r with
        | piece :: pieces => String a piece :: pieces
        | [] => [String a EmptyString]
        end
  end.

(** The word that starts at the front of [s] (empty when [s] starts with
    white space or is empty) and the words after it. *)
Fixpoint words_from (s : string) : string * list string :=
  match s with
  | EmptyString => (EmptyString, [])
  | String c r =>
      let '(word, later) := words_from r in
      if is_space c then
        (EmptyString, if String.eqb word EmptyString then later else word :: later)
      else (String c word, later)
  end.

(** [s.split()]: the maximal runs of characters that are not white space. *)
Definition str_words (s : string) : list string :=
  let '(word, later) := words_from s in
  if String.eqb word EmptyString then later else word :: later.

(** [sep.join(items)] *)
Fixpoint str_join (sep : string) (items : list string) : string :=
  match items with
  | [] => EmptyString
  | item :: rest =>
      match rest with
      | [] => item
      | _ :: _ => item ++ sep ++ str_join sep rest
      end
  end.

Definition max_chars_per_line : Z := 80.

(** The loop over [words] in [fill_text_placeholder], with its three
    variables, and the [if current_line:] after it. *)
Fixpoint wrap_words (words lines current_line : list string) (current_length : Z)
    : list string :=
  match words with
  | [] =>
      match current_line with
      | [] => lines
      | _ :: _ => (lines ++ [str_join " " current_line])%list
      end
  | word :: rest =>
      if (max_chars_per_line <? current_length + len word + 1)
         && negb (bool_decide (current_line = []))
      then wrap_words rest (lines ++ [str_join " " current_line])%list [word] (len word)
      else wrap_words rest lines (current_line ++ [word])%list
             (current_length + len word + 1)
  end.

(** [lines], as computed before the paragraphs are written: the text is cut
    at its newlines if it has any; else, if it is longer than 200
    characters, its words are wrapped; else it is one line. *)
Definition text_lines (text_content : string) : list string :=
  if str_contains newline text_content then str_split (ascii_of_nat 10) text_content
  else if 200 <? len text_content then wrap_words (str_words text_content) [] [] 0
  else [text_content].

(** The loop over [lines] that writes the paragraphs: a line that is blank
    after [strip()] is skipped ([continue]); the others give, in order, the
    texts assigned to a paragraph ([p.text = line.strip()]). *)
Definition paragraph_texts (lines : list string) : list string :=
  str_strip <$> filter (λ line, str_strip line ≠ EmptyString) lines.

End TextLayout.

(** ** Python's built-ins on values

    [str(x)] of a value that is no text, and the truth value of a [float],
    are Python's and are kept abstract: the functions that need them take
    them as a parameter. *)

Module Builtins.
Import Py.

Record python : Type := {
  py_str : json -> string;
  float_truth : string -> bool
}.

(** [bool(v)] *)
Definition truthy (py : python) (v : json) : bool :=
  match v with
  | JNull => false
  | JBool b => b
  | JInt z => negb (z =? 0)
  | JFloat lexeme => float_truth py lexeme
  | JStr s => negb (String.eqb s EmptyString)
  | JArr items => negb (bool_decide (items = []))
  | JObj members => negb (bool_decide (members = []))
  end.

(** [v[key]]: [None] when Python raises ([KeyError], or [TypeError] on a
    value that is no [dict]). *)
Definition index (v : json) (key : string) : option json :=
  match v with
  | JObj d => dict_get key d
  | _ => None
  end.

(** [d.get(key)], [JNull] being Python's [None]. *)
Definition get_or_none (key : string) (d : json) : json :=
  match d with
  | JObj members => dict_get_default key JNull members
  | _ => JNull
  end.

(** [v[:n]]: [None] when Python raises, the value being neither text nor a
    list. *)
Definition sliced (n : nat) (v : json) : option json :=
  match v with
  | JStr s => Some (JStr (str_take n s))
  | JArr items => Some (JArr (take n items))
  | _ => None
  end.

End Builtins.

(** ** [utils/web_search.py]: images, business information, and the whole
    web search *)

Module WebData.
Import Py Builtins WebSearch.

(** What the image search needs from outside: the GET to the photo provider
    with [raise_for_status] and [response.json()], and Python's built-ins. *)
Record image_service : Type := {
  unsplash_get : json -> Z -> result json;
  builtins :> python
}.

(** The calls of the whole web search: those of the text functions, and the
    photo searches. *)
Inductive web_call : Type :=
| Text (c : call)
| ImageSearch (query : json) (per_page : Z).

Definition lift {A} (m : traced call A) : traced web_call A := (Text <$> m.1, m.2).

(** [photo.get('description') or photo.get('alt_description') or 'Stock Photo'] *)
Definition photo_title (u : image_service) (photo : json) : json :=
  if truthy u (get_or_none "description" photo) then get_or_none "description" photo
  else if truthy u (get_or_none "alt_description" photo)
       then get_or_none "alt_description" photo
       else JStr "Stock Photo".

(** The two entries appended for one photo; [None] when one of the lookups
    raises, which happens before anything is appended. *)
Definition photo_entries (u : image_service) (query photo : json) : option (json * json) :=
  urls ← index photo "urls";
  image_url ← index urls "regular";
  download_url ← index urls "full";
  let title := photo_title u photo in
  user ← index photo "user";
  photographer ← index user "name";
  user_links ← index user "links";
  photographer_url ← index user_links "html";
  links ← index photo "links";
  source ← index links "html";
  Some (JObj [ ("url", image_url);
               ("download_url", download_url);
               ("title", title);
               ("source", source);
               ("photographer", photographer);
               ("photographer_url", photographer_url);
               ("type", JStr "generic") ],
        JObj [ ("type", JStr "image");
               ("url", image_url);
               ("source", source);
               ("description", JStr ("Stock photo from Unsplash: " ++ py_str u query));
               ("photographer", photographer);
               ("photographer_url", photographer_url) ]).

(** [all_results] and [citations] *)
Definition gallery : Type := list json * list json.

(** The loop over the photos of one reply: it stops at the first photo that
    raises, keeping what was appended. *)
Fixpoint photo_loop (u : image_service) (query : json) (photos : list json) (g : gallery)
    : gallery :=
  match photos with
  | [] => g
  | photo :: rest =>
      match photo_entries u query photo with
      | Some (image, citation) =>
          photo_loop u query rest ((g.1 ++ [image])%list, (g.2 ++ [citation])%list)
      | None => g
      end
  end.

(** The body of the [try] for one query, after the GET: anything but an
    object whose [results] is an array has no photo to give, or raises before
    the first one. *)
Definition photos_of_reply (u : image_service) (query data : json) (g : gallery) : gallery :=
  match data with
  | JObj d =>
      match dict_get_default "results" (JArr []) d with
      | JArr photos => photo_loop u query photos g
      | _ => g
      end
  | _ => g
  end.

(** The loop over the queries; both handlers [continue]. *)
Fixpoint query_loop (u : image_service) (max_results : nat) (queries : list json)
    (g : gallery) : traced web_call gallery :=
  match queries with
  | [] => mret g
  | query :: rest =>
      _ ← tell (ImageSearch query (Z.of_nat max_results));
      match unsplash_get u query (Z.of_nat max_results) with
      | Ok data => query_loop u max_results rest (photos_of_reply u query data g)
      | Raised _ => query_loop u max_results rest g
      end
  end.

(** [search_images], for a [max_results] that is not negative. *)
Definition search_images (w : services) (u : image_service) (company_name : json)
    (company_data : string) (max_results : nat) : traced web_call (list json * list json) :=
  queries ← lift (generate_search_queries w company_name company_data "images");
  let queries := take 2 queries in
  g ← query_loop u max_results queries ([], []);
  mret (take (max_results * 2) g.1, g.2).

(** *** [search_business_info] *)

(** [results], with its four lists. *)
Record business_info : Type := {
  market_info : list json;
  partners : list json;
  trends : list json;
  citations : list json
}.

Definition business_info_dict (results : business_info) : json :=
  JObj [ ("market_info", JArr (market_info results));
         ("partners", JArr (partners results));
         ("trends", JArr (trends results));
         ("citations", JArr (citations results)) ].

(** The entry built from one search result; [None] when the slice raises. *)
Definition info_entry (result : dict) : option json :=
  snippet ← sliced 300 (dict_get_default "body" (JStr EmptyString) result);
  Some (JObj [ ("title", dict_get_default "title" (JStr EmptyString) result);
               ("snippet", snippet);
               ("url", dict_get_default "href" (JStr EmptyString) result) ]).

Definition info_citation (kind : string) (result : dict) : json :=
  JObj [ ("type", JStr kind);
         ("url", dict_get_default "href" (JStr EmptyString) result);
         ("description", dict_get_default "title" (JStr EmptyString) result) ].

Definition add_market_info (entry citation : json) (results : business_info) : business_info :=
  {| market_info := (market_info results ++ [entry])%list;
     partners := partners results;
     trends := trends results;
     citations := (citations results ++ [citation])%list |}.

Definition add_partner (entry citation : json) (results : business_info) : business_info :=
  {| market_info := market_info results;
     partners := (partners results ++ [entry])%list;
     trends := trends results;
     citations := (citations results ++ [citation])%list |}.

(** One of the two loops over search results.  The flag says whether the
    loop was left by an exception, which the handler around both searches
    takes. *)
Fixpoint info_loop (add : json → json → business_info → business_info) (kind : string)
    (search_results : list dict) (results : business_info) : business_info * bool :=
  match search_results with
  | [] => (results, false)
  | result :: rest =>
      match info_entry result with
      | Some entry => info_loop add kind rest (add entry (info_citation kind result) results)
      | None => (results, true)
      end
  end.

Definition search_business_info (w : services) (company_name : json)
    (company_data : string) (max_results : Z) : traced call business_info :=
  let results := {| market_info := []; partners := []; trends := []; citations := [] |} in
  business_queries ← generate_search_queries w company_name company_data "business_info";
  partner_queries ← generate_search_queries w company_name company_data "partners";
  match business_queries return traced call (business_info * bool) with
  | query :: _ =>
      search_results ← search_text_tavily w query max_results;
      mret (info_loop add_market_info "market_info" search_results results)
  | [] => mret (results, false)
  end ≫= λ market : business_info * bool,
  let results := market.1 in
  if market.2 then mret results
  else
    match partner_queries with
    | query :: _ =>
        search_results ← search_text_tavily w query max_results;
        mret (info_loop add_partner "partner" search_results results).1
    | [] => mret results
    end.

(** *** [get_web_data_for_company] *)

Definition get_web_data_for_company (w : services) (u : image_service)
    (company_name : json) (company_data : string) : traced web_call json :=
  found_images ← search_images w u company_name company_data 3;
  found_certs ← lift (search_certifications w company_name company_data);
  business ← lift (search_business_info w company_name company_data 5);
  mret (JObj [ ("images", JArr found_images.1);
               ("certifications", JArr found_certs.1);
               ("business_info", business_info_dict business);
               ("citations",
                JArr (found_images.2 ++ found_certs.2 ++ citations business)%list) ]).

End WebData.

(** ** [utils/generator.py]: the text of a slide *)

Module Slides.
Import Py Builtins TextLayout.

(** [text.replace("**", "").replace("*", "").strip()] *)
Definition without_markdown (text : string) : string :=
  str_strip (str_replace "*" EmptyString (str_replace "**" EmptyString text)).

(** [clean_text]: a number ([bool] is one, in Python) is returned as
    [str(text)], untouched. *)
Definition clean_text (py : python) (text : json) : string :=
  if negb (truthy py text) then EmptyString
  else
    match text with
    | JInt _ | JFloat _ | JBool _ => py_str py text
    | JStr s => without_markdown s
    | JNull | JArr _ | JObj _ => without_markdown (py_str py text)
    end.

(** [for item in items]: the elements of a list, the keys of a [dict];
    [None] when Python raises, the value not being iterable.  (Text is
    wrapped before it gets here.) *)
Definition iterate (items : json) : option (list json) :=
  match items with
  | JArr elements => Some elements
  | JObj members => Some ((λ member, JStr member.1) <$> members)
  | JStr s => Some ((λ c, JStr (String c EmptyString)) <$> list_ascii_of_string s)
  | _ => None
  end.

(** [format_list]; [max_items] is [None] or a number that is not negative,
    [None] in the result stands for an exception. *)
Definition format_list (py : python) (items : json) (max_items : option nat)
    (bullet : string) : option string :=
  if negb (truthy py items) then Some EmptyString
  else
    let items := match items with JStr _ => JArr [items] | _ => items end in
    items ←
      match max_items with
      | Some (S n) => sliced (S n) items
      | Some O | None => Some items
      end;
    elements ← iterate items;
    Some (str_join newline ((λ item, bullet ++ " " ++ clean_text py item) <$> elements)).

(** *** The texts of the template, and the choice of a generator *)

(** The default bullet, U+2022: one character that is no white space, no
    newline and no asterisk, which is all that matters here. *)
Definition bullet : string := String (ascii_of_nat 149) EmptyString.

(** [d.get(key, default)]: [None] when Python raises, [d] being no [dict]. *)
Definition field (key : string) (default : json) (d : json) : option json :=
  match d with
  | JObj members => Some (dict_get_default key default members)
  | _ => None
  end.

(** [[cert.get('name', '') for cert in structured_data.get('web_data', {})
      .get('certifications', [])]] *)
Definition certification_names (structured_data : dict) : option json :=
  certifications ←
    field "certifications" (JArr []) (dict_get_default "web_data" (JObj []) structured_data);
  elements ← iterate certifications;
  names ← mapM (field "name" (JStr EmptyString)) elements;
  Some (JArr names).

(** [clean_text(structured_data.get('financials', {}).get(key, 'N/A'))] *)
Definition financial (py : python) (key : string) (structured_data : dict) : option string :=
  value ← field key (JStr "N/A") (dict_get_default "financials" (JObj []) structured_data);
  Some (clean_text py value).

Definition is_lower (c : ascii) : bool :=
  let n := nat_of_ascii c in (97 <=? n)%nat && (n <=? 122)%nat.

(** [s.upper()] *)
Fixpoint str_upper (s : string) : string :=
  match s with
  | EmptyString => EmptyString
  | String c r =>
      String (if is_lower c then ascii_of_nat (nat_of_ascii c - 32) else c) (str_upper r)
  end.

(** The loop that adds the other financial metrics under their upper-cased
    names, unless the name is taken. *)
Fixpoint add_metrics (py : python) (financials : list (string * json))
    (data_dict : list (string * string)) : list (string * string) :=
  match financials with
  | [] => data_dict
  | (key, value) :: rest =>
      let marker := str_upper key in
      if bool_decide (marker ∈ data_dict.*1) then add_metrics py rest data_dict
      else add_metrics py rest (data_dict ++ [(marker, clean_text py value)])%list
  end.

(** [data_dict], as it is when the filling starts; [None] when building it
    raises. *)
Definition data_dict (py : python) (structured_data : dict) : option (list (string * string)) :=
  let get key default := dict_get_default key default structured_data in
  business_overview ← format_list py (get "business_overview" (JArr [])) (Some 4%nat) bullet;
  project_portfolio ← format_list py (get "product_portfolio" (JArr [])) (Some 8%nat) bullet;
  applications ← format_list py (get "applications" (JArr [])) (Some 8%nat) bullet;
  names ← certification_names structured_data;
  certifications ← format_list py names (Some 8%nat) bullet;
  ebitda ← financial py "ebitda" structured_data;
  roce ← financial py "roce" structured_data;
  roe ← financial py "roe" structured_data;
  debt ← financial py "debt" structured_data;
  investment_highlights ←
    format_list py (get "investment_highlights" (JArr [])) (Some 5%nat) bullet;
  financials ←
    match get "financials" (JObj []) with
    | JObj members => Some members
    | _ => None
    end;
  Some (add_metrics py financials
          [ ("Business_Overview", business_overview);
            ("Project_Portfolio", project_portfolio);
            ("Applications", applications);
            ("Certifications", certifications);
            ("EBITDA", ebitda);
            ("ROCE", roce);
            ("ROE", roe);
            ("DEBT", debt);
            ("Assumptions", clean_text py (get "assumptions" (JStr "N/A")));
            ("metrics_point", clean_text py (get "metrics_point" (JStr "N/A")));
            ("Upcoming_Facility", clean_text py (get "upcoming_facility" (JStr "N/A")));
            ("Sales", clean_text py (get "sales" (JStr "N/A")));
            ("Global_Presence", clean_text py (get "global_presence" (JStr "N/A")));
            ("Investment_Highlights", investment_highlights) ]).

(** What the two generators use of [python-pptx] and of the disk: whether
    the template file exists, whether it loads, everything in
    [create_presentation_from_template] from the filling of the placeholders
    to the save, and [create_presentation_programmatic].  [None] stands for
    an exception. *)
Record deck_tools : Type := {
  template_exists : bool;
  load_template : option unit;
  fill_and_save : list (string * string) -> dict -> string -> option bool;
  create_presentation_programmatic : dict -> string -> option unit
}.

(** The calls made to them. *)
Inductive deck_call : Type :=
| LoadTemplate
| FillAndSave (data_dict : list (string * string)) (output_path : string)
| Programmatic (structured_data : dict) (output_path : string).

Definition create_presentation_from_template (py : python) (tools : deck_tools)
    (structured_data : dict) (output_path : string) : traced deck_call (option bool) :=
  if negb (template_exists tools) then mret (Some false)
  else
    _ ← tell LoadTemplate;
    match load_template tools with
    | None => mret (Some false)
    | Some _ =>
        match data_dict py structured_data with
        | None => mret None
        | Some texts =>
            _ ← tell (FillAndSave texts output_path);
            mret (fill_and_save tools texts structured_data output_path)
        end
    end.

Definition run_programmatic (tools : deck_tools) (structured_data : dict)
    (output_path : string) : traced deck_call (option unit) :=
  _ ← tell (Programmatic structured_data output_path);
  mret (create_presentation_programmatic tools structured_data output_path).

Definition create_presentation (py : python) (tools : deck_tools)
    (structured_data : dict) (output_path : string) : traced deck_call (option unit) :=
  if template_exists tools then
    create_presentation_from_template py tools structured_data output_path ≫=
    λ success : option bool,
      match success with
      | None => mret None
      | Some true => mret (Some tt)
      | Some false => run_programmatic tools structured_data output_path
      end
  else run_programmatic tools structured_data output_path.

End Slides.

(** ** [utils/generator.py]: the customer images *)

Module Customers.
Import Py Builtins Slides.

(** What [insert_customer_images_by_placeholder] asks of
    [download_image_to_temp]. *)
Inductive request : Type :=
| Download (image_url filename : string).

(** [partners], as chosen from [partners_data]. *)
Definition chosen (partners_data : json) : json :=
  match partners_data with
  | JArr _ => partners_data
  | JObj d =>
      match dict_get "partners" d with
      | Some partners => partners
      | None => JArr []
      end
  | _ => JArr []
  end.

(** [a or b] *)
Definition py_or (py : python) (a b : json) : json := if truthy py a then a else b.

(** The entry appended for a general image; [None] when [img] is no
    [dict]. *)
Definition general_customer (py : python) (img : json) : option json :=
  match img with
  | JObj d =>
      Some (JObj [ ("title", dict_get_default "title" (JStr "Customer") d);
                   ("image_url",
                    py_or py (get_or_none "url" img) (get_or_none "download_url" img)) ])
  | _ => None
  end.

(** The block under [if not partners]: [web_data] is what the slide carries
    as [_web_data], or the empty [dict].  Appending is possible to the empty
    list only. *)
Definition with_general_images (py : python) (partners web_data : json) : option json :=
  if truthy py partners then Some partners
  else
    general_images ← field "images" (JArr []) web_data;
    if negb (truthy py general_images) then Some partners
    else
      shown ← sliced 3 general_images;
      elements ← iterate shown;
      match elements, partners with
      | [], _ => Some partners
      | _ :: _, JArr [] => entries ← mapM (general_customer py) elements; Some (JArr entries)
      | _ :: _, _ => None
      end.

(** [len(v)] and [v[i]] *)
Definition py_len (v : json) : option nat :=
  match v with
  | JArr items => Some (length items)
  | JStr s => Some (String.length s)
  | JObj members => Some (length members)
  | _ => None
  end.

Definition item (v : json) (i : nat) : option json :=
  match v with
  | JArr items => items !! i
  | JStr s => (λ c, JStr (String c EmptyString)) <$> list_ascii_of_string s !! i
  | _ => None
  end.

(** [partner.get('image_url') or partner.get('image') or partner.get('url')] *)
Definition partner_image_url (py : python) (partner : json) : option json :=
  match partner with
  | JObj _ =>
      Some (py_or py (get_or_none "image_url" partner)
              (py_or py (get_or_none "image" partner) (get_or_none "url" partner)))
  | _ => None
  end.

(** [image_url and image_url.startswith('http')]: the URL to download, if
    any; the outer [None] is for a value that is true but no text. *)
Definition wanted (py : python) (image_url : json) : option (option string) :=
  if truthy py image_url then
    match image_url with
    | JStr s => Some (if str_startswith "http" s then Some s else None)
    | _ => None
    end
  else Some None.

(** The loop over the placeholders, from position [i] on. *)
Fixpoint image_loop (py : python) (partners : json) (i : nat) (placeholder_indices : list Z)
    : traced request (option unit) :=
  match placeholder_indices with
  | [] => mret (Some tt)
  | _ :: rest =>
      match py_len partners with
      | None => mret None
      | Some n =>
          if (n <=? i)%nat then mret (Some tt)
          else
            match
              partner ← item partners i;
              image_url ← partner_image_url py partner;
              wanted py image_url
            with
            | None => mret None
            | Some None => image_loop py partners (S i) rest
            | Some (Some image_url) =>
                _ ← tell (Download image_url ("customer_" ++ str_of_nat i ++ ".jpg"));
                image_loop py partners (S i) rest
            end
      end
  end.

(** The requests [insert_customer_images_by_placeholder] makes; the value is
    [None] when an exception leaves it. *)
Definition insert_customer_images_by_placeholder (py : python)
    (partners_data web_data : json) (placeholder_indices : list Z)
    : traced request (option unit) :=
  if negb (truthy py partners_data) then mret (Some tt)
  else
    match with_general_images py (chosen partners_data) web_data with
    | None => mret None
    | Some partners => image_loop py partners 0 placeholder_indices
    end.

End Customers.

(** ** [main.py]: the entry point *)

Module EntryPoint.
Import Py OsPath Main.

(** The two lines printed when the folder is not there. *)
Inductive refusal : Type :=
| FolderDoesNotExist (target_company : string)
| PleaseCreateIt.

(** [os.path.exists(p)] in the working directory [cwd]: a relative path is
    resolved against it, the file system being the set of absolute paths
    that exist. *)
Definition exists_from (cwd : string) (fs : gset string) (p : string) : bool :=
  path_exists fs (join cwd p).

(** [sys.argv[1]] if there is one, else the default folder. *)
Definition target_company_of (argv : list string) : string :=
  match argv with
  | _ :: target_company :: _ => target_company
  | _ => "Test_Company"
  end.

(** The block under [if __name__ == "__main__"]. *)
Definition main (cwd : string) (fs : gset string) (st : stages) (argv : list string)
    : traced (event + refusal) (result unit) :=
  let target_company := target_company_of argv in
  if exists_from cwd fs (join_all "data" ["input"; target_company])
  then
    let run := run_pipeline cwd st target_company in
    (inl <$> trace_of run, value_of run)
  else
    _ ← tell (inr (FolderDoesNotExist target_company));
    _ ← tell (inr PleaseCreateIt);
    mret (Ok tt).

End EntryPoint.

(** ** [main.py]: the calls outside every [try]

    [run_pipeline] makes three calls that no [try] of its own surrounds:
    [os.makedirs(output_dir, exist_ok=True)], [ingest_company_data] and
    [analyze_data].  [Main.run_pipeline] has the runs in which the first
    and the last of them return.  Here both may raise: [os.makedirs] when
    the directory cannot be made (a file of that name is in the way, or the
    permission is missing), [analyze_data] when it fails before its own
    [try], where it builds the model client and the prompt.  Console output
    and [os.getcwd] are taken to return. *)

Module Orchestrator.
Import Py OsPath Main.

Record calls : Type := {
  makedirs : string -> result unit;
  ingest_company_data : string -> result string;
  analyze_data : string -> result (option dict);
  get_web_data_for_company : json -> string -> result json;
  create_presentation : dict -> string -> result unit
}.

Definition run_pipeline (cwd : string) (w : calls) (company_folder_name : string)
    : traced event (result unit) :=
  _ ← tell (Print (Starting company_folder_name));
  _ ← tell (Print Rule);
  let base_dir := cwd in
  let input_dir := input_dir_of base_dir company_folder_name in
  let output_dir := output_dir_of base_dir in
  _ ← tell (Makedirs output_dir);
  match makedirs w output_dir with
  | Raised e => mret (Raised e)
  | Ok _ =>
      let output_pptx_path := output_pptx_path_of base_dir company_folder_name in
      _ ← tell (Print (Step1 input_dir));
      _ ← tell (Ingest input_dir);
      match ingest_company_data w input_dir with
      | Raised e => mret (Raised e)
      | Ok raw_text =>
          if too_short raw_text then
            _ ← tell (Print NoTextExtracted);
            mret (Ok tt)
          else
            _ ← tell (Print (Extracted (len raw_text)));
            _ ← tell (Print Step2);
            _ ← tell (Analyze raw_text);
            match analyze_data w raw_text with
            | Raised e => mret (Raised e)
            | Ok None | Ok (Some []) =>
                _ ← tell (Print AgentFailed);
                mret (Ok tt)
            | Ok (Some structured_data) =>
                let codename :=
                  dict_get_default "company_codename" (JStr "Unknown Project")
                    structured_data in
                let company_name :=
                  dict_get_default "company_name" (JStr company_folder_name)
                    structured_data in
                _ ← tell (Print (AnalysisComplete codename));
                _ ← tell (Print Step3);
                _ ← tell (WebSearch company_name raw_text);
                structured_data ←
                  match get_web_data_for_company w company_name raw_text with
                  | Ok web_data =>
                      _ ← tell (Print WebSearchComplete);
                      mret (dict_set "web_data" web_data structured_data)
                  | Raised e =>
                      _ ← tell (Print (WebSearchError e));
                      _ ← tell (Print ContinuingWithoutWebData);
                      mret (dict_set "web_data" empty_web_data structured_data)
                  end;
                _ ← tell (Print Step4);
                _ ← tell (CreatePresentation structured_data output_pptx_path);
                match create_presentation w structured_data output_pptx_path with
                | Ok _ =>
                    _ ← tell (Print PptSaved);
                    _ ← tell (Print Rule);
                    _ ← tell (Print (PipelineComplete output_pptx_path));
                    _ ← tell (Print Rule);
                    mret (Ok tt)
                | Raised e =>
                    _ ← tell (Print (GeneratorError e));
                    mret (Ok tt)
                end
            end
      end
  end.

(** The calls of [Main.stages]: the output directory can be made and the
    extractor returns. *)
Definition returning (st : stages) : calls :=
  {| makedirs := λ _, Ok tt;
     ingest_company_data := Main.ingest_company_data st;
     analyze_data := λ raw_text, Ok (Main.analyze_data st raw_text);
     get_web_data_for_company := Main.get_web_data_for_company st;
     create_presentation := Main.create_presentation st |}.

End Orchestrator.

(** * Properties *)

(** ** The extractor's failure modes *)

Module AgentProps.
Import Py Json Agent.

(** A reply that is no JSON at all, and a corpus to send. *)
Definition apology : string := "I am sorry, I cannot process this request.".
Definition sample_corpus : string :=
  "Acme Valves makes industrial valves for the oil and gas sector.".

Lemma apology_is_not_json : json_loads (clean_json_string apology) = None.
Proof. vm_compute. reflexivity. Qed.

Lemma apology_raises :
  json_loads_raising (clean_json_string apology) = Raised (JSONDecodeError "Expecting value").
Proof. vm_compute. reflexivity. Qed.

Section Extractor.

Variable loads : string -> result json.
Variable chain_invoke : string -> llm_outcome.

(** Whatever comes back is a record or nothing: the three outcomes of the
    [try]. *)
Lemma analyze_data_cases raw_text :
  analyze_data loads chain_invoke raw_text = None ∨
  analyze_data loads chain_invoke raw_text = Some error_record ∨
  ∃ content data,
    chain_invoke raw_text = Replies content ∧
    loads (clean_json_string content) = Ok (JObj data) ∧
    analyze_data loads chain_invoke raw_text = Some data.
Proof.
  unfold analyze_data.
  destruct (chain_invoke raw_text) as [e|content].
  - destruct (is_JSONDecodeError e); auto.
  - destruct (loads (clean_json_string content)) as [v|e] eqn:Hl.
    + destruct v as [| | | | | |data]; auto.
      right; right. exists content, data. auto.
    + destruct (is_JSONDecodeError e); auto.
Qed.

(** A reply that decodes to something other than an object gives nothing:
    [data.get] raises inside the [try]. *)
Lemma analyze_data_not_an_object raw_text content v :
  chain_invoke raw_text = Replies content →
  loads (clean_json_string content) = Ok v →
  (∀ data, v ≠ JObj data) →
  analyze_data loads chain_invoke raw_text = None.
Proof.
  intros Hc Hl Hv. unfold analyze_data. rewrite Hc, Hl.
  destruct v; try reflexivity. exfalso. eapply Hv. reflexivity.
Qed.

(** The answer to an exception depends on its class alone, not on the call
    that raised it: the placeholder record for a [json.JSONDecodeError],
    [None] for every other class, from [chain.invoke] and from [json.loads]
    alike. *)
Lemma handler_by_class raw_text :
  (∀ e,
     chain_invoke raw_text = Raises e →
     analyze_data loads chain_invoke raw_text =
       if is_JSONDecodeError e then Some error_record else None) ∧
  (∀ content e,
     chain_invoke raw_text = Replies content →
     loads (clean_json_string content) = Raised e →
     analyze_data loads chain_invoke raw_text =
       if is_JSONDecodeError e then Some error_record else None).
Proof.
  unfold analyze_data. split.
  - intros e ->. reflexivity.
  - intros content e -> ->. reflexivity.
Qed.

(** C2, as amended.  On a reply that [json.loads] rejects with a
    [json.JSONDecodeError], the record returned has empty
    [product_portfolio], [applications] and [investment_highlights], an empty
    [financials] mapping and the codename "Project Error"; its
    [business_overview] is the one-item list that says so. *)
Theorem C2_placeholder_fields raw_text content e :
  chain_invoke raw_text = Replies content →
  loads (clean_json_string content) = Raised e →
  is_JSONDecodeError e = true →
  ∃ record,
    analyze_data loads chain_invoke raw_text = Some record ∧
    dict_get "company_codename" record = Some (JStr "Project Error") ∧
    dict_get "product_portfolio" record = Some (JArr []) ∧
    dict_get "applications" record = Some (JArr []) ∧
    dict_get "investment_highlights" record = Some (JArr []) ∧
    dict_get "financials" record = Some (JObj []) ∧
    dict_get "business_overview" record = Some (JArr [JStr "AI could not process data."]).
Proof.
  intros Hc Hl He. exists error_record.
  split.
  - unfold analyze_data. rewrite Hc, Hl, He. reflexivity.
  - repeat split; reflexivity.
Qed.

End Extractor.

(** The chain raising a JSON decode error of its own, as an HTTP client does
    on a body that is no JSON. *)
Definition decode_error : exn :=
  JSONDecodeError "Expecting value: line 1 column 1 (char 0)".

(** The chain failing on the network. *)
Definition connection_error : exn := OtherException "ConnectionError" "timed out".

(** A reply of 2000 opening brackets, ['[' * 2000]. *)
Definition deep_reply : string := str_times "[" 2000.

Lemma deep_reply_is_not_json : json_loads (clean_json_string deep_reply) = None.
Proof. vm_compute. reflexivity. Qed.

Lemma deep_reply_raises :
  loads_within 1000 (clean_json_string deep_reply) = Raised recursion_error.
Proof. vm_compute. reflexivity. Qed.

(** C1 at its failing inputs.  The handlers of [analyze_data] go by the class
    of the exception and not by the call that raised it, so the two failure
    modes are not told apart as the claim has it.  A model call that itself
    raises a [json.JSONDecodeError] is answered with the placeholder record,
    not with [None].  A reply of 2000 opening brackets is no valid JSON, yet
    [json.loads] raises [RecursionError] on it and the answer is [None], not
    the placeholder.  The two cases the claim was read from do hold: a reply
    rejected with a [json.JSONDecodeError] gives the placeholder, whose
    codename is "Project Error", and a call that fails on the network gives
    [None]. *)
Theorem C1_handler_follows_exception_class :
  analyze_data (loads_within 1000) (λ _, Raises decode_error) sample_corpus
    = Some error_record ∧
  json_loads (clean_json_string deep_reply) = None ∧
  analyze_data (loads_within 1000) (λ _, Replies deep_reply) sample_corpus = None ∧
  analyze_data (loads_within 1000) (λ _, Replies apology) sample_corpus
    = Some error_record ∧
  dict_get "company_codename" error_record = Some (JStr "Project Error") ∧
  analyze_data (loads_within 1000) (λ _, Raises connection_error) sample_corpus = None.
Proof.
  split; [|split; [|split; [|split; [|split]]]].
  - apply (proj1 (handler_by_class (loads_within 1000) (λ _, Raises decode_error)
                    sample_corpus) decode_error eq_refl).
  - exact deep_reply_is_not_json.
  - apply (proj2 (handler_by_class (loads_within 1000) (λ _, Replies deep_reply)
                    sample_corpus) deep_reply recursion_error eq_refl deep_reply_raises).
  - vm_compute. reflexivity.
  - reflexivity.
  - reflexivity.
Qed.

(** C2 as stated fails: the placeholder's [business_overview] is not empty. *)
Lemma C2_business_overview_not_empty :
  ∃ record,
    json_loads (clean_json_string apology) = None ∧
    analyze_data json_loads_raising (λ _, Replies apology) sample_corpus = Some record ∧
    dict_get "business_overview" record = Some (JArr [JStr "AI could not process data."]) ∧
    dict_get "business_overview" record ≠ Some (JArr []).
Proof.
  exists error_record. split; [apply apology_is_not_json|].
  split; [vm_compute; reflexivity|]. split; [reflexivity | discriminate].
Qed.

Lemma analyze_data_not_an_object_witness :
  analyze_data json_loads_raising (λ _, Replies "[1, 2]") sample_corpus = None.
Proof.
  apply (analyze_data_not_an_object json_loads_raising (λ _, Replies "[1, 2]") sample_corpus
           "[1, 2]" (JArr [JInt 1; JInt 2]) eq_refl eq_refl).
  intros data. discriminate.
Defined.

Lemma C2_placeholder_fields_witness :
  ∃ record,
    analyze_data json_loads_raising (λ _, Replies apology) sample_corpus = Some record ∧
    dict_get "company_codename" record = Some (JStr "Project Error") ∧
    dict_get "product_portfolio" record = Some (JArr []) ∧
    dict_get "applications" record = Some (JArr []) ∧
    dict_get "investment_highlights" record = Some (JArr []) ∧
    dict_get "financials" record = Some (JObj []) ∧
    dict_get "business_overview" record = Some (JArr [JStr "AI could not process data."]).
Proof.
  apply (C2_placeholder_fields json_loads_raising (λ _, Replies apology) sample_corpus apology
           (JSONDecodeError "Expecting value") eq_refl apology_raises eq_refl).
Defined.

End AgentProps.

(** ** Facts about text used below *)

Module StrFacts.
Import Py.

Lemma app_assoc (a b c : string) : (a ++ b) ++ c = a ++ b ++ c.
Proof. induction a as [|x a IH]; simpl; [reflexivity | now rewrite IH]. Qed.

Lemma app_nil_r (a : string) : a ++ EmptyString = a.
Proof. induction a as [|x a IH]; simpl; [reflexivity | now rewrite IH]. Qed.

Lemma length_app (a b : string) :
  String.length (a ++ b) = (String.length a + String.length b)%nat.
Proof. induction a as [|x a IH]; simpl; [reflexivity | now rewrite IH]. Qed.

Lemma app_inv_tail (a b c : string) : a ++ c = b ++ c → a = b.
Proof.
  revert b. induction a as [|x a IH]; intros [|y b] H; simpl in *.
  - reflexivity.
  - apply (f_equal String.length) in H. simpl in H. rewrite length_app in H. lia.
  - apply (f_equal String.length) in H. simpl in H. rewrite length_app in H. lia.
  - injection H as -> H. f_equal. now apply IH.
Qed.

Lemma len_app (a b : string) : len (a ++ b) = len a + len b.
Proof. unfold len. rewrite length_app. lia. Qed.

Lemma prefix_iff (p s : string) :
  String.prefix p s = true ↔ ∃ post, s = p ++ post.
Proof.
  revert s. induction p as [|c p IH]; intros s.
  - split; [intros _; exists s; reflexivity | intros _; destruct s; reflexivity].
  - destruct s as [|d s]; simpl.
    + split; [discriminate | intros [post H]; discriminate].
    + destruct (Ascii.ascii_dec c d) as [->|Hne].
      * rewrite IH. split; intros [post H]; exists post; simpl; congruence.
      * split; [discriminate | intros [post H]; simpl in H; congruence].
Qed.

Lemma str_contains_nil sub :
  str_contains sub EmptyString = String.prefix sub EmptyString.
Proof. apply orb_false_r. Qed.

Lemma str_contains_cons sub c s :
  str_contains sub (String c s) = String.prefix sub (String c s) || str_contains sub s.
Proof. reflexivity. Qed.

(** [sub in s] holds exactly when [sub] occurs in [s]. *)
Lemma str_contains_iff (sub s : string) :
  str_contains sub s = true ↔ ∃ pre post, s = pre ++ sub ++ post.
Proof.
  induction s as [|c s IH].
  - rewrite str_contains_nil, prefix_iff. split.
    + intros [post H]. exists EmptyString, post. exact H.
    + intros [[|d pre] [post H]]; simpl in H; [eauto | discriminate].
  - rewrite str_contains_cons, orb_true_iff, prefix_iff, IH. split.
    + intros [[post H] | [pre [post H]]].
      * exists EmptyString, post. exact H.
      * exists (String c pre), post. simpl. now rewrite H.
    + intros [[|d pre] [post H]]; simpl in H.
      * left. eauto.
      * right. exists pre, post. congruence.
Qed.

End StrFacts.

(** ** The ingestor's signals and section headers *)

Module IngestorProps.
Import Py OsPath Ingestor.

(** The sections the loop appends, by kind of file. *)
Definition text_section (filename content : string) : string :=
  nl ++ nl ++ "--- FILE: " ++ filename ++ " ---" ++ nl ++ content.

Definition pdf_section (filename text : string) : string :=
  nl ++ nl ++ "--- FILE: " ++ filename ++ " (PDF Content) ---" ++ nl ++ text.

Definition sheet_section (filename : string) (sheet : string * string) : string :=
  nl ++ nl ++ "--- FILE: " ++ filename ++ " | SHEET: " ++ sheet.1 ++ " ---" ++ nl ++ sheet.2.

Fixpoint concat_sections (sections : list string) : string :=
  match sections with
  | [] => EmptyString
  | s :: rest => s ++ concat_sections rest
  end.

(** Sheets that were all read. *)
Definition read_sheets (sheets : list (string * string)) : list (string * result string) :=
  (λ sheet, (sheet.1, Ok sheet.2)) <$> sheets.

Lemma excel_text_read filename sheets combined_text :
  excel_text filename (read_sheets sheets) combined_text =
  combined_text ++ concat_sections (sheet_section filename <$> sheets).
Proof.
  revert combined_text.
  induction sheets as [|[sheet_name table_text] rest IH]; intros combined_text; simpl.
  - now rewrite StrFacts.app_nil_r.
  - rewrite IH. unfold sheet_section; simpl.
    now rewrite StrFacts.app_assoc.
Qed.

(** The text of a PDF whose pages were all extracted: each non-empty page
    followed by a newline. *)
Fixpoint pages_text (pages : list (option string)) : string :=
  match pages with
  | [] => EmptyString
  | Some page_text :: rest =>
      if String.eqb page_text EmptyString then pages_text rest
      else page_text ++ nl ++ pages_text rest
  | None :: rest => pages_text rest
  end.

Lemma pdf_text_extracted pages text :
  pdf_text (Ok <$> pages) text = Ok (text ++ pages_text pages).
Proof.
  revert text. induction pages as [|[page_text|] rest IH]; intros text; simpl.
  - now rewrite StrFacts.app_nil_r.
  - destruct (String.eqb page_text EmptyString); rewrite IH; [reflexivity|].
    now rewrite !StrFacts.app_assoc.
  - apply IH.
Qed.

(** Hidden files contribute nothing. *)
Lemma ingest_hidden_files d folder_path files combined_text :
  forallb (str_startswith ".") files = true →
  fold_left (ingest_file d folder_path) files combined_text = combined_text.
Proof.
  revert combined_text. induction files as [|f rest IH]; intros combined_text H; simpl in *.
  - reflexivity.
  - apply andb_true_iff in H as [Hf Hrest].
    unfold ingest_file at 2. rewrite Hf. now apply IH.
Qed.

(** The signal for a folder that does not exist. *)
Lemma ingest_missing_folder d folder_path :
  folder_path ∉ paths d →
  ingest_company_data d folder_path = Ok (folder_not_found folder_path).
Proof.
  intros H. unfold ingest_company_data, path_exists.
  rewrite bool_decide_eq_false_2 by assumption. reflexivity.
Qed.

Lemma folder_not_found_len folder_path :
  len (folder_not_found folder_path) = 27 + len folder_path.
Proof. unfold folder_not_found. rewrite StrFacts.len_app. reflexivity. Qed.

(** On a listing with entries, the corpus is the loop over them. *)
Lemma ingest_listing d folder_path files :
  folder_path ∈ paths d →
  listdir d folder_path = Ok files →
  files ≠ [] →
  ingest_company_data d folder_path =
  Ok (fold_left (ingest_file d folder_path) files EmptyString).
Proof.
  intros Hin Hls Hne. unfold ingest_company_data, path_exists.
  rewrite bool_decide_eq_true_2 by assumption. simpl. rewrite Hls.
  destruct files; [contradiction | reflexivity].
Qed.

(** C6, as amended.  A visible file's section starts with two newlines, then
    a header line, then the content.  The header is [--- FILE: <name> ---]
    for text and markdown, whose content follows verbatim;
    [--- FILE: <name> (PDF Content) ---] for a PDF; and
    [--- FILE: <name> | SHEET: <sheet> ---] for each sheet of a
    spreadsheet.  The corpus of a folder is these sections in listing
    order. *)
Theorem C6_section_headers d folder_path filename combined_text :
  str_startswith "." filename = false →
  (∀ content,
     str_endswith_any [".txt"; ".md"] (str_lower filename) = true →
     read_text d (join folder_path filename) = Ok content →
     ingest_file d folder_path combined_text filename =
     combined_text ++ nl ++ nl ++ "--- FILE: " ++ filename ++ " ---" ++ nl ++ content) ∧
  (∀ pages text,
     str_endswith_any [".txt"; ".md"] (str_lower filename) = false →
     str_endswith ".pdf" (str_lower filename) = true →
     pdf_pages d (join folder_path filename) = Ok pages →
     pdf_text pages EmptyString = Ok text →
     ingest_file d folder_path combined_text filename =
     combined_text ++ nl ++ nl ++ "--- FILE: " ++ filename ++ " (PDF Content) ---"
       ++ nl ++ text) ∧
  (∀ sheets,
     str_endswith_any [".txt"; ".md"] (str_lower filename) = false →
     str_endswith ".pdf" (str_lower filename) = false →
     str_endswith_any [".xlsx"; ".xls"] (str_lower filename) = true →
     excel_sheets d (join folder_path filename) = Ok (read_sheets sheets) →
     ingest_file d folder_path combined_text filename =
     combined_text ++ concat_sections (sheet_section filename <$> sheets)) ∧
  (∀ files,
     folder_path ∈ paths d →
     listdir d folder_path = Ok files →
     files ≠ [] →
     ingest_company_data d folder_path =
     Ok (fold_left (ingest_file d folder_path) files EmptyString)).
Proof.
  intros Hvisible. repeat split.
  - intros content Htxt Hread. unfold ingest_file.
    rewrite Hvisible, Htxt, Hread. reflexivity.
  - intros pages text Htxt Hpdf Hpages Htext. unfold ingest_file.
    rewrite Hvisible, Htxt, Hpdf, Hpages, Htext. reflexivity.
  - intros sheets Htxt Hpdf Hxls Hsheets. unfold ingest_file.
    rewrite Hvisible, Htxt, Hpdf, Hxls, Hsheets. apply excel_text_read.
  - intros files. apply ingest_listing.
Qed.

(** C9, as amended.  A folder whose listing is empty gives the "no files"
    signal; a folder whose entries are all hidden gives the empty text.  In
    neither case does the ingestor raise. *)
Theorem C9_no_visible_files d folder_path files :
  folder_path ∈ paths d →
  listdir d folder_path = Ok files →
  forallb (str_startswith ".") files = true →
  ingest_company_data d folder_path =
  Ok (match files with [] => no_files_found | _ :: _ => EmptyString end).
Proof.
  intros Hin Hls Hhidden. destruct files as [|f rest].
  - unfold ingest_company_data, path_exists.
    rewrite bool_decide_eq_true_2 by assumption. simpl. now rewrite Hls.
  - rewrite (ingest_listing d folder_path (f :: rest)) by (assumption || discriminate).
    now rewrite ingest_hidden_files.
Qed.

(** *** Concrete folders *)

Definition unreadable : exn := OtherException "OSError" "cannot read".

(** A folder [folder] with the given listing; text files hold [content],
    PDFs have the pages [pages], spreadsheets the sheets [sheets]. *)
Definition folder_disk (folder : string) (files : list string) (content : string)
    (pages : list (option string)) (sheets : list (string * string)) : disk :=
  {| paths := {[folder]};
     listdir := λ p, if String.eqb p folder then Ok files else Raised unreadable;
     read_text := λ _, Ok content;
     pdf_pages := λ _, Ok (Ok <$> pages);
     excel_sheets := λ _, Ok (read_sheets sheets) |}.

Definition acme : string := "/srv/teaser/data/input/Acme".

Definition pdf_folder : disk :=
  folder_disk acme ["report.pdf"] EmptyString [Some "Annual report 2023"] [].

(** C6 as stated fails for a PDF: its header line carries "(PDF Content)",
    so the corpus does not start with the uniform header. *)
Lemma C6_pdf_header_differs :
  ingest_company_data pdf_folder acme =
    Ok (nl ++ nl ++ "--- FILE: report.pdf (PDF Content) ---" ++ nl
          ++ "Annual report 2023" ++ nl) ∧
  ¬ ∃ content,
      ingest_company_data pdf_folder acme =
      Ok (nl ++ nl ++ "--- FILE: report.pdf ---" ++ nl ++ content).
Proof.
  split; [vm_compute; reflexivity|].
  intros [content H]. vm_compute in H. discriminate H.
Qed.

Definition mixed_folder : disk :=
  folder_disk acme ["notes.md"; "report.pdf"; "book.xlsx"]
    "Acme makes valves." [Some "Page one"; None; Some "Page three"]
    [("P&L", "revenue 10"); ("Assets", "plant 4")].

Lemma C6_section_headers_witness :
  ingest_file mixed_folder acme "seen so far" "notes.md" =
    "seen so far" ++ nl ++ nl ++ "--- FILE: notes.md ---" ++ nl ++ "Acme makes valves." ∧
  ingest_file mixed_folder acme "seen so far" "report.pdf" =
    "seen so far" ++ nl ++ nl ++ "--- FILE: report.pdf (PDF Content) ---" ++ nl
      ++ "Page one" ++ nl ++ "Page three" ++ nl ∧
  ingest_file mixed_folder acme "seen so far" "book.xlsx" =
    "seen so far"
      ++ nl ++ nl ++ "--- FILE: book.xlsx | SHEET: P&L ---" ++ nl ++ "revenue 10"
      ++ nl ++ nl ++ "--- FILE: book.xlsx | SHEET: Assets ---" ++ nl ++ "plant 4" ∧
  ingest_company_data mixed_folder acme =
    Ok (fold_left (ingest_file mixed_folder acme)
          ["notes.md"; "report.pdf"; "book.xlsx"] EmptyString).
Proof.
  pose proof (C6_section_headers mixed_folder acme "notes.md" "seen so far" eq_refl) as Hmd.
  pose proof (C6_section_headers mixed_folder acme "report.pdf" "seen so far" eq_refl) as Hpdf.
  pose proof (C6_section_headers mixed_folder acme "book.xlsx" "seen so far" eq_refl) as Hxls.
  split; [|split; [|split]].
  - apply (proj1 Hmd "Acme makes valves." eq_refl eq_refl).
  - apply (proj1 (proj2 Hpdf) _ ("Page one" ++ nl ++ "Page three" ++ nl) eq_refl eq_refl
             eq_refl eq_refl).
  - apply (proj1 (proj2 (proj2 Hxls)) [("P&L", "revenue 10"); ("Assets", "plant 4")]
             eq_refl eq_refl eq_refl eq_refl).
  - apply (proj2 (proj2 (proj2 Hmd))); [set_solver | reflexivity | discriminate].
Defined.

Definition hidden_only : disk :=
  folder_disk acme [".DS_Store"; ".gitkeep"] EmptyString [] [].

Definition empty_folder : disk := folder_disk acme [] EmptyString [] [].

(** C9 as stated fails: a folder holding only dotfiles gives the empty text,
    not the "no files" signal. *)
Lemma C9_dotfiles_give_empty_text :
  ingest_company_data hidden_only acme = Ok EmptyString ∧
  ingest_company_data hidden_only acme ≠ Ok no_files_found.
Proof. split; [vm_compute; reflexivity | vm_compute; discriminate]. Qed.

Lemma C9_no_visible_files_witness :
  ingest_company_data empty_folder acme = Ok no_files_found ∧
  ingest_company_data hidden_only acme = Ok EmptyString.
Proof.
  split.
  - apply (C9_no_visible_files empty_folder acme []); [set_solver | reflexivity | reflexivity].
  - apply (C9_no_visible_files hidden_only acme [".DS_Store"; ".gitkeep"]);
      [set_solver | reflexivity | reflexivity].
Defined.

End IngestorProps.

(** ** The orchestrator *)

Module MainProps.
Import Py OsPath Main.

Ltac run_trace :=
  cbv [mbind mret traced_bind traced_ret tell trace_of value_of] in *.

Lemma dict_get_set_eq key value (d : dict) :
  dict_get key (dict_set key value d) = Some value.
Proof.
  induction d as [|[k v] rest IH]; simpl.
  - now rewrite String.eqb_refl.
  - destruct (String.eqb k key) eqn:Hk; simpl; rewrite Hk; [reflexivity | apply IH].
Qed.

Lemma dict_get_set_ne key key' value (d : dict) :
  key' ≠ key →
  dict_get key' (dict_set key value d) = dict_get key' d.
Proof.
  intros Hne. induction d as [|[k v] rest IH]; simpl.
  - destruct (String.eqb key key') eqn:Hk; [|reflexivity].
    apply String.eqb_eq in Hk. congruence.
  - destruct (String.eqb k key) eqn:Hk; simpl.
    + apply String.eqb_eq in Hk. subst k.
      destruct (String.eqb key key') eqn:Hk'; [|reflexivity].
      apply String.eqb_eq in Hk'. congruence.
    + destruct (String.eqb k key'); [reflexivity | apply IH].
Qed.

(** The lines and calls up to the ingestor's return. *)
Definition ingestion_trace (cwd company_folder_name : string) : list event :=
  [ Print (Starting company_folder_name); Print Rule;
    Makedirs (output_dir_of cwd);
    Print (Step1 (input_dir_of cwd company_folder_name));
    Ingest (input_dir_of cwd company_folder_name) ].

(** The lines and calls from there to the start of the web search. *)
Definition analysis_trace (company_folder_name raw_text : string)
    (structured_data : dict) : list event :=
  [ Print (Extracted (len raw_text)); Print Step2; Analyze raw_text;
    Print (AnalysisComplete
             (dict_get_default "company_codename" (JStr "Unknown Project") structured_data));
    Print Step3;
    WebSearch (dict_get_default "company_name" (JStr company_folder_name) structured_data)
      raw_text ].

(** A corpus that is empty or shorter than 50 characters stops the run with
    the fatal line: the extractor is not called and no presentation is
    written. *)
Lemma short_corpus_aborts cwd st company_folder_name raw_text :
  ingest_company_data st (input_dir_of cwd company_folder_name) = Ok raw_text →
  too_short raw_text = true →
  run_pipeline cwd st company_folder_name =
    ((ingestion_trace cwd company_folder_name ++ [Print NoTextExtracted])%list, Ok tt) ∧
  existsb is_analyze (trace_of (run_pipeline cwd st company_folder_name)) = false ∧
  existsb is_create_presentation (trace_of (run_pipeline cwd st company_folder_name)) = false.
Proof.
  intros Hingest Hshort.
  assert (Hrun : run_pipeline cwd st company_folder_name =
            ((ingestion_trace cwd company_folder_name ++ [Print NoTextExtracted])%list, Ok tt)).
  { unfold run_pipeline. run_trace. rewrite Hingest, Hshort. reflexivity. }
  rewrite Hrun. repeat split; reflexivity.
Qed.

(** The missing-folder text is short enough for that check exactly when the
    path has fewer than 23 characters. *)
Lemma missing_folder_signal d folder_path :
  folder_path ∉ Ingestor.paths d →
  Ingestor.ingest_company_data d folder_path =
    Ok ("Error: Folder not found at " ++ folder_path) ∧
  too_short ("Error: Folder not found at " ++ folder_path) = (len folder_path <? 23).
Proof.
  intros Hmissing. split; [now apply IngestorProps.ingest_missing_folder|].
  unfold too_short. rewrite StrFacts.len_app. simpl String.eqb.
  change (len "Error: Folder not found at ") with 27.
  destruct (len folder_path <? 23) eqn:H; [apply Z.ltb_lt in H | apply Z.ltb_ge in H].
  - apply Z.ltb_lt. lia.
  - apply Z.ltb_ge. lia.
Qed.

(** A longer corpus is handed to the extractor, whatever it says. *)
Lemma long_corpus_reaches_extractor cwd st company_folder_name raw_text :
  ingest_company_data st (input_dir_of cwd company_folder_name) = Ok raw_text →
  too_short raw_text = false →
  ∃ rest,
    trace_of (run_pipeline cwd st company_folder_name) =
    (ingestion_trace cwd company_folder_name
       ++ [Print (Extracted (len raw_text)); Print Step2; Analyze raw_text] ++ rest)%list.
Proof.
  intros Hingest Hlong. unfold run_pipeline. run_trace.
  rewrite Hingest, Hlong.
  destruct (analyze_data st raw_text) as [[|member data]|]; simpl.
  - eexists. reflexivity.
  - destruct (web_step _ _ _ _) as [t1 sd].
    destruct (generation_step _ _ _) as [t2 r]. simpl. eexists. reflexivity.
  - eexists. reflexivity.
Qed.

(** C5.  When the web search raises, the orchestrator prints the error,
    stores the all-empty web data in the record under [web_data], leaving
    the other fields alone, and goes on to call the generator with that
    record; the run returns normally. *)
Theorem C5_web_failure_continues cwd st company_folder_name raw_text structured_data e :
  ingest_company_data st (input_dir_of cwd company_folder_name) = Ok raw_text →
  too_short raw_text = false →
  analyze_data st raw_text = Some structured_data →
  structured_data ≠ [] →
  get_web_data_for_company st
    (dict_get_default "company_name" (JStr company_folder_name) structured_data)
    raw_text = Raised e →
  let with_web := dict_set "web_data" empty_web_data structured_data in
  let output_path := output_pptx_path_of cwd company_folder_name in
  (∃ rest,
     run_pipeline cwd st company_folder_name =
     ((ingestion_trace cwd company_folder_name
         ++ analysis_trace company_folder_name raw_text structured_data
         ++ [ Print (WebSearchError e); Print ContinuingWithoutWebData;
              Print Step4; CreatePresentation with_web output_path ]
         ++ rest)%list,
      Ok tt)) ∧
  dict_get "web_data" with_web = Some empty_web_data ∧
  (∀ key, key ≠ "web_data" → dict_get key with_web = dict_get key structured_data) ∧
  empty_web_data =
    JObj [ ("images", JArr []); ("certifications", JArr []);
           ("business_info", JObj []); ("citations", JArr []) ].
Proof.
  intros Hingest Hlong Hanalyze Hne Hweb with_web output_path.
  split; [|split; [|split]].
  - unfold run_pipeline, web_step, generation_step. run_trace.
    rewrite Hingest, Hlong, Hanalyze.
    destruct structured_data as [|member data]; [contradiction|].
    rewrite Hweb.
    fold with_web. fold output_path.
    destruct (create_presentation st with_web output_path); simpl; eexists; reflexivity.
  - apply dict_get_set_eq.
  - intros key Hkey. now apply dict_get_set_ne.
  - reflexivity.
Qed.

(** *** Concrete runs *)

Definition sample_record : dict :=
  [ ("company_name", JStr "Acme Valves"); ("company_codename", JStr "Project Atlas") ].

Definition sample_text : string :=
  "Acme Valves makes industrial valves for the oil and gas sector.".

Definition timeout_error : exn := OtherException "ConnectionError" "timed out".

(** Stages in which the web search raises and everything else works. *)
Definition web_down : stages :=
  {| ingest_company_data := λ _, Ok sample_text;
     analyze_data := λ _, Some sample_record;
     get_web_data_for_company := λ _ _, Raised timeout_error;
     create_presentation := λ _ _, Ok tt |}.

Lemma C5_web_failure_continues_witness :
  (∃ rest,
     run_pipeline "/srv/teaser" web_down "Acme" =
     ((ingestion_trace "/srv/teaser" "Acme"
         ++ analysis_trace "Acme" sample_text sample_record
         ++ [ Print (WebSearchError timeout_error); Print ContinuingWithoutWebData;
              Print Step4;
              CreatePresentation (dict_set "web_data" empty_web_data sample_record)
                (output_pptx_path_of "/srv/teaser" "Acme") ]
         ++ rest)%list,
      Ok tt)) ∧
  dict_get "web_data" (dict_set "web_data" empty_web_data sample_record)
    = Some empty_web_data.
Proof.
  pose proof (C5_web_failure_continues "/srv/teaser" web_down "Acme" sample_text
                sample_record timeout_error eq_refl eq_refl eq_refl) as H.
  assert (Hne : sample_record ≠ []) by discriminate.
  specialize (H Hne eq_refl). simpl in H.
  destruct H as (Hrun & Hget & _). split; [exact Hrun | exact Hget].
Defined.

(** Stages whose ingestor finds one short note. *)
Definition short_note : stages :=
  {| ingest_company_data := λ _, Ok "Acme makes valves.";
     analyze_data := λ _, Some sample_record;
     get_web_data_for_company := λ _ _, Raised timeout_error;
     create_presentation := λ _ _, Ok tt |}.

Lemma short_corpus_aborts_witness :
  run_pipeline "/srv/teaser" short_note "Acme" =
    ((ingestion_trace "/srv/teaser" "Acme" ++ [Print NoTextExtracted])%list, Ok tt) ∧
  existsb is_analyze (trace_of (run_pipeline "/srv/teaser" short_note "Acme")) = false ∧
  existsb is_create_presentation (trace_of (run_pipeline "/srv/teaser" short_note "Acme"))
    = false.
Proof.
  apply (short_corpus_aborts "/srv/teaser" short_note "Acme" "Acme makes valves."
           eq_refl eq_refl).
Defined.

(** The working directory and folder of the run below; the folder is not on
    disk. *)
Definition project_dir : string := "/home/analyst/kelp-hackathon".
Definition missing_folder : string := "Kalyani_Forge".

Definition empty_disk : Ingestor.disk :=
  {| Ingestor.paths := ∅;
     Ingestor.listdir := λ _, Raised (OtherException "FileNotFoundError" "no such directory");
     Ingestor.read_text := λ _, Raised (OtherException "FileNotFoundError" "no such file");
     Ingestor.pdf_pages := λ _, Raised (OtherException "FileNotFoundError" "no such file");
     Ingestor.excel_sheets := λ _, Raised (OtherException "FileNotFoundError" "no such file") |}.

(** The pipeline with the real ingestor on that disk, the other stages being
    anything. *)
Definition on_empty_disk (analyze : string → option dict)
    (web : json → string → result json) (create : dict → string → result unit) : stages :=
  {| ingest_company_data := Ingestor.ingest_company_data empty_disk;
     analyze_data := analyze;
     get_web_data_for_company := web;
     create_presentation := create |}.

Lemma missing_folder_signal_witness :
  Ingestor.ingest_company_data empty_disk "/tmp/in" = Ok "Error: Folder not found at /tmp/in" ∧
  too_short "Error: Folder not found at /tmp/in" = true.
Proof.
  apply (missing_folder_signal empty_disk "/tmp/in"). apply not_elem_of_empty.
Defined.

(** C3 at its failing input.  The input folder does not exist; the ingestor
    returns its error text, which is 80 characters long because it carries
    the path, so the 50-character check lets it through and the extractor is
    called with the error text as the corpus. *)
Theorem C3_missing_folder_reaches_extractor analyze web create :
  Ingestor.ingest_company_data empty_disk (input_dir_of project_dir missing_folder) =
    Ok "Error: Folder not found at /home/analyst/kelp-hackathon/data/input/Kalyani_Forge" ∧
  too_short "Error: Folder not found at /home/analyst/kelp-hackathon/data/input/Kalyani_Forge"
    = false ∧
  ∃ rest,
    trace_of (run_pipeline project_dir (on_empty_disk analyze web create) missing_folder) =
    (ingestion_trace project_dir missing_folder
       ++ [ Print (Extracted 80); Print Step2;
            Analyze "Error: Folder not found at /home/analyst/kelp-hackathon/data/input/Kalyani_Forge" ]
       ++ rest)%list.
Proof.
  split; [vm_compute; reflexivity|]. split; [vm_compute; reflexivity|].
  apply (long_corpus_reaches_extractor project_dir (on_empty_disk analyze web create)
           missing_folder
           "Error: Folder not found at /home/analyst/kelp-hackathon/data/input/Kalyani_Forge");
    vm_compute; reflexivity.
Qed.

End MainProps.

(** ** Query generation and the certification search *)

Module WebSearchProps.
Import Py Json WebSearch.

Ltac run_trace :=
  cbv [mbind mret traced_bind traced_ret tell trace_of value_of] in *.

(** *** Query generation *)

Definition is_str (v : json) : bool :=
  match v with JStr _ => true | _ => false end.

Lemma forallb_take {A} (f : A → bool) n (l : list A) :
  forallb f l = true → forallb f (take n l) = true.
Proof.
  revert n. induction l as [|x l IH]; intros [|n]; simpl; try reflexivity.
  rewrite !andb_true_iff. intros [Hx Hl]. auto.
Qed.

Lemma fallback_queries_cases search_type :
  generate_fallback_queries search_type ∈
    [ [JStr "generic manufacturing products stock photo"; JStr "industrial facility interior"];
      [JStr "ISO 9001 certification"; JStr "industry certifications"];
      [JStr "industry market trends"; JStr "sector growth analysis"];
      [JStr "business partnerships"; JStr "industry collaborations"];
      [JStr "general search"] ].
Proof.
  unfold generate_fallback_queries, dict_get_default. cbn [dict_get].
  repeat (match goal with |- context [String.eqb ?a ?b] => destruct (String.eqb a b) end;
          [set_solver|]).
  set_solver.
Qed.

Lemma fallback_queries_shape search_type :
  generate_fallback_queries search_type ≠ [] ∧
  (length (generate_fallback_queries search_type) <= 5)%nat ∧
  forallb is_str (generate_fallback_queries search_type) = true.
Proof.
  pose proof (fallback_queries_cases search_type) as H.
  repeat (apply elem_of_cons in H as [-> | H]; [repeat split; simpl; (discriminate || lia)|]).
  now apply elem_of_nil in H.
Qed.

Lemma fallback_queries_unknown search_type :
  search_type ∉ ["images"; "certifications"; "business_info"; "partners"] →
  generate_fallback_queries search_type = [JStr "general search"].
Proof.
  intros H. unfold generate_fallback_queries, dict_get_default. cbn [dict_get].
  repeat (match goal with
          | |- context [String.eqb ?a ?b] =>
              destruct (String.eqb_spec a b); [exfalso; apply H; subst; set_solver|]
          end).
  reflexivity.
Qed.

Lemma generate_search_queries_trace w company_name company_data search_type :
  trace_of (generate_search_queries w company_name company_data search_type) =
  [ModelCall company_name (truncated company_data) search_type].
Proof.
  unfold generate_search_queries. run_trace.
  destruct (chain_invoke w _ _ _) as [e|content]; [reflexivity|].
  destruct (loads w _) as [[| | | | |[|q qs]|]|]; reflexivity.
Qed.

(** The list of queries is never empty and has at most 5 entries. *)
Lemma search_queries_nonempty w company_name company_data search_type :
  value_of (generate_search_queries w company_name company_data search_type) ≠ [] ∧
  (length (value_of (generate_search_queries w company_name company_data search_type))
     <= 5)%nat.
Proof.
  destruct (fallback_queries_shape search_type) as (Hfne & Hflen & _).
  unfold generate_search_queries. run_trace.
  destruct (chain_invoke w _ _ _) as [e|content]; [split; assumption|].
  destruct (loads w _) as [[| | | | |[|q qs]|]|]; try (split; assumption).
  simpl. split; [discriminate|]. rewrite length_take. lia.
Qed.

(** The list returned is never empty and never longer than 5.  On a reply
    that decodes to a non-empty array it is the first 5 entries of that
    array, and these are strings when the array's entries are.  On a reply
    that does not decode, or decodes to anything but a non-empty array, and
    on a call that raises, it is the fallback list of the category, a
    non-empty list of strings, which is ["general search"] for an unknown
    category. *)
Theorem search_queries_bounded w company_name company_data search_type :
  let outcome := chain_invoke w company_name (truncated company_data) search_type in
  let queries :=
    value_of (generate_search_queries w company_name company_data search_type) in
  queries ≠ [] ∧
  (length queries <= 5)%nat ∧
  (∀ content q qs,
     outcome = Replies content →
     loads w (clean_json_string content) = Some (JArr (q :: qs)) →
     queries = take 5 (q :: qs) ∧
     (forallb is_str (q :: qs) = true → forallb is_str queries = true)) ∧
  (∀ content,
     outcome = Replies content →
     loads w (clean_json_string content) = None →
     queries = generate_fallback_queries search_type) ∧
  (∀ content v,
     outcome = Replies content →
     loads w (clean_json_string content) = Some v →
     (∀ q qs, v ≠ JArr (q :: qs)) →
     queries = generate_fallback_queries search_type) ∧
  (∀ e, outcome = Raises e → queries = generate_fallback_queries search_type) ∧
  generate_fallback_queries search_type ≠ [] ∧
  forallb is_str (generate_fallback_queries search_type) = true ∧
  (search_type ∉ ["images"; "certifications"; "business_info"; "partners"] →
   generate_fallback_queries search_type = [JStr "general search"]).
Proof.
  intros outcome queries.
  destruct (fallback_queries_shape search_type) as (Hfne & Hflen & Hfstr).
  assert (Hcases :
    queries = generate_fallback_queries search_type ∨
    ∃ content q qs, outcome = Replies content ∧
      loads w (clean_json_string content) = Some (JArr (q :: qs)) ∧
      queries = take 5 (q :: qs)).
  { subst queries outcome. unfold generate_search_queries. run_trace.
    destruct (chain_invoke w _ _ _) as [e|content]; [left; reflexivity|].
    destruct (loads w _) as [[| | | | |[|q qs]|]|] eqn:Hl; try (left; reflexivity).
    right. exists content, q, qs. auto. }
  split; [|split].
  - destruct Hcases as [-> | (content & q & qs & _ & _ & ->)]; [assumption | discriminate].
  - destruct Hcases as [-> | (content & q & qs & _ & _ & ->)]; [assumption|].
    rewrite length_take. lia.
  - clear Hcases. subst queries outcome. unfold generate_search_queries. run_trace.
    split; [|split; [|split; [|split; [|split; [|split]]]]].
    + intros content q qs Hc Hl. rewrite Hc, Hl. simpl.
      split; [reflexivity|]. apply (forallb_take is_str 5 (q :: qs)).
    + intros content Hc Hl. rewrite Hc, Hl. reflexivity.
    + intros content v Hc Hl Hv. rewrite Hc, Hl.
      destruct v as [| | | | |[|q qs]|]; try reflexivity.
      exfalso. eapply Hv. reflexivity.
    + intros e He. rewrite He. reflexivity.
    + assumption.
    + assumption.
    + apply fallback_queries_unknown.
Qed.

(** *** Concrete services *)

Definition provider_down : exn := OtherException "ConnectionError" "timed out".

(** Services whose model answers [reply] and whose search provider answers
    [data]. *)
Definition answering (reply : llm_outcome) (data : result json) : services :=
  {| chain_invoke := λ _ _ _, reply;
     loads := json_loads;
     tavily_api_key := Some "tvly-key";
     tavily_post := λ _ _, data |}.

Definition six_queries : string :=
  "```json" ++ newline
    ++ "[" ++ quoted "valve plant" ++ ", " ++ quoted "forging line" ++ ", "
    ++ quoted "test bench" ++ ", " ++ quoted "foundry" ++ ", "
    ++ quoted "warehouse" ++ ", " ++ quoted "loading dock" ++ "]" ++ newline
    ++ "```".

Definition valves_text : string :=
  "Acme Valves makes industrial valves for the oil and gas sector.".

(** C10 at its failing input.  The model answers with the array [[1, 2]];
    the reply decodes to a non-empty list, which is all the function tests,
    so the two integers come back as the queries.  The function is
    annotated and documented to return a list of query strings, and its
    fallback lists are lists of strings. *)
Theorem C10_queries_need_not_be_strings :
  value_of (generate_search_queries (answering (Replies "[1, 2]") (Ok JNull))
              (JStr "Acme Valves") valves_text "images") = [JInt 1; JInt 2] ∧
  forallb is_str
    (value_of (generate_search_queries (answering (Replies "[1, 2]") (Ok JNull))
                 (JStr "Acme Valves") valves_text "images")) = false ∧
  forallb is_str (generate_fallback_queries "images") = true.
Proof. split; [|split]; vm_compute; reflexivity. Qed.

Lemma search_queries_bounded_witness :
  value_of (generate_search_queries (answering (Replies six_queries) (Ok JNull))
              (JStr "Acme Valves") valves_text "images") =
    [JStr "valve plant"; JStr "forging line"; JStr "test bench"; JStr "foundry";
     JStr "warehouse"] ∧
  value_of (generate_search_queries (answering (Replies "Sure! Here you go.") (Ok JNull))
              (JStr "Acme Valves") valves_text "partners") =
    generate_fallback_queries "partners" ∧
  value_of (generate_search_queries (answering (Raises provider_down) (Ok JNull))
              (JStr "Acme Valves") valves_text "logos") = [JStr "general search"].
Proof.
  split; [|split].
  - apply (proj1 (proj1 (proj2 (proj2
      (search_queries_bounded (answering (Replies six_queries) (Ok JNull))
         (JStr "Acme Valves") valves_text "images")))
      six_queries (JStr "valve plant")
      [JStr "forging line"; JStr "test bench"; JStr "foundry"; JStr "warehouse";
       JStr "loading dock"] eq_refl eq_refl)).
  - apply (proj1 (proj2 (proj2 (proj2
      (search_queries_bounded (answering (Replies "Sure! Here you go.") (Ok JNull))
         (JStr "Acme Valves") valves_text "partners"))))
      "Sure! Here you go." eq_refl eq_refl).
  - apply (proj1 (proj2 (proj2 (proj2 (proj2 (proj2
      (search_queries_bounded (answering (Raises provider_down) (Ok JNull))
         (JStr "Acme Valves") valves_text "logos"))))))
      provider_down eq_refl).
Defined.

(** *** The certification search *)

(** The text searches of a trace, in order. *)
Definition text_searches (t : list call) : list (json * Z) :=
  omap (λ c, match c with TextSearch query max_results => Some (query, max_results)
                        | ModelCall _ _ _ => None end) t.

Lemma search_text_tavily_trace w query max_results :
  trace_of (search_text_tavily w query max_results) = [TextSearch query max_results].
Proof.
  unfold search_text_tavily. run_trace.
  destruct (tavily_api_key w) as [api_key|]; [|reflexivity].
  destruct (String.eqb api_key EmptyString); [reflexivity|].
  destruct (tavily_post w query max_results); reflexivity.
Qed.

(** [cert] occurs in [text], case being ignored on both sides. *)
Definition occurs_ignoring_case (cert text : string) : Prop :=
  ∃ pre post, str_lower text = pre ++ str_lower cert ++ post.

(** The catalog entries the company data mentions, in catalog order. *)
Definition local_matches (company_data : string) : list string :=
  filter (λ cert, mentions (str_lower company_data) cert = true) common_certs.

Lemma local_matches_iff company_data cert :
  cert ∈ local_matches company_data ↔
  cert ∈ common_certs ∧ occurs_ignoring_case cert company_data.
Proof.
  unfold local_matches, mentions, occurs_ignoring_case.
  rewrite list_elem_of_filter, StrFacts.str_contains_iff. tauto.
Qed.

Lemma local_matches_nil_iff company_data :
  local_matches company_data = [] ↔
  ∀ cert, cert ∈ common_certs → ¬ occurs_ignoring_case cert company_data.
Proof.
  split.
  - intros Hnil cert Hcert Hocc.
    assert (Hin : cert ∈ local_matches company_data) by (apply local_matches_iff; auto).
    rewrite Hnil in Hin. now apply elem_of_nil in Hin.
  - intros Hnone. destruct (local_matches company_data) as [|cert rest] eqn:Hm; [reflexivity|].
    assert (Hin : cert ∈ local_matches company_data) by (rewrite Hm; left).
    apply local_matches_iff in Hin as [Hcert Hocc]. now apply Hnone in Hocc.
Qed.

(** C4.  Every catalog entry that occurs in the raw text, case ignored, is
    recorded with [verified = true] and [source = "company_data"].  When no
    catalog entry occurs, the function asks the model for queries once and
    makes exactly one text search, for the first query and 3 results; when
    one or more occur, it calls neither the model nor the search and returns
    the local entries.  So one text search is attempted exactly when there
    is no local match. *)
Theorem C4_certification_search w company_name company_data :
  let run := search_certifications w company_name company_data in
  let queries :=
    value_of (generate_search_queries w company_name company_data "certifications") in
  (∀ cert,
     cert ∈ common_certs →
     occurs_ignoring_case cert company_data →
     JObj [ ("name", JStr cert);
            ("description", JStr (cert ++ " certification standard"));
            ("verified", JBool true);
            ("source", JStr "company_data") ] ∈ (value_of run).1) ∧
  ((∀ cert, cert ∈ common_certs → ¬ occurs_ignoring_case cert company_data) →
     ∃ query,
       head queries = Some query ∧
       trace_of run =
         [ ModelCall company_name (truncated company_data) "certifications";
           TextSearch query 3 ] ∧
       text_searches (trace_of run) = [(query, 3)]) ∧
  ((∃ cert, cert ∈ common_certs ∧ occurs_ignoring_case cert company_data) →
     trace_of run = [] ∧
     text_searches (trace_of run) = [] ∧
     value_of run =
       (local_certification <$> local_matches company_data,
        local_citation <$> local_matches company_data)) ∧
  (length (text_searches (trace_of run)) = 1%nat ↔
   ∀ cert, cert ∈ common_certs → ¬ occurs_ignoring_case cert company_data).
Proof.
  intros run queries.
  assert (Hlocal : local_matches company_data ≠ [] →
            run = ([], (local_certification <$> local_matches company_data,
                        local_citation <$> local_matches company_data))).
  { intros Hne. subst run. unfold search_certifications, local_findings.
    fold (local_matches company_data).
    destruct (local_matches company_data); [contradiction | reflexivity]. }
  assert (Hsome : (∃ cert, cert ∈ common_certs ∧ occurs_ignoring_case cert company_data) →
            local_matches company_data ≠ []).
  { intros (cert & Hcert & Hocc) Hnil.
    eapply local_matches_nil_iff; eassumption. }
  assert (Hnone : (∀ cert, cert ∈ common_certs → ¬ occurs_ignoring_case cert company_data) →
            ∃ query,
              head queries = Some query ∧
              trace_of run =
                [ ModelCall company_name (truncated company_data) "certifications";
                  TextSearch query 3 ] ∧
              text_searches (trace_of run) = [(query, 3)]).
  { intros Hnil. apply local_matches_nil_iff in Hnil. subst run queries.
    unfold search_certifications, local_findings.
    fold (local_matches company_data). rewrite Hnil. simpl.
    pose proof (generate_search_queries_trace w company_name company_data
                  "certifications") as Htrace.
    pose proof (proj1 (search_queries_nonempty w company_name company_data
                         "certifications")) as Hne.
    destruct (generate_search_queries w company_name company_data "certifications")
      as [t1 qs].
    run_trace. simpl in Htrace, Hne. subst t1.
    destruct qs as [|query rest]; [contradiction|].
    pose proof (search_text_tavily_trace w query 3) as Hsearch.
    destruct (search_text_tavily w query 3) as [t2 results].
    run_trace. simpl in Hsearch. subst t2.
    destruct (scan_results results ([], [], [])) as [[found certs] cits].
    simpl. exists query. auto. }
  split; [|split; [|split]].
  - intros cert Hcert Hocc.
    rewrite (Hlocal (Hsome (ex_intro _ cert (conj Hcert Hocc)))). simpl.
    apply (list_elem_of_fmap_2 local_certification).
    apply local_matches_iff. auto.
  - exact Hnone.
  - intros Hex. rewrite (Hlocal (Hsome Hex)). auto.
  - split.
    + intros Hone. apply local_matches_nil_iff.
      destruct (local_matches company_data) as [|cert rest] eqn:Hm; [reflexivity|].
      rewrite Hlocal in Hone by discriminate. discriminate Hone.
    + intros Hnil. destruct (Hnone Hnil) as (query & _ & _ & ->). reflexivity.
Qed.

Definition iso_text : string :=
  "The plant is certified to iso 9001 and follows Who-GMP guidance.".

Definition no_cert_text : string :=
  "Acme Valves makes industrial valves for the oil and gas sector.".

Definition two_queries : string :=
  "[" ++ quoted "valve industry certifications" ++ ", " ++ quoted "API 6D" ++ "]".

Lemma iso_9001_occurs : occurs_ignoring_case "ISO 9001" iso_text.
Proof.
  exists "the plant is certified to ", " and follows who-gmp guidance.".
  vm_compute. reflexivity.
Qed.

Lemma no_cert_occurs cert :
  cert ∈ common_certs → ¬ occurs_ignoring_case cert no_cert_text.
Proof.
  apply local_matches_nil_iff. vm_compute. reflexivity.
Qed.

Lemma C4_certification_search_witness :
  JObj [ ("name", JStr "ISO 9001");
         ("description", JStr "ISO 9001 certification standard");
         ("verified", JBool true);
         ("source", JStr "company_data") ]
    ∈ (value_of (search_certifications (answering (Replies two_queries) (Ok JNull))
                   (JStr "Acme Valves") iso_text)).1 ∧
  trace_of (search_certifications (answering (Replies two_queries) (Ok JNull))
              (JStr "Acme Valves") iso_text) = [] ∧
  ∃ query,
    head (value_of (generate_search_queries (answering (Replies two_queries) (Ok JNull))
                      (JStr "Acme Valves") no_cert_text "certifications")) = Some query ∧
    text_searches
      (trace_of (search_certifications (answering (Replies two_queries) (Ok JNull))
                   (JStr "Acme Valves") no_cert_text)) = [(query, 3)].
Proof.
  pose proof (C4_certification_search (answering (Replies two_queries) (Ok JNull))
                (JStr "Acme Valves") iso_text) as Hiso.
  pose proof (C4_certification_search (answering (Replies two_queries) (Ok JNull))
                (JStr "Acme Valves") no_cert_text) as Hnone.
  assert (Hcatalog : "ISO 9001" ∈ common_certs) by (vm_compute; left).
  split; [|split].
  - apply (proj1 Hiso "ISO 9001" Hcatalog iso_9001_occurs).
  - apply (proj1 (proj2 (proj2 Hiso))). exists "ISO 9001". split; [exact Hcatalog|].
    exact iso_9001_occurs.
  - destruct (proj1 (proj2 Hnone) no_cert_occurs) as (query & Hhead & _ & Hsearches).
    exists query. split; assumption.
Defined.

End WebSearchProps.

(** ** Paths *)

Module OsPathProps.
Import Py OsPath.

Lemma take_drop n (s : string) : str_take n s ++ str_drop n s = s.
Proof.
  revert s. induction n as [|n IH]; intros [|c s]; simpl; try reflexivity.
  now rewrite IH.
Qed.

Lemma drop_app (a b : string) : str_drop (String.length a) (a ++ b) = b.
Proof. induction a as [|c a IH]; simpl; [now destruct b | exact IH]. Qed.

Lemma rfind_app_r c (a b : string) i :
  str_rfind c b = Some i →
  str_rfind c (a ++ b) = Some (String.length a + i)%nat.
Proof.
  intros Hb. induction a as [|x a IH]; simpl; [exact Hb | now rewrite IH].
Qed.

Lemma rfind_app_l c (a b : string) :
  str_rfind c b = None → str_rfind c (a ++ b) = str_rfind c a.
Proof.
  intros Hb. induction a as [|x a IH]; simpl; [exact Hb | now rewrite IH].
Qed.

Lemma rfind_app_none c (a b : string) :
  str_rfind c (a ++ b) = None ↔ str_rfind c a = None ∧ str_rfind c b = None.
Proof.
  split.
  - intros H. destruct (str_rfind c b) as [i|] eqn:Hb.
    + rewrite (rfind_app_r c a b i Hb) in H. discriminate.
    + rewrite (rfind_app_l c a b Hb) in H. auto.
  - intros [Ha Hb]. now rewrite rfind_app_l.
Qed.

(** The last component of a path holds no separator. *)
Lemma basename_no_sep p : str_rfind sep (basename p) = None.
Proof.
  unfold basename, after_last. induction p as [|a r IH]; [reflexivity|].
  simpl str_rfind at 2.
  destruct (str_rfind sep r) as [i|] eqn:Hr.
  - exact IH.
  - destruct (Ascii.eqb a sep) eqn:Ha; simpl.
    + destruct r; exact Hr.
    + now rewrite Hr, Ha.
Qed.

(** [splitext] cuts its argument in two. *)
Lemma splitext_app p : (splitext p).1 ++ (splitext p).2 = p.
Proof.
  unfold splitext. destruct (str_rfind extsep p) as [dotIndex|]; simpl.
  - destruct (_ && _); simpl; [apply take_drop | apply StrFacts.app_nil_r].
  - apply StrFacts.app_nil_r.
Qed.

Lemma str_of_nat_no_sep n : str_rfind sep (str_of_nat n) = None.
Proof.
  unfold str_of_nat. induction (Nat.to_uint n) as [|d IH|d IH|d IH|d IH|d IH|d IH|d IH|d IH|d IH|d IH];
    simpl; try rewrite IH; reflexivity.
Qed.

Lemma str_of_nat_inj m n : str_of_nat m = str_of_nat n → m = n.
Proof.
  unfold str_of_nat. intros H.
  apply (f_equal NilEmpty.uint_of_string) in H. rewrite !NilEmpty.usu in H.
  injection H as H. apply (f_equal Nat.of_uint) in H.
  now rewrite !Unsigned.of_to in H.
Qed.

Lemma str_of_nat_length n : (0 < String.length (str_of_nat n))%nat.
Proof.
  unfold str_of_nat. destruct n; [simpl; lia|].
  destruct (Nat.to_uint (S n)) eqn:H; simpl; try lia.
  apply (f_equal Nat.of_uint) in H. rewrite Unsigned.of_to in H. discriminate.
Qed.

(** A path that ends with the separator is something followed by it. *)
Lemma endswith_sep d : str_endswith "/" d = true → ∃ x, d = x ++ "/".
Proof.
  unfold str_endswith. intros H. apply andb_true_iff in H as [_ H].
  apply String.eqb_eq in H. eexists.
  rewrite <- (take_drop (String.length d - String.length "/") d) at 1.
  now rewrite H.
Qed.

Lemma basename_after_sep x name :
  str_rfind sep name = None → basename (x ++ "/" ++ name) = name.
Proof.
  intros Hname. unfold basename, after_last.
  assert (Hs : str_rfind sep ("/" ++ name) = Some O) by (simpl; now rewrite Hname).
  rewrite (rfind_app_r sep x _ O Hs), Nat.add_0_r.
  change (str_drop (S (String.length x)) (x ++ "/" ++ name))
    with (str_drop (S (String.length x)) (x ++ String sep name)).
  clear Hs. induction x as [|c x IH]; simpl; [now destruct name | exact IH].
Qed.

(** Joining a directory and a name without separators gives a path whose
    last component is that name. *)
Lemma basename_join d name :
  str_rfind sep name = None → basename (join d name) = name.
Proof.
  intros Hname. unfold join.
  assert (Hstart : str_startswith "/" name = false).
  { destruct (str_startswith "/" name) eqn:Hs; [|reflexivity].
    apply StrFacts.prefix_iff in Hs as [post ->].
    simpl in Hname. destruct (str_rfind sep post); discriminate. }
  rewrite Hstart.
  destruct (String.eqb d EmptyString) eqn:Hd; simpl.
  - apply String.eqb_eq in Hd. subst d. simpl.
    unfold basename, after_last. now rewrite Hname.
  - destruct (str_endswith "/" d) eqn:He.
    + apply endswith_sep in He as [x ->]. rewrite StrFacts.app_assoc.
      now apply basename_after_sep.
    + now apply basename_after_sep.
Qed.

End OsPathProps.

(** ** Output paths *)

Module GeneratorProps.
Import Py OsPath Generator.

(** One turn of the loop. *)
Lemma unique_path_loop_unfold fs directory name ext counter :
  unique_path_loop fs directory name ext counter =
  if path_exists fs (candidate directory name ext counter) then
    if decide (S counter <= attempt_cap)%nat
    then unique_path_loop fs directory name ext (S counter)
    else Raised too_many_files
  else Ok (candidate directory name ext counter).
Proof.
  funelim (unique_path_loop fs directory name ext counter).
  - rewrite Heq. reflexivity.
  - rewrite Heq0. rewrite decide_True by assumption. reflexivity.
  - rewrite Heq0. rewrite decide_False by lia. reflexivity.
Qed.

(** The loop returns the first free name at or after [counter]. *)
Lemma unique_path_loop_first_free fs directory name ext gap counter :
  (counter + gap <= attempt_cap)%nat →
  (∀ j, (counter <= j < counter + gap)%nat → candidate directory name ext j ∈ fs) →
  candidate directory name ext (counter + gap) ∉ fs →
  unique_path_loop fs directory name ext counter =
  Ok (candidate directory name ext (counter + gap)).
Proof.
  revert counter. induction gap as [|gap IH]; intros counter Hcap Htaken Hfree.
  - rewrite Nat.add_0_r in *. rewrite unique_path_loop_unfold.
    unfold path_exists. now rewrite bool_decide_eq_false_2.
  - rewrite unique_path_loop_unfold. unfold path_exists.
    rewrite bool_decide_eq_true_2 by (apply Htaken; lia).
    rewrite decide_True by lia.
    replace (counter + S gap)%nat with (S counter + gap)%nat in * by lia.
    apply IH; [lia | intros j Hj; apply Htaken; lia | exact Hfree].
Qed.

(** With every name up to the cap taken, the loop raises. *)
Lemma unique_path_loop_exhausted fs directory name ext gap counter :
  (counter + gap = attempt_cap)%nat →
  (∀ j, (counter <= j <= attempt_cap)%nat → candidate directory name ext j ∈ fs) →
  unique_path_loop fs directory name ext counter = Raised too_many_files.
Proof.
  revert counter. induction gap as [|gap IH]; intros counter Hcap Htaken.
  - rewrite unique_path_loop_unfold. unfold path_exists.
    rewrite bool_decide_eq_true_2 by (apply Htaken; lia).
    now rewrite decide_False by lia.
  - rewrite unique_path_loop_unfold. unfold path_exists.
    rewrite bool_decide_eq_true_2 by (apply Htaken; lia).
    rewrite decide_True by lia.
    apply IH; [lia | intros j Hj; apply Htaken; lia].
Qed.

(** The name with suffix [_k]: same directory, the suffix before the
    extension. *)
Definition suffixed (output_path : string) (k : nat) : string :=
  candidate (dirname output_path)
    (splitext (basename output_path)).1 (splitext (basename output_path)).2 k.

Lemma get_unique_output_path_taken fs output_path :
  output_path ∈ fs →
  get_unique_output_path fs output_path =
  unique_path_loop fs (dirname output_path)
    (splitext (basename output_path)).1 (splitext (basename output_path)).2 1.
Proof.
  intros Hin. unfold get_unique_output_path, path_exists.
  rewrite bool_decide_eq_true_2 by assumption. simpl.
  now destruct (splitext (basename output_path)).
Qed.

Lemma basename_suffixed output_path k :
  basename (suffixed output_path k) =
  (splitext (basename output_path)).1 ++ "_" ++ str_of_nat k
    ++ (splitext (basename output_path)).2.
Proof.
  unfold suffixed, candidate. apply OsPathProps.basename_join.
  pose proof (OsPathProps.basename_no_sep output_path) as Hbase.
  rewrite <- (OsPathProps.splitext_app (basename output_path)) in Hbase.
  apply OsPathProps.rfind_app_none in Hbase as [Hname Hext].
  apply OsPathProps.rfind_app_none. split; [exact Hname|].
  apply (OsPathProps.rfind_app_none sep "_"). split; [reflexivity|].
  apply OsPathProps.rfind_app_none. split; [apply OsPathProps.str_of_nat_no_sep | exact Hext].
Qed.

(** A suffixed name is never the target itself, and different suffixes give
    different names. *)
Lemma suffixed_ne_target output_path k : suffixed output_path k ≠ output_path.
Proof.
  intros H. apply (f_equal basename) in H. rewrite basename_suffixed in H.
  rewrite <- (OsPathProps.splitext_app (basename output_path)) in H at 3.
  apply String.app_inj in H. apply (f_equal String.length) in H.
  pose proof (OsPathProps.str_of_nat_length k).
  simpl in H. rewrite StrFacts.length_app in H. lia.
Qed.

Lemma suffixed_inj output_path j k : suffixed output_path j = suffixed output_path k → j = k.
Proof.
  intros H. apply (f_equal basename) in H. rewrite !basename_suffixed in H.
  apply String.app_inj in H. injection H as H.
  apply StrFacts.app_inv_tail in H. now apply OsPathProps.str_of_nat_inj.
Qed.

(** C7.  A free target is returned as it is.  A target that exists gets the
    first of the names [<stem>_1<ext>], [<stem>_2<ext>], ... in the same
    directory that does not exist; with all of [_1] to [_1000] taken the
    function raises.  Saving three times to a target that was free, with
    [_1] and [_2] free as well, writes the target, then [_1], then [_2]. *)
Theorem C7_unique_output_path fs output_path :
  (∀ k, suffixed output_path k =
        join (dirname output_path)
          ((splitext (basename output_path)).1 ++ "_" ++ str_of_nat k
             ++ (splitext (basename output_path)).2)) ∧
  (splitext (basename output_path)).1 ++ (splitext (basename output_path)).2
    = basename output_path ∧
  (output_path ∉ fs → get_unique_output_path fs output_path = Ok output_path) ∧
  (output_path ∈ fs →
   ∀ k, (1 <= k <= 1000)%nat →
     (∀ j, (1 <= j < k)%nat → suffixed output_path j ∈ fs) →
     suffixed output_path k ∉ fs →
     get_unique_output_path fs output_path = Ok (suffixed output_path k)) ∧
  (output_path ∈ fs →
   (∀ j, (1 <= j <= 1000)%nat → suffixed output_path j ∈ fs) →
   get_unique_output_path fs output_path = Raised too_many_files) ∧
  (output_path ∉ fs → suffixed output_path 1 ∉ fs → suffixed output_path 2 ∉ fs →
   ∃ fs1 fs2 fs3,
     save_presentation fs output_path = Ok (output_path, fs1) ∧
     save_presentation fs1 output_path = Ok (suffixed output_path 1, fs2) ∧
     save_presentation fs2 output_path = Ok (suffixed output_path 2, fs3) ∧
     output_path ≠ suffixed output_path 1 ∧
     output_path ≠ suffixed output_path 2 ∧
     suffixed output_path 1 ≠ suffixed output_path 2).
Proof.
  assert (Hfree : ∀ fs', output_path ∉ fs' →
            get_unique_output_path fs' output_path = Ok output_path).
  { intros fs' H. unfold get_unique_output_path, path_exists.
    now rewrite bool_decide_eq_false_2. }
  assert (Hfirst : ∀ fs', output_path ∈ fs' →
            ∀ k, (1 <= k <= 1000)%nat →
              (∀ j, (1 <= j < k)%nat → suffixed output_path j ∈ fs') →
              suffixed output_path k ∉ fs' →
              get_unique_output_path fs' output_path = Ok (suffixed output_path k)).
  { intros fs' Hin k Hk Htaken Hfreek.
    rewrite get_unique_output_path_taken by assumption.
    replace k with (1 + (k - 1))%nat in Hfreek |- * by lia.
    apply unique_path_loop_first_free.
    - change attempt_cap with 1000%nat. lia.
    - intros j Hj. apply Htaken. lia.
    - exact Hfreek. }
  split; [reflexivity|]. split; [apply OsPathProps.splitext_app|].
  split; [apply Hfree|]. split; [apply Hfirst|]. split.
  - intros Hin Htaken. rewrite get_unique_output_path_taken by assumption.
    apply (unique_path_loop_exhausted fs _ _ _ 999); [reflexivity|].
    intros j Hj. apply Htaken. change attempt_cap with 1000%nat in Hj. lia.
  - intros Hp H1 H2.
    pose proof (suffixed_ne_target output_path 1) as Hne1.
    pose proof (suffixed_ne_target output_path 2) as Hne2.
    assert (Hne12 : suffixed output_path 1 ≠ suffixed output_path 2).
    { intros H. apply suffixed_inj in H. discriminate. }
    exists ({[output_path]} ∪ fs),
           ({[suffixed output_path 1]} ∪ ({[output_path]} ∪ fs)),
           ({[suffixed output_path 2]}
              ∪ ({[suffixed output_path 1]} ∪ ({[output_path]} ∪ fs))).
    unfold save_presentation.
    set (fs1 := {[output_path]} ∪ fs).
    set (fs2 := {[suffixed output_path 1]} ∪ fs1).
    assert (Hp1 : output_path ∈ fs1) by (apply elem_of_union_l, elem_of_singleton; reflexivity).
    assert (Hp2 : output_path ∈ fs2) by (apply elem_of_union_r, Hp1).
    assert (H11 : suffixed output_path 1 ∉ fs1).
    { intros [Heq%elem_of_singleton | Hin]%elem_of_union; contradiction. }
    assert (H12 : suffixed output_path 1 ∈ fs2)
      by (apply elem_of_union_l, elem_of_singleton; reflexivity).
    assert (H22 : suffixed output_path 2 ∉ fs2).
    { intros [Heq%elem_of_singleton | [Heq%elem_of_singleton | Hin]%elem_of_union]%elem_of_union;
        [symmetry in Heq|..]; contradiction. }
    rewrite (Hfree fs Hp).
    rewrite (Hfirst fs1 Hp1 1%nat); [|lia | intros j Hj; lia | exact H11].
    rewrite (Hfirst fs2 Hp2 2%nat);
      [|lia | intros j Hj; replace j with 1%nat by lia; exact H12 | exact H22].
    repeat split; congruence.
Qed.

(** A deck saved over itself: the target and its first 2 successors. *)
Definition teaser : string := "/srv/teaser/data/output/Acme_Teaser.pptx".

Lemma C7_unique_output_path_witness :
  get_unique_output_path ∅ teaser = Ok teaser ∧
  get_unique_output_path {[teaser]} teaser
    = Ok "/srv/teaser/data/output/Acme_Teaser_1.pptx" ∧
  get_unique_output_path {[teaser; "/srv/teaser/data/output/Acme_Teaser_1.pptx"]} teaser
    = Ok "/srv/teaser/data/output/Acme_Teaser_2.pptx".
Proof.
  split; [|split].
  - apply (proj1 (proj2 (proj2 (C7_unique_output_path ∅ teaser)))). set_solver.
  - apply (proj1 (proj2 (proj2 (proj2 (C7_unique_output_path {[teaser]} teaser))))
             ltac:(set_solver) 1%nat ltac:(lia)).
    + intros j Hj. lia.
    + vm_compute. set_solver.
  - apply (proj1 (proj2 (proj2 (proj2
             (C7_unique_output_path
                {[teaser; "/srv/teaser/data/output/Acme_Teaser_1.pptx"]} teaser))))
             ltac:(set_solver) 2%nat ltac:(lia)).
    + intros j Hj. replace j with 1%nat by lia. vm_compute. set_solver.
    + vm_compute. set_solver.
Defined.

(** *** Font sizes *)

(** The size the 80% rule alone would give: the maximum when the estimated
    lines fit the budget, else the maximum scaled by the ratio and clamped. *)
Definition size_by_rule (estimated budget : float) : option Z :=
  if PrimFloat.leb estimated budget then Some 14
  else
    match shrunk_size 14 budget estimated with
    | Some calculated_size => Some (Z.max 8 (Z.min calculated_size 14))
    | None => None
    end.

(** C8, as amended.  A font size that is computed is an integer from 8 to
    14.  It is 12 when the placeholder is so narrow or so low that the
    estimate of characters per line or of available lines is 0.  Otherwise
    it is 14 when the estimated lines are at most 80% of the available
    lines, and else 14 scaled by the ratio of the two, truncated, and
    clamped to 8..14. *)
Theorem C8_font_size text_length placeholder_width placeholder_height size :
  fill_font_size text_length placeholder_width placeholder_height = Ok size →
  8 <= size <= 14 ∧
  ∃ chars lines,
    chars_per_line placeholder_width = Some chars ∧
    lines_available placeholder_height = Some lines ∧
    (chars = 0 ∨ lines = 0 → size = 12) ∧
    (chars ≠ 0 → lines ≠ 0 →
     size_by_rule (estimated_lines text_length chars) (line_budget lines) = Some size ∧
     (PrimFloat.leb (estimated_lines text_length chars) (line_budget lines) = true →
      size = 14) ∧
     (PrimFloat.leb (estimated_lines text_length chars) (line_budget lines) = false →
      ∃ calculated_size,
        shrunk_size 14 (line_budget lines) (estimated_lines text_length chars)
          = Some calculated_size ∧
        size = Z.max 8 (Z.min calculated_size 14))).
Proof.
  unfold fill_font_size, calculate_optimal_font_size, size_by_rule.
  destruct (chars_per_line placeholder_width) as [chars|]; [|discriminate].
  destruct (lines_available placeholder_height) as [lines|]; [|discriminate].
  destruct (chars =? 0) eqn:Hc; [|destruct (lines =? 0) eqn:Hl]; simpl.
  - intros [= <-]. split; [lia|]. exists chars, lines.
    apply Z.eqb_eq in Hc.
    split; [reflexivity|]. split; [reflexivity|]. split; [reflexivity|].
    intros Hc'. contradiction.
  - intros [= <-]. split; [lia|]. exists chars, lines.
    apply Z.eqb_eq in Hl.
    split; [reflexivity|]. split; [reflexivity|]. split; [reflexivity|].
    intros _ Hl'. contradiction.
  - apply Z.eqb_neq in Hc, Hl.
    destruct (PrimFloat.leb _ _) eqn:Hfit.
    + intros [= <-]. split; [lia|]. exists chars, lines.
      split; [reflexivity|]. split; [reflexivity|]. split; [lia|].
      intros _ _. rewrite Hfit. split; [reflexivity|]. split; [reflexivity | discriminate].
    + destruct (shrunk_size _ _ _) as [calculated_size|] eqn:Hs; [|discriminate].
      intros [= <-]. split; [lia|]. exists chars, lines.
      split; [reflexivity|]. split; [reflexivity|]. split; [lia|].
      intros _ _. rewrite Hfit, Hs. split; [reflexivity|]. split; [discriminate|].
      intros _. exists calculated_size. split; reflexivity.
Qed.

(** A wide placeholder 0.4 inch high holding 120 characters: 60 characters
    per line, no line available. *)
Definition five_inches : Z := 5 * inch.
Definition low_height : Z := 365760.

(** C8 as stated fails: the estimated 2 lines exceed 80% of the 0 lines
    available, the proportional rule would give the minimum 8, and the size
    is 12. *)
Lemma C8_low_placeholder_gets_12 :
  fill_font_size 120 five_inches low_height = Ok 12 ∧
  chars_per_line five_inches = Some 60 ∧
  lines_available low_height = Some 0 ∧
  PrimFloat.leb (estimated_lines 120 60) (line_budget 0) = false ∧
  size_by_rule (estimated_lines 120 60) (line_budget 0) = Some 8.
Proof. repeat split; vm_compute; reflexivity. Qed.

Lemma C8_font_size_witness :
  8 <= 11 <= 14 ∧
  fill_font_size 230 five_inches (2 * inch) = Ok 11 ∧
  fill_font_size 100 five_inches (2 * inch) = Ok 14 ∧
  fill_font_size 5000 five_inches (2 * inch) = Ok 8.
Proof.
  assert (H : fill_font_size 230 five_inches (2 * inch) = Ok 11)
    by (vm_compute; reflexivity).
  split; [exact (proj1 (C8_font_size 230 five_inches (2 * inch) 11 H))|].
  split; [exact H|]. split; vm_compute; reflexivity.
Defined.

End GeneratorProps.

(** ** Output paths: what is returned is new *)

Module OutputPathProps.
Import Py OsPath Generator GeneratorProps.

(** What the loop started at [counter] can end with. *)
Lemma unique_path_loop_result fs directory name ext gap counter :
  (counter + gap = attempt_cap)%nat →
  (∀ r, unique_path_loop fs directory name ext counter = Ok r →
        (r ∉ fs) ∧
        ∃ k, (counter <= k <= attempt_cap)%nat ∧ r = candidate directory name ext k ∧
             ∀ j, (counter <= j < k)%nat → candidate directory name ext j ∈ fs) ∧
  (∀ e, unique_path_loop fs directory name ext counter = Raised e →
        e = too_many_files ∧
        ∀ j, (counter <= j <= attempt_cap)%nat → candidate directory name ext j ∈ fs).
Proof.
  revert counter. induction gap as [|gap IH]; intros counter Hcap;
    rewrite unique_path_loop_unfold; unfold path_exists;
    destruct (bool_decide (candidate directory name ext counter ∈ fs)) eqn:Hhere.
  - apply bool_decide_eq_true_1 in Hhere. rewrite decide_False by lia. split.
    + intros r [=].
    + intros e [= <-]. split; [reflexivity|].
      intros j Hj. replace j with counter by lia. exact Hhere.
  - apply bool_decide_eq_false_1 in Hhere. split.
    + intros r [= <-]. split; [exact Hhere|].
      exists counter. split; [lia|]. split; [reflexivity|]. intros j Hj. lia.
    + intros e [=].
  - apply bool_decide_eq_true_1 in Hhere. rewrite decide_True by lia.
    destruct (IH (S counter)) as [IHok IHraised]; [lia|]. split.
    + intros r Hr. destruct (IHok r Hr) as (Hnew & k & Hk & -> & Htaken).
      split; [exact Hnew|]. exists k. split; [lia|]. split; [reflexivity|].
      intros j Hj. destruct (decide (j = counter)) as [->|Hne]; [exact Hhere|].
      apply Htaken. lia.
    + intros e He. destruct (IHraised e He) as (-> & Htaken).
      split; [reflexivity|].
      intros j Hj. destruct (decide (j = counter)) as [->|Hne]; [exact Hhere|].
      apply Htaken. lia.
  - apply bool_decide_eq_false_1 in Hhere. split.
    + intros r [= <-]. split; [exact Hhere|].
      exists counter. split; [lia|]. split; [reflexivity|]. intros j Hj. lia.
    + intros e [=].
Qed.

(** The path returned never exists already: it is the target when that is
    free, else a suffixed name all of whose predecessors are taken.  The only
    exception raised is the "too many files" one, and only when the target
    and every one of the 1000 suffixed names exist. *)
Theorem unique_output_path_is_new fs output_path :
  (∀ r, get_unique_output_path fs output_path = Ok r →
        (r ∉ fs) ∧
        ((r = output_path) ∨
         ∃ k, (1 <= k <= 1000)%nat ∧ r = suffixed output_path k ∧ output_path ∈ fs ∧
              ∀ j, (1 <= j < k)%nat → suffixed output_path j ∈ fs)) ∧
  (∀ e, get_unique_output_path fs output_path = Raised e →
        e = too_many_files ∧ output_path ∈ fs ∧
        ∀ j, (1 <= j <= 1000)%nat → suffixed output_path j ∈ fs).
Proof.
  destruct (decide (output_path ∈ fs)) as [Hin|Hout].
  - rewrite get_unique_output_path_taken by assumption.
    destruct (unique_path_loop_result fs (dirname output_path)
                (splitext (basename output_path)).1 (splitext (basename output_path)).2
                999 1 eq_refl) as [Hok Hraised].
    split.
    + intros r Hr. destruct (Hok r Hr) as (Hnew & k & Hk & -> & Htaken).
      split; [exact Hnew|]. right. exists k. auto.
    + intros e He. destruct (Hraised e He) as (-> & Htaken). auto.
  - unfold get_unique_output_path, path_exists.
    rewrite bool_decide_eq_false_2 by assumption. simpl. split.
    + intros r [= <-]. auto.
    + intros e [=].
Qed.

Lemma unique_output_path_is_new_witness :
  ("/srv/teaser/data/output/Acme_Teaser_1.pptx" ∉ ({[teaser]} : gset string)) ∧
  ∀ e, get_unique_output_path ∅ teaser ≠ Raised e.
Proof.
  split.
  - apply (proj1 (unique_output_path_is_new {[teaser]} teaser)
             "/srv/teaser/data/output/Acme_Teaser_1.pptx").
    vm_compute. reflexivity.
  - intros e He.
    destruct (proj2 (unique_output_path_is_new ∅ teaser) e He) as (_ & Hin & _).
    now apply not_elem_of_empty in Hin.
Defined.

(** *** Saving again and again *)

(** [n] saves to the same target, one after the other: the files written,
    in order, and the file system at the end. *)
Fixpoint saves (n : nat) (fs : gset string) (output_path : string)
    : result (list string * gset string) :=
  match n with
  | O => Ok ([], fs)
  | S n' =>
      match save_presentation fs output_path with
      | Ok (written, fs') =>
          match saves n' fs' output_path with
          | Ok (later, fs'') => Ok (written :: later, fs'')
          | Raised e => Raised e
          end
      | Raised e => Raised e
      end
  end.

Lemma saves_S n fs output_path :
  saves (S n) fs output_path =
  match save_presentation fs output_path with
  | Ok (written, fs') =>
      match saves n fs' output_path with
      | Ok (later, fs'') => Ok (written :: later, fs'')
      | Raised e => Raised e
      end
  | Raised e => Raised e
  end.
Proof. reflexivity. Qed.

(** One save when the target and the names below [k] are taken and [_k] is
    free. *)
Lemma save_next fs output_path k :
  (1 <= k <= 1000)%nat →
  output_path ∈ fs →
  (∀ j, (1 <= j < k)%nat → suffixed output_path j ∈ fs) →
  suffixed output_path k ∉ fs →
  save_presentation fs output_path =
  Ok (suffixed output_path k, {[suffixed output_path k]} ∪ fs).
Proof.
  intros Hk Hin Htaken Hfree. unfold save_presentation.
  rewrite get_unique_output_path_taken by assumption.
  rewrite (unique_path_loop_first_free fs _ _ _ (k - 1) 1).
  - replace (1 + (k - 1))%nat with k by lia. reflexivity.
  - change attempt_cap with 1000%nat. lia.
  - intros j Hj. apply Htaken. lia.
  - replace (1 + (k - 1))%nat with k by lia. exact Hfree.
Qed.

(** With the target and the names below [k] taken and those from [k] on
    free, the next saves write [_k], [_k+1], ... and the one after [_1000]
    raises. *)
Lemma saves_from fs output_path m k :
  (1 <= k)%nat → (k + m <= 1001)%nat →
  output_path ∈ fs →
  (∀ j, (1 <= j < k)%nat → suffixed output_path j ∈ fs) →
  (∀ j, (k <= j <= 1000)%nat → suffixed output_path j ∉ fs) →
  (∃ fs', saves m fs output_path = Ok (suffixed output_path <$> seq k m, fs')) ∧
  ((k + m = 1001)%nat → saves (S m) fs output_path = Raised too_many_files).
Proof.
  revert fs k. induction m as [|m IH]; intros fs k Hk Hm Hin Htaken Hfree.
  - split; [exists fs; reflexivity|]. intros Hlast.
    rewrite saves_S. unfold save_presentation.
    rewrite get_unique_output_path_taken by assumption.
    rewrite (unique_path_loop_exhausted fs _ _ _ 999 1); [reflexivity | reflexivity |].
    intros j Hj. apply Htaken. change attempt_cap with 1000%nat in Hj. lia.
  - assert (Hstep : save_presentation fs output_path =
              Ok (suffixed output_path k, {[suffixed output_path k]} ∪ fs)).
    { apply save_next; [lia | exact Hin | exact Htaken | apply Hfree; lia]. }
    destruct (IH ({[suffixed output_path k]} ∪ fs) (S k)) as [[fs' Hsaves] Hraise].
    + lia.
    + lia.
    + apply elem_of_union_r, Hin.
    + intros j Hj. destruct (decide (j = k)) as [->|Hne].
      * apply elem_of_union_l, elem_of_singleton. reflexivity.
      * apply elem_of_union_r, Htaken. lia.
    + intros j Hj [Heq%elem_of_singleton | Hold]%elem_of_union.
      * apply suffixed_inj in Heq. lia.
      * apply (Hfree j); [lia | exact Hold].
    + split.
      * exists fs'. rewrite saves_S, Hstep, Hsaves. reflexivity.
      * intros Hlast. rewrite saves_S, Hstep, Hraise by lia. reflexivity.
Qed.

(** Saving to the same free target again and again, with no suffixed name
    on disk beforehand: the first [n + 1] saves write the target and then
    [_1], [_2], ..., [_n], all different, for every [n] up to 1000; the
    save after [_1000] raises. *)
Theorem repeated_saves fs output_path :
  output_path ∉ fs →
  (∀ j, (1 <= j <= 1000)%nat → suffixed output_path j ∉ fs) →
  (∀ n, (n <= 1000)%nat →
     ∃ fs', saves (S n) fs output_path =
              Ok (output_path :: (suffixed output_path <$> seq 1 n), fs') ∧
            NoDup (output_path :: (suffixed output_path <$> seq 1 n))) ∧
  saves 1002 fs output_path = Raised too_many_files.
Proof.
  intros Hout Hfree.
  assert (Hfirst : save_presentation fs output_path = Ok (output_path, {[output_path]} ∪ fs)).
  { unfold save_presentation, get_unique_output_path, path_exists.
    now rewrite bool_decide_eq_false_2. }
  assert (Hstate : ∀ j, (1 <= j <= 1000)%nat →
            suffixed output_path j ∉ ({[output_path]} ∪ fs : gset string)).
  { intros j Hj [Heq%elem_of_singleton | Hold]%elem_of_union.
    - now apply suffixed_ne_target in Heq.
    - now apply (Hfree j). }
  assert (Hin : output_path ∈ ({[output_path]} ∪ fs : gset string))
    by (apply elem_of_union_l, elem_of_singleton; reflexivity).
  split.
  - intros n Hn.
    destruct (saves_from ({[output_path]} ∪ fs) output_path n 1) as [[fs' Hsaves] _];
      [lia | lia | exact Hin | intros j Hj; lia | exact Hstate |].
    exists fs'. split.
    + rewrite saves_S, Hfirst, Hsaves. reflexivity.
    + apply NoDup_cons. split.
      * intros (j & Heq & _)%list_elem_of_fmap. symmetry in Heq.
        now apply suffixed_ne_target in Heq.
      * apply NoDup_fmap_2_strong; [|apply NoDup_seq].
        intros i j _ _ Heq. now apply suffixed_inj in Heq.
  - destruct (saves_from ({[output_path]} ∪ fs) output_path 1000 1) as [_ Hraise];
      [lia | lia | exact Hin | intros j Hj; lia | exact Hstate |].
    change 1002%nat with (S 1001). rewrite saves_S, Hfirst, Hraise by lia. reflexivity.
Qed.

Lemma repeated_saves_witness :
  ∃ fs',
    saves 3 ∅ teaser =
      Ok ([teaser; "/srv/teaser/data/output/Acme_Teaser_1.pptx";
           "/srv/teaser/data/output/Acme_Teaser_2.pptx"], fs').
Proof.
  destruct (proj1 (repeated_saves ∅ teaser (not_elem_of_empty _)
                     (λ j _, not_elem_of_empty _)) 2%nat) as (fs' & Hsaves & _);
    [lia|].
  exists fs'. exact Hsaves.
Defined.

End OutputPathProps.

(** ** The lines of a text placeholder *)

Module TextLayoutProps.
Import Py TextLayout.

Lemma str_join_cons sep item rest :
  rest ≠ [] → str_join sep (item :: rest) = item ++ sep ++ str_join sep rest.
Proof. destruct rest; [contradiction | reflexivity]. Qed.

Lemma str_join_app sep (a b : list string) :
  a ≠ [] → b ≠ [] → str_join sep (a ++ b) = str_join sep a ++ sep ++ str_join sep b.
Proof.
  intros Ha Hb. induction a as [|x a IH]; [contradiction|].
  destruct a as [|y a].
  - simpl app. now rewrite str_join_cons.
  - change ((x :: y :: a) ++ b)%list with (x :: ((y :: a) ++ b))%list.
    rewrite !str_join_cons by discriminate. rewrite IH by discriminate.
    now rewrite !StrFacts.app_assoc.
Qed.

(** Joining some of the items first changes nothing. *)
Lemma str_join_flatten sep (a cur b : list string) :
  cur ≠ [] →
  str_join sep (a ++ [str_join sep cur] ++ b) = str_join sep (a ++ cur ++ b).
Proof.
  intros Hcur.
  assert (Hmid : str_join sep ([str_join sep cur] ++ b) = str_join sep (cur ++ b)).
  { destruct b as [|y b].
    - now rewrite !app_nil_r.
    - rewrite (str_join_app sep cur (y :: b)) by (assumption || discriminate).
      simpl app. now rewrite str_join_cons by discriminate. }
  destruct a as [|x a]; [exact Hmid|].
  assert (Hcb : (cur ++ b)%list ≠ []) by (destruct cur; [contradiction | discriminate]).
  rewrite (str_join_app sep (x :: a) ([str_join sep cur] ++ b)); [|discriminate..].
  rewrite (str_join_app sep (x :: a) (cur ++ b)); [|discriminate|exact Hcb].
  now rewrite Hmid.
Qed.

Lemma wrap_words_join words lines current_line current_length :
  str_join " " (wrap_words words lines current_line current_length) =
  str_join " " (lines ++ current_line ++ words).
Proof.
  revert lines current_line current_length.
  induction words as [|word rest IH]; intros lines current_line current_length; simpl.
  - destruct current_line as [|w ws]; [now rewrite !app_nil_r|].
    rewrite app_nil_r.
    rewrite <- (app_nil_r (w :: ws)) at 2.
    rewrite <- (str_join_flatten " " lines (w :: ws) []) by discriminate.
    reflexivity.
  - destruct (_ && _) eqn:Hflush.
    + apply andb_true_iff in Hflush as [_ Hne].
      apply negb_true_iff, bool_decide_eq_false_1 in Hne.
      rewrite IH, <- app_assoc.
      now rewrite (str_join_flatten " " lines current_line ([word] ++ rest)).
    + rewrite IH, <- app_assoc. reflexivity.
Qed.

(** Wrapping loses nothing and reorders nothing: the lines joined by single
    spaces are the words joined by single spaces. *)
Theorem wrap_keeps_words words :
  str_join " " (wrap_words words [] [] 0) = str_join " " words.
Proof. apply wrap_words_join. Qed.

(** A line fits when it has at most 80 characters, or is one of the words by
    itself. *)
Definition fits (words : list string) (line : string) : Prop :=
  len line <= max_chars_per_line ∨ line ∈ words.

Lemma len_nonneg s : 0 <= len s.
Proof. unfold len. lia. Qed.

Lemma wrap_words_fit all words lines current_line current_length :
  (∀ w, w ∈ words → w ∈ all) →
  Forall (fits all) lines →
  0 <= current_length →
  (current_line ≠ [] →
   len (str_join " " current_line) <= current_length ∧
   (current_length <= max_chars_per_line ∨ ∃ w, current_line = [w] ∧ w ∈ all)) →
  Forall (fits all) (wrap_words words lines current_line current_length).
Proof.
  revert lines current_line current_length.
  induction words as [|word rest IH]; intros lines current_line current_length
    Hall Hlines Hpos Hcur; simpl.
  - destruct current_line as [|w ws]; [assumption|].
    apply Forall_app. split; [assumption|]. apply Forall_singleton.
    destruct Hcur as [Hlen [Hle | (w' & -> & Hin)]]; [discriminate|left; lia|right; exact Hin].
  - assert (Hword : word ∈ all) by (apply Hall; left).
    assert (Hrest : ∀ w, w ∈ rest → w ∈ all) by (intros w Hw; apply Hall; now right).
    pose proof (len_nonneg word) as Hw0.
    destruct (_ && _) eqn:Hflush.
    + apply andb_true_iff in Hflush as [_ Hne].
      apply negb_true_iff, bool_decide_eq_false_1 in Hne.
      apply IH; [assumption| |assumption|].
      * apply Forall_app. split; [assumption|]. apply Forall_singleton.
        destruct (Hcur Hne) as [Hlen [Hle | (w' & -> & Hin)]];
          [left; lia | right; exact Hin].
      * intros _. split; [simpl; lia|]. right. exists word. auto.
    + apply andb_false_iff in Hflush.
      apply IH; [assumption|assumption|lia|]. intros _.
      destruct current_line as [|w ws].
      * simpl. split; [lia|]. right. exists word. auto.
      * destruct Hflush as [Hroom | Hempty];
          [|apply negb_false_iff, bool_decide_eq_true_1 in Hempty; discriminate].
        apply Z.ltb_ge in Hroom.
        destruct (Hcur ltac:(discriminate)) as [Hlen _].
        rewrite str_join_app by discriminate.
        rewrite !StrFacts.len_app. change (len " ") with 1.
        change (str_join " " [word]) with word.
        split; [lia | left; lia].
Qed.

(** No wrapped line is longer than 80 characters, except a line that
    consists of one word that is itself longer: the loop never cuts a word. *)
Theorem wrapped_lines_fit words :
  Forall (λ line, len line <= 80 ∨ line ∈ words) (wrap_words words [] [] 0).
Proof.
  apply (wrap_words_fit words words [] [] 0); [auto | constructor | lia | contradiction].
Qed.

(** *** Words *)

Lemma words_from_space a c b :
  is_space c = true →
  words_from (a ++ String c b) = ((words_from a).1, ((words_from a).2 ++ str_words b)%list).
Proof.
  intros Hc. induction a as [|x a IH].
  - change (EmptyString ++ String c b) with (String c b).
    unfold str_words. simpl. rewrite Hc. destruct (words_from b) as [w l]. reflexivity.
  - change (String x a ++ String c b) with (String x (a ++ String c b)).
    simpl. rewrite IH. destruct (words_from a) as [w l]. simpl.
    destruct (is_space x); [|reflexivity].
    destruct (String.eqb w EmptyString); reflexivity.
Qed.

Lemma str_words_space a c b :
  is_space c = true → str_words (a ++ String c b) = (str_words a ++ str_words b)%list.
Proof.
  intros Hc. unfold str_words at 1 2. rewrite (words_from_space a c b Hc).
  destruct (words_from a) as [w l]. simpl.
  destruct (String.eqb w EmptyString); reflexivity.
Qed.

Lemma str_words_join c pieces :
  is_space c = true →
  str_words (str_join (String c EmptyString) pieces) = mjoin (str_words <$> pieces).
Proof.
  intros Hc. induction pieces as [|piece rest IH]; [reflexivity|].
  destruct rest as [|next rest].
  - simpl. now rewrite app_nil_r.
  - rewrite str_join_cons by discriminate.
    change (String c EmptyString ++ str_join (String c EmptyString) (next :: rest))
      with (String c (str_join (String c EmptyString) (next :: rest))).
    rewrite (str_words_space piece c _ Hc), IH. reflexivity.
Qed.

(** What [split()] returns: texts that are not empty and hold no white space. *)
Fixpoint no_space (s : string) : bool :=
  match s with
  | EmptyString => true
  | String c r => negb (is_space c) && no_space r
  end.

Definition is_word (w : string) : Prop := w ≠ EmptyString ∧ no_space w = true.

Lemma words_from_words s :
  no_space (words_from s).1 = true ∧ Forall is_word (words_from s).2.
Proof.
  induction s as [|c r [IHw IHl]]; [split; [reflexivity | constructor]|].
  simpl. destruct (words_from r) as [w l]. simpl in *.
  destruct (is_space c) eqn:Hc; simpl.
  - split; [reflexivity|].
    destruct (String.eqb_spec w EmptyString) as [->|Hne]; [assumption|].
    constructor; [split; assumption | assumption].
  - rewrite Hc. split; assumption.
Qed.

Lemma str_words_are_words s : Forall is_word (str_words s).
Proof.
  unfold str_words. destruct (words_from_words s) as [Hw Hl].
  destruct (words_from s) as [w l]. simpl in *.
  destruct (String.eqb_spec w EmptyString) as [->|Hne]; [assumption|].
  constructor; [split; assumption | assumption].
Qed.

Lemma words_from_no_space w : no_space w = true → words_from w = (w, []).
Proof.
  induction w as [|c r IH]; [reflexivity|]. simpl.
  intros [Hc Hr]%andb_true_iff. apply negb_true_iff in Hc.
  rewrite (IH Hr), Hc. reflexivity.
Qed.

Lemma str_words_word w : is_word w → str_words w = [w].
Proof.
  intros [Hne Hw]. unfold str_words. rewrite (words_from_no_space w Hw).
  destruct (String.eqb_spec w EmptyString); [contradiction | reflexivity].
Qed.

Lemma words_of_words ws : Forall is_word ws → mjoin (str_words <$> ws) = ws.
Proof.
  induction 1 as [|w ws Hw _ IH]; [reflexivity|].
  change (mjoin (str_words <$> w :: ws)) with (str_words w ++ mjoin (str_words <$> ws))%list.
  rewrite (str_words_word w Hw), IH. reflexivity.
Qed.

(** *** Cutting at newlines *)

Lemma str_split_nonempty c s : str_split c s ≠ [].
Proof.
  destruct s as [|a r]; [discriminate|]. simpl.
  destruct (Ascii.eqb a c); [discriminate|].
  destruct (str_split c r); discriminate.
Qed.

Lemma str_join_split c s : str_join (String c EmptyString) (str_split c s) = s.
Proof.
  induction s as [|a r IH]; [reflexivity|]. simpl.
  destruct (Ascii.eqb_spec a c) as [->|Hne].
  - rewrite str_join_cons by apply str_split_nonempty. rewrite IH. reflexivity.
  - pose proof (str_split_nonempty c r) as Hsplit.
    destruct (str_split c r) as [|piece pieces]; [contradiction|].
    destruct pieces as [|next pieces].
    + simpl in *. now rewrite IH.
    + rewrite str_join_cons in * by discriminate.
      change (String a piece ++ ?t) with (String a (piece ++ t)). now rewrite IH.
Qed.

(** *** White space at the ends *)

Lemma str_words_lstrip s : str_words (str_lstrip s) = str_words s.
Proof.
  induction s as [|c r IH]; [reflexivity|]. simpl.
  destruct (is_space c) eqn:Hc; [|reflexivity].
  rewrite IH. symmetry. apply (str_words_space EmptyString c r Hc).
Qed.

Lemma words_from_rstrip s : words_from (str_rstrip s) = words_from s.
Proof.
  induction s as [|c r IH]; [reflexivity|]. simpl.
  destruct (is_space c && String.eqb (str_rstrip r) EmptyString) eqn:Hblank.
  - apply andb_true_iff in Hblank as [Hc Hr]. apply String.eqb_eq in Hr.
    rewrite Hr in IH. rewrite <- IH, Hc. reflexivity.
  - simpl. now rewrite IH.
Qed.

Lemma str_words_strip s : str_words (str_strip s) = str_words s.
Proof.
  unfold str_strip, str_words at 1. rewrite words_from_rstrip.
  apply str_words_lstrip.
Qed.

Lemma paragraph_words lines :
  mjoin (str_words <$> paragraph_texts lines) = mjoin (str_words <$> lines).
Proof.
  unfold paragraph_texts. induction lines as [|line rest IH]; [reflexivity|].
  rewrite filter_cons. destruct (decide (str_strip line ≠ EmptyString)) as [Hne|Hblank].
  - rewrite !fmap_cons.
    change (mjoin (?a :: ?l)) with (a ++ mjoin l)%list.
    rewrite IH, str_words_strip. reflexivity.
  - apply dec_stable in Hblank. rewrite IH, fmap_cons.
    change (mjoin (?a :: ?l)) with (a ++ mjoin l)%list.
    rewrite <- (str_words_strip line), Hblank. reflexivity.
Qed.

(** The words written to the placeholder are the words of the text, in the
    same order: whichever way the text is cut into lines (at its newlines,
    by the wrapping loop, or not at all) and whatever lines are skipped as
    blank, no word is lost, repeated, cut or moved. *)
Theorem paragraphs_keep_words text_content :
  mjoin (str_words <$> paragraph_texts (text_lines text_content)) = str_words text_content.
Proof.
  rewrite paragraph_words.
  assert (Hnl : is_space (ascii_of_nat 10) = true) by reflexivity.
  assert (Hsp : is_space " "%char = true) by reflexivity.
  unfold text_lines. destruct (str_contains newline text_content).
  - rewrite <- (str_words_join _ _ Hnl), str_join_split. reflexivity.
  - destruct (200 <? len text_content).
    + rewrite <- (str_words_join _ _ Hsp). change (String " " EmptyString) with " ".
      rewrite wrap_words_join. simpl app.
      change " " with (String " "%char EmptyString).
      rewrite (str_words_join _ _ Hsp).
      apply words_of_words, str_words_are_words.
    + simpl. apply app_nil_r.
Qed.

End TextLayoutProps.

(** ** The orchestrator: every way a run can end *)

Module PipelineProps.
Import Py OsPath Main.
Import MainProps.

(** The lines of step 3 after the call, the web data stored in the record,
    and the lines of step 4 after the call. *)
Definition web_outcome_trace (web : result json) : list event :=
  match web with
  | Ok _ => [Print WebSearchComplete]
  | Raised e => [Print (WebSearchError e); Print ContinuingWithoutWebData]
  end.

Definition stored_web_data (web : result json) : json :=
  match web with Ok web_data => web_data | Raised _ => empty_web_data end.

Definition generation_trace (made : result unit) (output_pptx_path : string) : list event :=
  match made with
  | Ok _ => [Print PptSaved; Print Rule; Print (PipelineComplete output_pptx_path); Print Rule]
  | Raised e => [Print (GeneratorError e)]
  end.

(** The company name the web search is asked about, and the record the
    generator is given. *)
Definition company_name_of (company_folder_name : string) (structured_data : dict) : json :=
  dict_get_default "company_name" (JStr company_folder_name) structured_data.

Definition record_for_generator (st : stages) (company_folder_name raw_text : string)
    (structured_data : dict) : dict :=
  dict_set "web_data"
    (stored_web_data
       (get_web_data_for_company st (company_name_of company_folder_name structured_data)
          raw_text))
    structured_data.

(** The calls of a trace: what is left when the console lines and the
    [makedirs] are taken out. *)
Definition is_stage_call (e : event) : bool :=
  match e with
  | Ingest _ | Analyze _ | WebSearch _ _ | CreatePresentation _ _ => true
  | Print _ | Makedirs _ => false
  end.

Definition stage_calls (t : list event) : list event :=
  filter (λ e, is_stage_call e = true) t.

(** The four ways a run can go. *)
Inductive ending (cwd : string) (st : stages) (company_folder_name : string) : Prop :=
| IngestorRaised e
    (Hingest : ingest_company_data st (input_dir_of cwd company_folder_name) = Raised e)
    (Hrun : run_pipeline cwd st company_folder_name =
              (ingestion_trace cwd company_folder_name, Raised e))
| NoText raw_text
    (Hingest : ingest_company_data st (input_dir_of cwd company_folder_name) = Ok raw_text)
    (Hshort : too_short raw_text = true)
    (Hrun : run_pipeline cwd st company_folder_name =
              ((ingestion_trace cwd company_folder_name ++ [Print NoTextExtracted])%list,
               Ok tt))
| NoRecord raw_text
    (Hingest : ingest_company_data st (input_dir_of cwd company_folder_name) = Ok raw_text)
    (Hlong : too_short raw_text = false)
    (Hanalyze : analyze_data st raw_text = None ∨ analyze_data st raw_text = Some [])
    (Hrun : run_pipeline cwd st company_folder_name =
              ((ingestion_trace cwd company_folder_name
                  ++ [ Print (Extracted (len raw_text)); Print Step2; Analyze raw_text;
                       Print AgentFailed ])%list,
               Ok tt))
| Generated raw_text structured_data
    (Hingest : ingest_company_data st (input_dir_of cwd company_folder_name) = Ok raw_text)
    (Hlong : too_short raw_text = false)
    (Hanalyze : analyze_data st raw_text = Some structured_data)
    (Hrecord : structured_data ≠ [])
    (Hrun :
       let company_name := company_name_of company_folder_name structured_data in
       let record := record_for_generator st company_folder_name raw_text structured_data in
       let output_pptx_path := output_pptx_path_of cwd company_folder_name in
       run_pipeline cwd st company_folder_name =
         ((ingestion_trace cwd company_folder_name
             ++ analysis_trace company_folder_name raw_text structured_data
             ++ web_outcome_trace (get_web_data_for_company st company_name raw_text)
             ++ [Print Step4; CreatePresentation record output_pptx_path]
             ++ generation_trace (create_presentation st record output_pptx_path)
                  output_pptx_path)%list,
          Ok tt)).

Lemma run_pipeline_generated cwd st company_folder_name raw_text structured_data :
  ingest_company_data st (input_dir_of cwd company_folder_name) = Ok raw_text →
  too_short raw_text = false →
  analyze_data st raw_text = Some structured_data →
  structured_data ≠ [] →
  let company_name := company_name_of company_folder_name structured_data in
  let record := record_for_generator st company_folder_name raw_text structured_data in
  let output_pptx_path := output_pptx_path_of cwd company_folder_name in
  run_pipeline cwd st company_folder_name =
    ((ingestion_trace cwd company_folder_name
        ++ analysis_trace company_folder_name raw_text structured_data
        ++ web_outcome_trace (get_web_data_for_company st company_name raw_text)
        ++ [Print Step4; CreatePresentation record output_pptx_path]
        ++ generation_trace (create_presentation st record output_pptx_path)
             output_pptx_path)%list,
     Ok tt).
Proof.
  intros Hingest Hlong Hanalyze Hne company_name record output_pptx_path.
  subst record company_name output_pptx_path.
  unfold record_for_generator, company_name_of.
  unfold run_pipeline, web_step, generation_step. run_trace.
  rewrite Hingest, Hlong, Hanalyze.
  destruct structured_data as [|member data]; [contradiction|].
  destruct (get_web_data_for_company st _ raw_text) as [web_data|e]; simpl;
    destruct (create_presentation st _ _); reflexivity.
Qed.

Lemma run_pipeline_no_record cwd st company_folder_name raw_text :
  ingest_company_data st (input_dir_of cwd company_folder_name) = Ok raw_text →
  too_short raw_text = false →
  analyze_data st raw_text = None ∨ analyze_data st raw_text = Some [] →
  run_pipeline cwd st company_folder_name =
    ((ingestion_trace cwd company_folder_name
        ++ [ Print (Extracted (len raw_text)); Print Step2; Analyze raw_text;
             Print AgentFailed ])%list,
     Ok tt).
Proof.
  intros Hingest Hlong Hanalyze. unfold run_pipeline. run_trace.
  rewrite Hingest, Hlong. destruct Hanalyze as [-> | ->]; reflexivity.
Qed.

Lemma run_pipeline_ending cwd st company_folder_name : ending cwd st company_folder_name.
Proof.
  destruct (ingest_company_data st (input_dir_of cwd company_folder_name))
    as [raw_text|e] eqn:Hingest.
  - destruct (too_short raw_text) eqn:Hshort.
    + apply (NoText _ _ _ raw_text); [assumption..|].
      unfold run_pipeline. run_trace. rewrite Hingest, Hshort. reflexivity.
    + destruct (analyze_data st raw_text) as [[|member data]|] eqn:Hanalyze.
      * apply (NoRecord _ _ _ raw_text); [assumption|assumption|now right|].
        apply run_pipeline_no_record; auto.
      * apply (Generated _ _ _ raw_text (member :: data)); [assumption..|discriminate|].
        now apply run_pipeline_generated.
      * apply (NoRecord _ _ _ raw_text); [assumption|assumption|now left|].
        apply run_pipeline_no_record; auto.
  - apply (IngestorRaised _ _ _ e); [assumption|].
    unfold run_pipeline. run_trace. rewrite Hingest. reflexivity.
Qed.

(** Membership in a trace that is written out: [not_listed] closes a goal
    whose hypothesis puts an event in a list that does not hold it, [listed]
    leaves the entries it can be. *)
Ltac listed H :=
  simpl in H;
  repeat (apply elem_of_cons in H as [H | H]; [try discriminate H|]);
  [.. | apply elem_of_nil in H; contradiction].

Ltac not_listed H :=
  simpl in H;
  repeat (apply elem_of_cons in H as [H | H]; [discriminate H|]);
  apply elem_of_nil in H; contradiction.

(** When the extractor returns [None] or an empty record, the run stops with
    the fatal line after two calls: neither the web search nor the generator
    is called. *)
Theorem no_record_aborts cwd st company_folder_name raw_text :
  ingest_company_data st (input_dir_of cwd company_folder_name) = Ok raw_text →
  too_short raw_text = false →
  analyze_data st raw_text = None ∨ analyze_data st raw_text = Some [] →
  run_pipeline cwd st company_folder_name =
    ((ingestion_trace cwd company_folder_name
        ++ [ Print (Extracted (len raw_text)); Print Step2; Analyze raw_text;
             Print AgentFailed ])%list,
     Ok tt) ∧
  stage_calls (trace_of (run_pipeline cwd st company_folder_name)) =
    [Ingest (input_dir_of cwd company_folder_name); Analyze raw_text].
Proof.
  intros Hingest Hlong Hanalyze.
  rewrite (run_pipeline_no_record cwd st company_folder_name raw_text Hingest Hlong Hanalyze).
  split; reflexivity.
Qed.

(** The completion banner is printed exactly when the generator was called
    and returned without raising, and it names the path the generator was
    given. *)
Theorem completion_banner cwd st company_folder_name output_pptx_path :
  Print (PipelineComplete output_pptx_path)
    ∈ trace_of (run_pipeline cwd st company_folder_name) ↔
  output_pptx_path = output_pptx_path_of cwd company_folder_name ∧
  ∃ raw_text structured_data,
    ingest_company_data st (input_dir_of cwd company_folder_name) = Ok raw_text ∧
    too_short raw_text = false ∧
    analyze_data st raw_text = Some structured_data ∧
    structured_data ≠ [] ∧
    create_presentation st
      (record_for_generator st company_folder_name raw_text structured_data)
      output_pptx_path = Ok tt.
Proof.
  destruct (run_pipeline_ending cwd st company_folder_name)
    as [e Hingest Hrun | raw_text Hingest Hshort Hrun | raw_text Hingest Hlong Hanalyze Hrun
       | raw_text structured_data Hingest Hlong Hanalyze Hrecord Hrun];
    cbv zeta in Hrun; rewrite Hrun; unfold trace_of; cbn [fst].
  - split; [intros Hin; not_listed Hin|].
    intros (_ & raw_text & sd & Hi & _). congruence.
  - split; [intros Hin; not_listed Hin|].
    intros (_ & raw_text' & sd & Hi & Hl & _). congruence.
  - split; [intros Hin; not_listed Hin|].
    intros (_ & raw_text' & sd & Hi & Hl & Ha & Hne & _).
    assert (raw_text' = raw_text) by congruence. subst raw_text'.
    destruct Hanalyze as [Hnone | Hempty]; congruence.
  - split.
    + intros Hin. rewrite !elem_of_app in Hin.
      destruct Hin as [Hin | [Hin | [Hin | [Hin | Hin]]]];
        [not_listed Hin | not_listed Hin | | not_listed Hin | ].
      * destruct (get_web_data_for_company st _ raw_text); not_listed Hin.
      * destruct (create_presentation st _ _) as [[]|e] eqn:Hmade; [|not_listed Hin].
        assert (Hpath : output_pptx_path = output_pptx_path_of cwd company_folder_name).
        { listed Hin. now injection Hin. }
        split; [exact Hpath|]. exists raw_text, structured_data.
        rewrite Hpath. auto.
    + intros (-> & raw_text' & sd & Hi & Hl & Ha & Hne & Hmade).
      assert (raw_text' = raw_text) by congruence. subst raw_text'.
      assert (sd = structured_data) by congruence. subst sd.
      rewrite Hmade. rewrite !elem_of_app. do 4 right. simpl.
      do 2 right. left.
Qed.

(** The record the generator is given always carries a [web_data] entry: what
    the web search returned, or the all-empty structure when it raised.
    Every other entry is as the extractor returned it, and the path is the
    teaser path of the company folder. *)
Theorem generator_record cwd st company_folder_name record output_path :
  CreatePresentation record output_path
    ∈ trace_of (run_pipeline cwd st company_folder_name) →
  output_path = output_pptx_path_of cwd company_folder_name ∧
  ∃ raw_text structured_data,
    ingest_company_data st (input_dir_of cwd company_folder_name) = Ok raw_text ∧
    analyze_data st raw_text = Some structured_data ∧
    let web :=
      get_web_data_for_company st (company_name_of company_folder_name structured_data)
        raw_text in
    (∀ web_data, web = Ok web_data → dict_get "web_data" record = Some web_data) ∧
    (∀ e, web = Raised e → dict_get "web_data" record = Some empty_web_data) ∧
    (∀ key, key ≠ "web_data" → dict_get key record = dict_get key structured_data).
Proof.
  destruct (run_pipeline_ending cwd st company_folder_name)
    as [e Hingest Hrun | raw_text Hingest Hshort Hrun | raw_text Hingest Hlong Hanalyze Hrun
       | raw_text structured_data Hingest Hlong Hanalyze Hrecord Hrun];
    cbv zeta in Hrun; rewrite Hrun; unfold trace_of; cbn [fst]; intros Hin;
    [not_listed Hin | not_listed Hin | not_listed Hin |].
  assert (Hcall : CreatePresentation record output_path =
                  CreatePresentation
                    (record_for_generator st company_folder_name raw_text structured_data)
                    (output_pptx_path_of cwd company_folder_name)).
  { rewrite !elem_of_app in Hin.
    destruct Hin as [Hin | [Hin | [Hin | [Hin | Hin]]]];
      [not_listed Hin | not_listed Hin | | listed Hin; exact Hin | ].
    - destruct (get_web_data_for_company st _ raw_text); not_listed Hin.
    - destruct (create_presentation st _ _); not_listed Hin. }
  injection Hcall as -> ->. split; [reflexivity|].
  exists raw_text, structured_data. split; [assumption|]. split; [assumption|].
  unfold record_for_generator. cbv zeta.
  split; [|split].
  - intros web_data ->. apply dict_get_set_eq.
  - intros e ->. apply dict_get_set_eq.
  - intros key Hkey. now apply dict_get_set_ne.
Qed.

(** *** With the extractor of [utils/agent.py] as the second stage *)

Definition with_extractor (loads : string → result json)
    (chain_invoke : string → llm_outcome) (st : stages) : stages :=
  {| ingest_company_data := ingest_company_data st;
     analyze_data := Agent.analyze_data loads chain_invoke;
     get_web_data_for_company := get_web_data_for_company st;
     create_presentation := create_presentation st |}.

(** The run that goes on with the placeholder record, and the run that stops
    after the extractor. *)
Definition goes_on_with_placeholder (cwd : string) (st : stages)
    (company_folder_name raw_text : string) (run : traced event (result unit)) : Prop :=
  Print (AnalysisComplete (JStr "Project Error")) ∈ trace_of run ∧
  stage_calls (trace_of run) =
    [ Ingest (input_dir_of cwd company_folder_name); Analyze raw_text;
      WebSearch (JStr "Unknown") raw_text;
      CreatePresentation
        (dict_set "web_data"
           (stored_web_data (get_web_data_for_company st (JStr "Unknown") raw_text))
           Agent.error_record)
        (output_pptx_path_of cwd company_folder_name) ].

Definition stops_after_extractor (cwd : string) (company_folder_name raw_text : string)
    (run : traced event (result unit)) : Prop :=
  Print AgentFailed ∈ trace_of run ∧
  stage_calls (trace_of run) =
    [Ingest (input_dir_of cwd company_folder_name); Analyze raw_text].

(** What the run does with a failure of the extractor goes by the class of
    the exception.  A [json.JSONDecodeError], raised by [json.loads] on the
    reply or by the model call, does not stop the run: the extractor's
    placeholder record goes on as if it were the analysis, so the web search
    is made for the company "Unknown" and the generator is called with the
    placeholder, codename "Project Error".  Every other exception, of the
    model call or of [json.loads] (its [RecursionError] on a deeply nested
    reply, its [ValueError] on an integer of more than 4300 digits), stops
    the run after the extractor, and so does a reply that decodes to
    something that is no object, or to the empty object. *)
Theorem extractor_in_pipeline cwd st loads chain_invoke company_folder_name raw_text :
  let run := run_pipeline cwd (with_extractor loads chain_invoke st) company_folder_name in
  ingest_company_data st (input_dir_of cwd company_folder_name) = Ok raw_text →
  too_short raw_text = false →
  (∀ content e,
     chain_invoke raw_text = Replies content →
     loads (Agent.clean_json_string content) = Raised e →
     (is_JSONDecodeError e = true →
      goes_on_with_placeholder cwd st company_folder_name raw_text run) ∧
     (is_JSONDecodeError e = false →
      stops_after_extractor cwd company_folder_name raw_text run)) ∧
  (∀ e,
     chain_invoke raw_text = Raises e →
     (is_JSONDecodeError e = true →
      goes_on_with_placeholder cwd st company_folder_name raw_text run) ∧
     (is_JSONDecodeError e = false →
      stops_after_extractor cwd company_folder_name raw_text run)) ∧
  (∀ content v,
     chain_invoke raw_text = Replies content →
     loads (Agent.clean_json_string content) = Ok v →
     (∀ member data, v ≠ JObj (member :: data)) →
     stops_after_extractor cwd company_folder_name raw_text run).
Proof.
  intros run Hingest Hlong.
  assert (Habort :
    Agent.analyze_data loads chain_invoke raw_text = None ∨
    Agent.analyze_data loads chain_invoke raw_text = Some [] →
    stops_after_extractor cwd company_folder_name raw_text run).
  { intros Hanalyze. subst run. unfold stops_after_extractor.
    rewrite (run_pipeline_no_record cwd (with_extractor loads chain_invoke st)
               company_folder_name raw_text Hingest Hlong Hanalyze).
    split; [|reflexivity].
    unfold trace_of. cbn [fst]. apply elem_of_app. right. do 3 right. left. }
  assert (Hplaceholder :
    Agent.analyze_data loads chain_invoke raw_text = Some Agent.error_record →
    goes_on_with_placeholder cwd st company_folder_name raw_text run).
  { intros Hanalyze.
    assert (Hne : Agent.error_record ≠ []) by discriminate.
    pose proof (run_pipeline_generated cwd (with_extractor loads chain_invoke st)
                  company_folder_name raw_text Agent.error_record Hingest Hlong Hanalyze Hne)
      as Hrun.
    cbv zeta in Hrun. subst run. unfold goes_on_with_placeholder.
    rewrite Hrun. unfold trace_of. cbn [fst]. split.
    + apply elem_of_app. right. apply elem_of_app. left. do 3 right. left.
    + change (company_name_of company_folder_name Agent.error_record) with (JStr "Unknown").
      unfold record_for_generator.
      change (company_name_of company_folder_name Agent.error_record) with (JStr "Unknown").
      cbn [get_web_data_for_company with_extractor create_presentation].
      unfold stage_calls.
      destruct (get_web_data_for_company st (JStr "Unknown") raw_text);
        destruct (create_presentation st _ _); reflexivity. }
  split; [|split].
  - intros content e Hreply Hdecode.
    destruct (AgentProps.handler_by_class loads chain_invoke raw_text) as [_ Hloads].
    specialize (Hloads content e Hreply Hdecode).
    split; intros Hclass; rewrite Hclass in Hloads; auto.
  - intros e Hraise.
    destruct (AgentProps.handler_by_class loads chain_invoke raw_text) as [Hcall _].
    specialize (Hcall e Hraise).
    split; intros Hclass; rewrite Hclass in Hcall; auto.
  - intros content v Hreply Hdecode Hv. apply Habort.
    unfold Agent.analyze_data. rewrite Hreply, Hdecode.
    destruct v as [| | | | | |[|member data]]; auto.
    exfalso. eapply Hv. reflexivity.
Qed.

(** *** Concrete runs *)

(** Stages whose extractor returns nothing. *)
Definition silent_model : stages :=
  {| ingest_company_data := λ _, Ok sample_text;
     analyze_data := λ _, None;
     get_web_data_for_company := λ _ _, Raised timeout_error;
     create_presentation := λ _ _, Ok tt |}.

Lemma no_record_aborts_witness :
  stage_calls (trace_of (run_pipeline "/srv/teaser" silent_model "Acme")) =
    [Ingest (input_dir_of "/srv/teaser" "Acme"); Analyze sample_text].
Proof.
  apply (proj2 (no_record_aborts "/srv/teaser" silent_model "Acme" sample_text
                  eq_refl eq_refl (or_introl eq_refl))).
Defined.

Lemma generator_record_witness :
  ∃ raw_text structured_data,
    ingest_company_data web_down (input_dir_of "/srv/teaser" "Acme") = Ok raw_text ∧
    analyze_data web_down raw_text = Some structured_data ∧
    dict_get "web_data" (dict_set "web_data" empty_web_data sample_record)
      = Some empty_web_data.
Proof.
  destruct (generator_record "/srv/teaser" web_down "Acme"
              (dict_set "web_data" empty_web_data sample_record)
              (output_pptx_path_of "/srv/teaser" "Acme"))
    as (_ & raw_text & structured_data & Hingest & Hanalyze & _ & Hraised & _).
  - vm_compute. do 14 right. left.
  - exists raw_text, structured_data. split; [exact Hingest|]. split; [exact Hanalyze|].
    injection Hingest as <-. injection Hanalyze as <-.
    apply (Hraised timeout_error). reflexivity.
Defined.

(** A model that apologises instead of answering, and one that answers with
    2000 opening brackets. *)
Lemma extractor_in_pipeline_witness :
  goes_on_with_placeholder "/srv/teaser" web_down "Acme" sample_text
    (run_pipeline "/srv/teaser"
       (with_extractor Json.json_loads_raising (λ _, Replies AgentProps.apology) web_down)
       "Acme") ∧
  stops_after_extractor "/srv/teaser" "Acme" sample_text
    (run_pipeline "/srv/teaser"
       (with_extractor (Json.loads_within 1000) (λ _, Replies AgentProps.deep_reply)
          web_down)
       "Acme").
Proof.
  split.
  - apply (proj1 (proj1 (extractor_in_pipeline "/srv/teaser" web_down
                           Json.json_loads_raising (λ _, Replies AgentProps.apology)
                           "Acme" sample_text eq_refl eq_refl)
                    AgentProps.apology (JSONDecodeError "Expecting value") eq_refl
                    AgentProps.apology_raises)
             eq_refl).
  - apply (proj2 (proj1 (extractor_in_pipeline "/srv/teaser" web_down
                           (Json.loads_within 1000) (λ _, Replies AgentProps.deep_reply)
                           "Acme" sample_text eq_refl eq_refl)
                    AgentProps.deep_reply Json.recursion_error eq_refl
                    AgentProps.deep_reply_raises)
             eq_refl).
Defined.

End PipelineProps.

(** ** The calls outside every [try] *)

Module OrchestratorProps.
Import Py OsPath Main MainProps PipelineProps Orchestrator.

(** When the output directory can be made and the extractor returns, the run
    is the one [Main.run_pipeline] describes. *)
Lemma run_pipeline_returning cwd st company_folder_name :
  run_pipeline cwd (returning st) company_folder_name =
  Main.run_pipeline cwd st company_folder_name.
Proof.
  unfold run_pipeline, Main.run_pipeline, web_step, generation_step, returning.
  cbn [makedirs ingest_company_data analyze_data get_web_data_for_company
       create_presentation].
  destruct (Main.ingest_company_data st _) as [raw_text|e]; [|reflexivity].
  destruct (too_short raw_text); [reflexivity|].
  destruct (Main.analyze_data st raw_text) as [[|member data]|]; [reflexivity| |reflexivity].
  run_trace.
  destruct (Main.get_web_data_for_company st _ raw_text) as [web_data|e];
    destruct (Main.create_presentation st _ _); reflexivity.
Qed.

(** The stages are called at most once each and in order, each with what the
    one before returned, and a run ends in one of six ways.  When
    [os.makedirs] raises, no stage is called and its exception leaves the
    run.  Otherwise the ingestor is called: its exception leaves the run,
    and a text that is too short ends it, after that one call.  Otherwise
    the extractor is called with the text: its exception leaves the run, and
    [None] or an empty record ends it, after these two calls.  Otherwise the
    web search and the generator are both called, the generator with the
    record that holds what the web search returned, and the run returns
    whatever the two of them did. *)
Theorem stages_in_order cwd w company_folder_name :
  let run := run_pipeline cwd w company_folder_name in
  let input_dir := input_dir_of cwd company_folder_name in
  let called := stage_calls (trace_of run) in
  (∃ e,
     makedirs w (output_dir_of cwd) = Raised e ∧
     called = [] ∧ value_of run = Raised e) ∨
  makedirs w (output_dir_of cwd) = Ok tt ∧
  ((∃ e,
      ingest_company_data w input_dir = Raised e ∧
      called = [Ingest input_dir] ∧ value_of run = Raised e) ∨
   (∃ raw_text,
      ingest_company_data w input_dir = Ok raw_text ∧
      too_short raw_text = true ∧
      called = [Ingest input_dir] ∧ value_of run = Ok tt) ∨
   (∃ raw_text e,
      ingest_company_data w input_dir = Ok raw_text ∧
      too_short raw_text = false ∧
      analyze_data w raw_text = Raised e ∧
      called = [Ingest input_dir; Analyze raw_text] ∧ value_of run = Raised e) ∨
   (∃ raw_text,
      ingest_company_data w input_dir = Ok raw_text ∧
      too_short raw_text = false ∧
      (analyze_data w raw_text = Ok None ∨ analyze_data w raw_text = Ok (Some [])) ∧
      called = [Ingest input_dir; Analyze raw_text] ∧ value_of run = Ok tt) ∨
   (∃ raw_text structured_data,
      ingest_company_data w input_dir = Ok raw_text ∧
      too_short raw_text = false ∧
      analyze_data w raw_text = Ok (Some structured_data) ∧
      structured_data ≠ [] ∧
      let company_name := company_name_of company_folder_name structured_data in
      called =
        [ Ingest input_dir; Analyze raw_text; WebSearch company_name raw_text;
          CreatePresentation
            (dict_set "web_data"
               (stored_web_data (get_web_data_for_company w company_name raw_text))
               structured_data)
            (output_pptx_path_of cwd company_folder_name) ] ∧
      value_of run = Ok tt)).
Proof.
  intros run input_dir called. subst run input_dir called.
  unfold run_pipeline. run_trace. cbv zeta.
  destruct (makedirs w (output_dir_of cwd)) as [[]|e] eqn:Hmade.
  2: { left. exists e. auto. }
  right. split; [reflexivity|].
  destruct (ingest_company_data w _) as [raw_text|e] eqn:Hingest.
  2: { left. exists e. auto. }
  right. destruct (too_short raw_text) eqn:Hshort.
  { left. exists raw_text. auto. }
  right. destruct (analyze_data w raw_text) as [[[|member data]|]|e] eqn:Hanalyze.
  - right. left. exists raw_text. auto 6.
  - right. right. exists raw_text, (member :: data).
    split; [reflexivity|]. split; [exact Hshort|]. split; [exact Hanalyze|].
    split; [discriminate|].
    unfold company_name_of.
    destruct (get_web_data_for_company w _ raw_text) as [web_data|e];
      cbn [stored_web_data];
      destruct (create_presentation w _ _); split; reflexivity.
  - right. left. exists raw_text. auto 6.
  - left. exists raw_text, e. auto 6.
Qed.

End OrchestratorProps.

(** ** The corpus, file by file *)

Module CorpusProps.
Import Py OsPath Ingestor IngestorProps.

(** What one file adds to the corpus. *)
Definition contribution (d : disk) (folder_path filename : string) : string :=
  ingest_file d folder_path EmptyString filename.

Lemma excel_text_appends filename sheets combined_text :
  excel_text filename sheets combined_text =
  combined_text ++ excel_text filename sheets EmptyString.
Proof.
  revert combined_text.
  induction sheets as [|[sheet_name [table_text|e]] rest IH]; intros combined_text; simpl.
  - now rewrite StrFacts.app_nil_r.
  - rewrite IH. rewrite (IH (String _ _)). now rewrite !StrFacts.app_assoc.
  - now rewrite StrFacts.app_nil_r.
Qed.

(** The loop only ever appends: what a file adds does not depend on what
    was read before it. *)
Lemma ingest_file_appends d folder_path combined_text filename :
  ingest_file d folder_path combined_text filename =
  combined_text ++ contribution d folder_path filename.
Proof.
  unfold contribution, ingest_file.
  destruct (str_startswith "." filename); [now rewrite StrFacts.app_nil_r|].
  destruct (str_endswith_any [".txt"; ".md"] (str_lower filename)).
  { destruct (read_text d _); [reflexivity | now rewrite StrFacts.app_nil_r]. }
  destruct (str_endswith ".pdf" (str_lower filename)).
  { destruct (pdf_pages d _) as [pages|e]; [|now rewrite StrFacts.app_nil_r].
    destruct (pdf_text pages EmptyString); [reflexivity | now rewrite StrFacts.app_nil_r]. }
  destruct (str_endswith_any [".xlsx"; ".xls"] (str_lower filename));
    [|now rewrite StrFacts.app_nil_r].
  destruct (excel_sheets d _) as [sheets|e]; [|now rewrite StrFacts.app_nil_r].
  apply excel_text_appends.
Qed.

Lemma ingest_files_concat d folder_path files combined_text :
  fold_left (ingest_file d folder_path) files combined_text =
  combined_text ++ concat_sections (contribution d folder_path <$> files).
Proof.
  revert combined_text. induction files as [|f rest IH]; intros combined_text; simpl.
  - now rewrite StrFacts.app_nil_r.
  - rewrite IH, ingest_file_appends. now rewrite StrFacts.app_assoc.
Qed.

Lemma concat_sections_app a b :
  concat_sections (a ++ b) = concat_sections a ++ concat_sections b.
Proof.
  induction a as [|s a IH]; [reflexivity|]. simpl.
  now rewrite IH, StrFacts.app_assoc.
Qed.

(** The corpus of a folder is the concatenation, in listing order, of what
    each file contributes by itself; so the corpus of a listing cut in two
    is the corpus of the first part followed by that of the second. *)
Theorem corpus_is_concatenation d folder_path files :
  folder_path ∈ paths d →
  listdir d folder_path = Ok files →
  files ≠ [] →
  ingest_company_data d folder_path =
    Ok (concat_sections (contribution d folder_path <$> files)) ∧
  ∀ before after,
    files = (before ++ after)%list →
    ingest_company_data d folder_path =
      Ok (fold_left (ingest_file d folder_path) before EmptyString
            ++ fold_left (ingest_file d folder_path) after EmptyString).
Proof.
  intros Hin Hls Hne. rewrite (ingest_listing d folder_path files Hin Hls Hne).
  split.
  - now rewrite ingest_files_concat.
  - intros before after ->. rewrite !ingest_files_concat.
    now rewrite fmap_app, concat_sections_app.
Qed.

(** The ways a file adds nothing: it is hidden, its extension is none of the
    five, or reading it raises: opening it, or one page of a PDF. *)
Inductive skipped (d : disk) (folder_path filename : string) : Prop :=
| Hidden (Hdot : str_startswith "." filename = true)
| Unsupported
    (Htxt : str_endswith_any [".txt"; ".md"] (str_lower filename) = false)
    (Hpdf : str_endswith ".pdf" (str_lower filename) = false)
    (Hxls : str_endswith_any [".xlsx"; ".xls"] (str_lower filename) = false)
| UnreadableText e
    (Htxt : str_endswith_any [".txt"; ".md"] (str_lower filename) = true)
    (Hread : read_text d (join folder_path filename) = Raised e)
| UnreadablePdf e
    (Htxt : str_endswith_any [".txt"; ".md"] (str_lower filename) = false)
    (Hpdf : str_endswith ".pdf" (str_lower filename) = true)
    (Hopen : pdf_pages d (join folder_path filename) = Raised e)
| UnreadablePage e pages
    (Htxt : str_endswith_any [".txt"; ".md"] (str_lower filename) = false)
    (Hpdf : str_endswith ".pdf" (str_lower filename) = true)
    (Hopen : pdf_pages d (join folder_path filename) = Ok pages)
    (Hpage : Raised e ∈ pages)
| UnreadableWorkbook e
    (Htxt : str_endswith_any [".txt"; ".md"] (str_lower filename) = false)
    (Hpdf : str_endswith ".pdf" (str_lower filename) = false)
    (Hxls : str_endswith_any [".xlsx"; ".xls"] (str_lower filename) = true)
    (Hopen : excel_sheets d (join folder_path filename) = Raised e).

Lemma pdf_text_raises pages text e :
  Raised e ∈ pages → ∃ e', pdf_text pages text = Raised e'.
Proof.
  intros Hin. revert text. induction pages as [|page rest IH]; intros text.
  - now apply elem_of_nil in Hin.
  - destruct page as [[page_text|]|e'']; simpl.
    + apply elem_of_cons in Hin as [Heq | Hin]; [discriminate Heq|].
      destruct (String.eqb page_text EmptyString); now apply IH.
    + apply elem_of_cons in Hin as [Heq | Hin]; [discriminate Heq|]. now apply IH.
    + eexists. reflexivity.
Qed.

Lemma skipped_contribution d folder_path filename :
  skipped d folder_path filename → contribution d folder_path filename = EmptyString.
Proof.
  unfold contribution, ingest_file.
  intros [Hdot | Htxt Hpdf Hxls | e Htxt Hread | e Htxt Hpdf Hopen
         | e pages Htxt Hpdf Hopen Hpage | e Htxt Hpdf Hxls Hopen].
  - now rewrite Hdot.
  - rewrite Htxt, Hpdf, Hxls. now destruct (str_startswith "." filename).
  - rewrite Htxt, Hread. now destruct (str_startswith "." filename).
  - rewrite Htxt, Hpdf, Hopen. now destruct (str_startswith "." filename).
  - rewrite Htxt, Hpdf, Hopen.
    destruct (pdf_text_raises pages EmptyString e Hpage) as [e' ->].
    now destruct (str_startswith "." filename).
  - rewrite Htxt, Hpdf, Hxls, Hopen. now destruct (str_startswith "." filename).
Qed.

(** A file that is hidden, of another type, or unreadable is passed over
    without a trace, and the files around it are read as if it were not in
    the folder.  A PDF one of whose pages cannot be extracted is such a
    file: the pages before it are lost with it. *)
Theorem unreadable_file_is_skipped d folder_path before filename after combined_text :
  skipped d folder_path filename →
  ingest_file d folder_path combined_text filename = combined_text ∧
  fold_left (ingest_file d folder_path) (before ++ filename :: after) EmptyString =
  fold_left (ingest_file d folder_path) (before ++ after) EmptyString.
Proof.
  intros Hskip. apply skipped_contribution in Hskip. split.
  - now rewrite ingest_file_appends, Hskip, StrFacts.app_nil_r.
  - rewrite !ingest_files_concat, !fmap_app, fmap_cons, !concat_sections_app.
    simpl. now rewrite Hskip.
Qed.

(** A workbook is read sheet by sheet into the corpus: when a sheet cannot
    be read, the sheets before it stay, each under its header, and the sheets
    after it are not read. *)
Theorem workbook_keeps_sheets_before_failure d folder_path filename combined_text
    before sheet_name e after :
  str_startswith "." filename = false →
  str_endswith_any [".txt"; ".md"] (str_lower filename) = false →
  str_endswith ".pdf" (str_lower filename) = false →
  str_endswith_any [".xlsx"; ".xls"] (str_lower filename) = true →
  excel_sheets d (join folder_path filename) =
    Ok (read_sheets before ++ (sheet_name, Raised e) :: after)%list →
  ingest_file d folder_path combined_text filename =
  combined_text ++ concat_sections (sheet_section filename <$> before).
Proof.
  intros Hdot Htxt Hpdf Hxls Hopen. unfold ingest_file.
  rewrite Hdot, Htxt, Hpdf, Hxls, Hopen. clear Hopen.
  revert combined_text.
  induction before as [|[name table_text] before IH]; intros combined_text; simpl.
  - now rewrite StrFacts.app_nil_r.
  - rewrite IH. unfold sheet_section; simpl. now rewrite StrFacts.app_assoc.
Qed.

(** *** A concrete folder *)

(** A folder with a note, a PDF whose second page cannot be extracted, and a
    workbook whose second sheet cannot be read. *)
Definition damaged_folder : disk :=
  {| paths := {[acme]};
     listdir := λ _, Ok ["notes.md"; "scan.pdf"; "book.xlsx"];
     read_text := λ _, Ok "Acme makes valves.";
     pdf_pages := λ _, Ok [Ok (Some "Page one"); Raised unreadable; Ok (Some "Page three")];
     excel_sheets := λ _,
       Ok [("P&L", Ok "revenue 10"); ("Assets", Raised unreadable); ("Notes", Ok "n/a")] |}.

Lemma corpus_is_concatenation_witness :
  ingest_company_data mixed_folder acme =
    Ok (concat_sections
          (contribution mixed_folder acme <$> ["notes.md"; "report.pdf"; "book.xlsx"])).
Proof.
  apply (corpus_is_concatenation mixed_folder acme ["notes.md"; "report.pdf"; "book.xlsx"]);
    [set_solver | reflexivity | discriminate].
Defined.

Lemma unreadable_file_is_skipped_witness :
  fold_left (ingest_file damaged_folder acme) ["notes.md"; "scan.pdf"] EmptyString =
  fold_left (ingest_file damaged_folder acme) ["notes.md"] EmptyString.
Proof.
  apply (proj2 (unreadable_file_is_skipped damaged_folder acme ["notes.md"] "scan.pdf" []
                  EmptyString
                  (UnreadablePage damaged_folder acme "scan.pdf" unreadable
                     [Ok (Some "Page one"); Raised unreadable; Ok (Some "Page three")]
                     eq_refl eq_refl eq_refl
                     (list_elem_of_further _ _ _ (list_elem_of_here _ _))))).
Defined.

Lemma workbook_keeps_sheets_before_failure_witness :
  ingest_file damaged_folder acme "seen so far" "book.xlsx" =
  "seen so far" ++ nl ++ nl ++ "--- FILE: book.xlsx | SHEET: P&L ---" ++ nl ++ "revenue 10".
Proof.
  apply (workbook_keeps_sheets_before_failure damaged_folder acme "book.xlsx" "seen so far"
           [("P&L", "revenue 10")] "Assets" unreadable [("Notes", Ok "n/a")]
           eq_refl eq_refl eq_refl eq_refl eq_refl).
Defined.

End CorpusProps.

(** ** Cleaning the model's reply *)

Module CleanJsonProps.
Import Py.

(** [c not in s] *)
Fixpoint lacks (c : ascii) (s : string) : bool :=
  match s with
  | EmptyString => true
  | String a r => negb (Ascii.eqb a c) && lacks c r
  end.

Lemma prefix_app_same (old s : string) : String.prefix old (old ++ s) = true.
Proof. apply StrFacts.prefix_iff. exists s. reflexivity. Qed.

Lemma not_prefix (p s : string) : (∀ post, s ≠ p ++ post) → String.prefix p s = false.
Proof.
  intros Hno. destruct (String.prefix p s) eqn:Hp; [|reflexivity].
  apply StrFacts.prefix_iff in Hp as [post Hp]. now apply Hno in Hp.
Qed.

Lemma prefix_first o0 o' a r :
  Ascii.eqb a o0 = false → String.prefix (String o0 o') (String a r) = false.
Proof.
  intros Hne. apply not_prefix. intros post H. simpl in H. injection H as -> _.
  now rewrite Ascii.eqb_refl in Hne.
Qed.

Lemma lacks_iff c s : lacks c s = true ↔ str_contains (String c EmptyString) s = false.
Proof.
  induction s as [|a r IH].
  - rewrite StrFacts.str_contains_nil. split; [intros _; now apply not_prefix | reflexivity].
  - rewrite StrFacts.str_contains_cons. simpl lacks.
    rewrite andb_true_iff, orb_false_iff, IH, negb_true_iff.
    assert (Hhead : String.prefix (String c EmptyString) (String a r) = false ↔
                    Ascii.eqb a c = false).
    { split.
      - intros Hp. destruct (Ascii.eqb_spec a c) as [->|Hne]; [|reflexivity].
        pose proof (prefix_app_same (String c EmptyString) r) as Ht.
        change (String c EmptyString ++ r) with (String c r) in Ht. congruence.
      - apply prefix_first. }
    tauto.
Qed.

(** Skipping is dropping. *)
Lemma replace_skip old new k s :
  str_replace_from old new k s = str_replace_from old new O (str_drop k s).
Proof.
  revert s. induction k as [|k IH]; intros s; [reflexivity|].
  destruct s as [|c r]; [reflexivity|]. simpl. apply IH.
Qed.

(** An occurrence at the front is replaced, and the scan goes on behind it. *)
Lemma replace_at_front o0 o' new s :
  str_replace (String o0 o') new (String o0 o' ++ s) = new ++ str_replace (String o0 o') new s.
Proof.
  unfold str_replace.
  change (String o0 o' ++ s) with (String o0 (o' ++ s)).
  cbn [str_replace_from].
  change (String o0 (o' ++ s)) with (String o0 o' ++ s).
  rewrite prefix_app_same, replace_skip.
  replace (String.length (String o0 o') - 1)%nat with (String.length o') by (simpl; lia).
  now rewrite OsPathProps.drop_app.
Qed.

(** Text without the first character of [old] is copied. *)
Lemma replace_copies o0 o' new x y :
  lacks o0 x = true →
  str_replace (String o0 o') new (x ++ y) = x ++ str_replace (String o0 o') new y.
Proof.
  unfold str_replace. induction x as [|a r IH]; intros Hx; [reflexivity|].
  simpl in Hx. apply andb_true_iff in Hx as [Ha Hr]. apply negb_true_iff in Ha.
  change (String a r ++ y) with (String a (r ++ y)).
  cbn [str_replace_from]. rewrite (prefix_first o0 o' a (r ++ y) Ha), (IH Hr).
  reflexivity.
Qed.

(** Text in which [old] does not occur is left as it is. *)
Lemma replace_absent old new s :
  str_contains old s = false → str_replace old new s = s.
Proof.
  unfold str_replace. induction s as [|c r IH]; [reflexivity|].
  rewrite StrFacts.str_contains_cons. intros [Hp Hr]%orb_false_iff.
  cbn [str_replace_from]. rewrite Hp, (IH Hr). reflexivity.
Qed.

Lemma contains_copies o0 o' x y :
  lacks o0 x = true →
  str_contains (String o0 o') (x ++ y) = str_contains (String o0 o') y.
Proof.
  induction x as [|a r IH]; intros Hx; [reflexivity|].
  simpl in Hx. apply andb_true_iff in Hx as [Ha Hr]. apply negb_true_iff in Ha.
  change (String a r ++ y) with (String a (r ++ y)).
  rewrite StrFacts.str_contains_cons, (prefix_first o0 o' a _ Ha), (IH Hr). reflexivity.
Qed.

Lemma contains_at_front (old s : string) : str_contains old (old ++ s) = true.
Proof.
  apply StrFacts.str_contains_iff. exists EmptyString, s. reflexivity.
Qed.

(** Text that is followed by a fence and starts with "json" had it before the
    fence. *)
Lemma starts_with_json body post :
  lacks "`" body = true → body ++ "```" = "json" ++ post →
  str_startswith "json" body = true.
Proof.
  intros Hbody H.
  destruct body as [|c1 body]; [discriminate H|]. simpl in H. injection H as -> H.
  destruct body as [|c2 body]; [discriminate H|]. simpl in H. injection H as -> H.
  destruct body as [|c3 body]; [discriminate H|]. simpl in H. injection H as -> H.
  destruct body as [|c4 body]; [discriminate H|]. simpl in H. injection H as -> H.
  apply StrFacts.prefix_iff. exists body. reflexivity.
Qed.

(** A reply wrapped in a code fence tagged [json] is unwrapped: what is
    decoded is the text between the fences, stripped.  So is a reply in an
    untagged fence, unless the text inside starts with "json", and a reply
    without a backquote is only stripped.  This holds for every text between
    the fences that holds no backquote itself, in both modules that clean a
    reply. *)
Theorem fenced_reply_is_unwrapped body :
  str_contains "`" body = false →
  Agent.clean_json_string ("```json" ++ body ++ "```") = str_strip body ∧
  (str_startswith "json" body = false →
   Agent.clean_json_string ("```" ++ body ++ "```") = str_strip body) ∧
  Agent.clean_json_string body = str_strip body ∧
  (∀ reply, WebSearch.clean_json_string reply = Agent.clean_json_string reply).
Proof.
  intros Hbody. apply (lacks_iff "`"%char) in Hbody.
  assert (Hinner : str_replace "```" EmptyString (body ++ "```") = body).
  { rewrite (replace_copies "`"%char "``" EmptyString body "```" Hbody).
    change (str_replace "```" EmptyString "```") with EmptyString.
    apply StrFacts.app_nil_r. }
  split; [|split; [|split]].
  - unfold Agent.clean_json_string.
    assert (Hfence : str_contains "```" ("```json" ++ body ++ "```") = true).
    { change ("```json" ++ body ++ "```") with ("```" ++ ("json" ++ body ++ "```")).
      apply contains_at_front. }
    rewrite Hfence.
    rewrite (replace_at_front "`"%char "``json" EmptyString (body ++ "```")).
    change (EmptyString ++ str_replace "```json" EmptyString (body ++ "```"))
      with (str_replace "```json" EmptyString (body ++ "```")).
    rewrite (replace_copies "`"%char "``json" EmptyString body "```" Hbody).
    change (str_replace "```json" EmptyString "```") with "```".
    now rewrite Hinner.
  - intros Huntagged. unfold Agent.clean_json_string.
    rewrite (contains_at_front "```" (body ++ "```")).
    assert (Hnone : str_contains "```json" ("```" ++ body ++ "```") = false).
    { change ("```" ++ body ++ "```")
        with (String "`" (String "`" (String "`" (body ++ "```")))).
      rewrite !StrFacts.str_contains_cons.
      rewrite (contains_copies "`"%char "``json" body "```" Hbody).
      change (str_contains "```json" "```") with false.
      rewrite !orb_false_r.
      rewrite !orb_false_iff. split; [|split].
      - apply not_prefix. intros post H. simpl in H. injection H as H.
        apply (starts_with_json body post Hbody) in H. congruence.
      - apply not_prefix. intros post H. simpl in H. injection H as H.
        destruct body as [|c body]; [discriminate H|].
        simpl in H. injection H as -> _. discriminate Hbody.
      - apply not_prefix. intros post H. simpl in H. injection H as H.
        destruct body as [|c body]; [discriminate H|].
        simpl in H. injection H as -> _. discriminate Hbody. }
    rewrite (replace_absent _ _ _ Hnone).
    rewrite (replace_at_front "`"%char "``" EmptyString (body ++ "```")).
    change (EmptyString ++ str_replace "```" EmptyString (body ++ "```"))
      with (str_replace "```" EmptyString (body ++ "```")).
    now rewrite Hinner.
  - unfold Agent.clean_json_string.
    rewrite <- (StrFacts.app_nil_r body) at 1.
    rewrite (contains_copies "`"%char "``" body EmptyString Hbody). reflexivity.
  - reflexivity.
Qed.

Lemma fenced_reply_is_unwrapped_witness :
  Agent.clean_json_string
    ("```json" ++ (newline ++ "{" ++ quoted "sector" ++ ": " ++ quoted "Valves" ++ "}"
                     ++ newline) ++ "```")
  = "{" ++ quoted "sector" ++ ": " ++ quoted "Valves" ++ "}".
Proof.
  apply (proj1 (fenced_reply_is_unwrapped
                  (newline ++ "{" ++ quoted "sector" ++ ": " ++ quoted "Valves" ++ "}"
                     ++ newline) eq_refl)).
Defined.

End CleanJsonProps.

(** ** What the searches return *)

Module WebResultsProps.
Import Py WebSearch WebSearchProps.

(** *** The text search *)

(** What [search_text_tavily] makes of one entry of the provider's reply. *)
Definition copied (item : dict) : dict :=
  [ ("title", dict_get_default "title" (JStr EmptyString) item);
    ("body", dict_get_default "content" (JStr EmptyString) item);
    ("href", dict_get_default "url" (JStr EmptyString) item) ].

Lemma tavily_objects items : mapM tavily_result (JObj <$> items) = Some (copied <$> items).
Proof.
  apply mapM_Some. induction items as [|item items IH]; constructor; [reflexivity | exact IH].
Qed.

Lemma tavily_not_object items item :
  item ∈ items → (∀ o, item ≠ JObj o) → mapM tavily_result items = None.
Proof.
  intros Hin Hitem. apply mapM_None, Exists_exists. exists item. split; [exact Hin|].
  destruct item; try reflexivity. exfalso. eapply Hitem. reflexivity.
Qed.

Lemma tavily_results_shape data result :
  result ∈ tavily_results data →
  ∃ title body href, result = [("title", title); ("body", body); ("href", href)].
Proof.
  unfold tavily_results. destruct data as [| | | | | |d]; try (intros H; now apply elem_of_nil in H).
  destruct (dict_get_default "results" (JArr []) d) as [| | | | |items|];
    try (intros H; now apply elem_of_nil in H).
  destruct (mapM tavily_result items) as [results|] eqn:Hmap;
    [|intros H; now apply elem_of_nil in H].
  apply mapM_Some_1 in Hmap. intros Hin.
  induction Hmap as [|item r items results Hitem _ IH]; [now apply elem_of_nil in Hin|].
  apply elem_of_cons in Hin as [-> | Hin]; [|now apply IH].
  destruct item; try discriminate Hitem. injection Hitem as <-. eauto.
Qed.

(** Every result of a text search has exactly the keys [title], [body] and
    [href], in which the provider's [title], [content] and [url] are copied,
    one result per entry and in the provider's order.  There are no results
    when the API key is missing or empty, when the request raises, and when
    the reply has no [results]; and one entry that is no object costs all the
    results, those before it too. *)
Theorem text_search_results w query max_results :
  let results := value_of (search_text_tavily w query max_results) in
  (∀ result, result ∈ results →
     ∃ title body href, result = [("title", title); ("body", body); ("href", href)]) ∧
  (tavily_api_key w = None ∨ tavily_api_key w = Some EmptyString → results = []) ∧
  (∀ e, tavily_post w query max_results = Raised e → results = []) ∧
  (∀ api_key d,
     tavily_api_key w = Some api_key → api_key ≠ EmptyString →
     tavily_post w query max_results = Ok (JObj d) →
     (∀ items,
        dict_get "results" d = Some (JArr (JObj <$> items)) → results = copied <$> items) ∧
     (∀ items item,
        dict_get "results" d = Some (JArr items) → item ∈ items → (∀ o, item ≠ JObj o) →
        results = []) ∧
     (dict_get "results" d = None → results = [])).
Proof.
  intros results. subst results. unfold search_text_tavily. run_trace.
  split; [|split; [|split]].
  - destruct (tavily_api_key w) as [api_key|]; [|intros r H; now apply elem_of_nil in H].
    destruct (String.eqb api_key EmptyString); [intros r H; now apply elem_of_nil in H|].
    destruct (tavily_post w query max_results) as [data|e];
      [|intros r H; now apply elem_of_nil in H].
    simpl. apply tavily_results_shape.
  - intros [-> | ->]; reflexivity.
  - intros e ->. destruct (tavily_api_key w) as [api_key|]; [|reflexivity].
    destruct (String.eqb api_key EmptyString); reflexivity.
  - intros api_key d -> Hkey ->.
    destruct (String.eqb_spec api_key EmptyString) as [Heq|_]; [contradiction|].
    simpl. unfold tavily_results, dict_get_default. split; [|split].
    + intros items ->. now rewrite tavily_objects.
    + intros items item -> Hin Hitem. now rewrite (tavily_not_object items item Hin Hitem).
    + intros ->. reflexivity.
Qed.

(** *** The prompt *)

Lemma str_take_length n s : (String.length (str_take n s) <= n)%nat.
Proof.
  revert s. induction n as [|n IH]; intros [|c r]; simpl; try lia.
  specialize (IH r). lia.
Qed.

Lemma truncated_is_prefix company_data :
  len (truncated company_data) <= 2000 ∧
  ∃ rest, company_data = truncated company_data ++ rest.
Proof.
  unfold truncated. destruct (2000 <? len company_data) eqn:Hlong.
  - split.
    + unfold len. pose proof (str_take_length 2000 company_data). lia.
    + exists (str_drop 2000 company_data). symmetry. apply OsPathProps.take_drop.
  - apply Z.ltb_ge in Hlong. split; [exact Hlong|].
    exists EmptyString. symmetry. apply StrFacts.app_nil_r.
Qed.

Lemma search_certifications_trace w company_name company_data :
  trace_of (search_certifications w company_name company_data) = [] ∨
  ∃ query,
    trace_of (search_certifications w company_name company_data) =
    [ModelCall company_name (truncated company_data) "certifications"; TextSearch query 3].
Proof.
  unfold search_certifications, local_findings.
  destruct (filter _ common_certs) as [|cert found]; [|left; reflexivity].
  right. simpl.
  pose proof (generate_search_queries_trace w company_name company_data "certifications")
    as Htrace.
  pose proof (proj1 (search_queries_nonempty w company_name company_data "certifications"))
    as Hne.
  destruct (generate_search_queries w company_name company_data "certifications")
    as [t1 qs].
  run_trace. simpl in Htrace, Hne. subst t1.
  destruct qs as [|query rest]; [contradiction|].
  pose proof (search_text_tavily_trace w query 3) as Hsearch.
  destruct (search_text_tavily w query 3) as [t2 results].
  run_trace. simpl in Hsearch. subst t2.
  destruct (scan_results results ([], [], [])) as [[found certs] cits].
  exists query. reflexivity.
Qed.

(** The model is never sent more than the first 2000 characters of the
    company data: every model call made while generating queries, for any
    category, or while searching for certifications carries a prefix of the
    data that is at most 2000 characters long. *)
Theorem prompt_is_bounded w company_name company_data search_type name data category :
  ModelCall name data category
    ∈ trace_of (generate_search_queries w company_name company_data search_type) ∨
  ModelCall name data category
    ∈ trace_of (search_certifications w company_name company_data) →
  name = company_name ∧
  len data <= 2000 ∧
  (∃ rest, company_data = data ++ rest) ∧
  (len company_data <= 2000 → data = company_data).
Proof.
  intros Hcall.
  assert (Hdata : name = company_name ∧ data = truncated company_data).
  { destruct Hcall as [Hin | Hin].
    - rewrite generate_search_queries_trace in Hin.
      apply list_elem_of_singleton in Hin. injection Hin as -> -> _. auto.
    - destruct (search_certifications_trace w company_name company_data)
        as [Hnone | [query Hsome]].
      + rewrite Hnone in Hin. now apply elem_of_nil in Hin.
      + rewrite Hsome in Hin.
        apply elem_of_cons in Hin as [Hin | Hin]; [injection Hin as -> -> _; auto|].
        apply list_elem_of_singleton in Hin. discriminate Hin. }
  destruct Hdata as [-> ->].
  destruct (truncated_is_prefix company_data) as [Hlen Hprefix].
  split; [reflexivity|]. split; [exact Hlen|]. split; [exact Hprefix|].
  intros Hshort. unfold truncated.
  destruct (2000 <? len company_data) eqn:Hlong; [apply Z.ltb_lt in Hlong; lia | reflexivity].
Qed.

(** Company data of 2800 characters: the model is sent its first 2000.  A
    text of 63 characters is sent whole. *)
Definition long_data : string := str_times "valves " 400.

Lemma prompt_is_bounded_witness :
  len long_data = 2800 ∧
  ModelCall (JStr "Acme Valves") (str_take 2000 long_data) "certifications"
    ∈ trace_of (search_certifications (answering (Replies two_queries) (Ok JNull))
                  (JStr "Acme Valves") long_data) ∧
  len (str_take 2000 long_data) <= 2000 ∧
  (∃ rest, long_data = str_take 2000 long_data ++ rest) ∧
  str_take 2000 long_data ≠ long_data ∧
  truncated valves_text = valves_text.
Proof.
  assert (Hcall :
    ModelCall (JStr "Acme Valves") (str_take 2000 long_data) "certifications"
      ∈ trace_of (search_certifications (answering (Replies two_queries) (Ok JNull))
                    (JStr "Acme Valves") long_data)).
  { vm_compute. left. }
  destruct (prompt_is_bounded (answering (Replies two_queries) (Ok JNull))
              (JStr "Acme Valves") long_data "images"
              (JStr "Acme Valves") (str_take 2000 long_data) "certifications"
              (or_intror Hcall))
    as (_ & Hlen & Hprefix & _).
  destruct (prompt_is_bounded (answering (Replies two_queries) (Ok JNull))
              (JStr "Acme Valves") valves_text "images"
              (JStr "Acme Valves") (truncated valves_text) "images")
    as (_ & _ & _ & Hsame).
  - left. rewrite generate_search_queries_trace. left.
  - split; [vm_compute; reflexivity|]. split; [exact Hcall|].
    split; [exact Hlen|]. split; [exact Hprefix|].
    split; [|apply Hsame; vm_compute; discriminate].
    intros Hsame_length. apply (f_equal String.length) in Hsame_length.
    vm_compute in Hsame_length. discriminate.
Defined.

(** *** The certifications found *)

(** A field of an entry. *)
Definition entry_field (key : string) (entry : json) : option json :=
  match entry with JObj d => dict_get key d | _ => None end.

Definition named (cert : string) : option json := Some (JStr cert).

(** The three lists go together: no name twice, every name from the catalog,
    and the entries of both lists named after [found_certs], in order. *)
Definition consistent (st : findings) : Prop :=
  let '(found_certs, certifications, citations) := st in
  NoDup found_certs ∧
  found_certs ⊆ common_certs ∧
  entry_field "name" <$> certifications = named <$> found_certs ∧
  entry_field "name" <$> citations = named <$> found_certs.

Lemma common_certs_NoDup : NoDup common_certs.
Proof. apply (bool_decide_unpack _). vm_compute. reflexivity. Qed.

Lemma local_findings_consistent company_data :
  consistent (local_findings company_data) ∧
  Forall (λ entry, entry_field "verified" entry = Some (JBool true) ∧
                   entry_field "source" entry = Some (JStr "company_data"))
    (local_findings company_data).1.2.
Proof.
  unfold local_findings, consistent. cbn [fst snd].
  set (found := filter _ common_certs).
  split; [split; [|split; [|split]]|].
  - apply NoDup_filter, common_certs_NoDup.
  - intros cert Hin. apply list_elem_of_filter in Hin as [_ Hin]. exact Hin.
  - rewrite <- !list_fmap_compose. reflexivity.
  - rewrite <- !list_fmap_compose. reflexivity.
  - apply Forall_fmap, Forall_forall. intros cert _. split; reflexivity.
Qed.

Lemma scan_results_consistent results st :
  consistent st →
  Forall (λ entry, entry_field "verified" entry = Some (JBool false)) st.1.2 →
  consistent (scan_results results st) ∧
  Forall (λ entry, entry_field "verified" entry = Some (JBool false))
    (scan_results results st).1.2 ∧
  (length (scan_results results st).1.1 <= length st.1.1 + length results)%nat.
Proof.
  revert st.
  induction results as [|result rest IH]; intros [[found_certs certifications] citations]
    Hst Hweb.
  - simpl. split; [exact Hst|]. split; [exact Hweb|]. lia.
  - cbn [scan_results].
    destruct (dict_get_default "body" (JStr EmptyString) result) as [| | | |body| |];
      try (split; [exact Hst|]; split; [exact Hweb|]; cbn [fst snd length]; lia).
    destruct (find _ common_certs) as [cert|] eqn:Hfind.
    + apply find_some in Hfind as [Hcatalog Hnew].
      apply andb_true_iff in Hnew as [_ Hnew].
      apply negb_true_iff, bool_decide_eq_false_1 in Hnew.
      destruct Hst as (Hnodup & Hsub & Hcerts & Hcits).
      destruct (IH (found_certs ++ [cert], certifications ++ [web_certification cert body result],
                    citations ++ [web_citation cert result])%list) as (IHst & IHweb & IHlen).
      * split; [|split; [|split]].
        -- apply NoDup_app. split; [exact Hnodup|]. split; [|apply NoDup_singleton].
           intros x Hx ->%list_elem_of_singleton. contradiction.
        -- intros x [Hx | ->%list_elem_of_singleton]%elem_of_app; [now apply Hsub|].
           now apply list_elem_of_In.
        -- rewrite !fmap_app, Hcerts. reflexivity.
        -- rewrite !fmap_app, Hcits. reflexivity.
      * cbn [fst snd] in *. apply Forall_app. split; [exact Hweb|].
        apply Forall_singleton. reflexivity.
      * split; [exact IHst|]. split; [exact IHweb|].
        cbn [fst snd] in *. rewrite length_app in IHlen. cbn [length] in *. lia.
    + destruct (IH (found_certs, certifications, citations) Hst Hweb) as (IHst & IHweb & IHlen).
      split; [exact IHst|]. split; [exact IHweb|]. cbn [fst snd length] in *. lia.
Qed.

Lemma search_certifications_facts w company_name company_data :
  let found := value_of (search_certifications w company_name company_data) in
  ∃ names : list string,
    NoDup names ∧
    names ⊆ common_certs ∧
    entry_field "name" <$> found.1 = named <$> names ∧
    entry_field "name" <$> found.2 = named <$> names ∧
    ((names = local_matches company_data ∧ names ≠ [] ∧
      Forall (λ entry, entry_field "verified" entry = Some (JBool true) ∧
                       entry_field "source" entry = Some (JStr "company_data")) found.1) ∨
     (local_matches company_data = [] ∧
      Forall (λ entry, entry_field "verified" entry = Some (JBool false)) found.1 ∧
      ∃ query,
        head (value_of (generate_search_queries w company_name company_data
                          "certifications")) = Some query ∧
        (length names <= length (value_of (search_text_tavily w query 3)))%nat)).
Proof.
  intros found. subst found.
  destruct (local_findings_consistent company_data) as [Hlocal Hverified].
  unfold search_certifications. unfold local_findings in *.
  fold (local_matches company_data) in *. cbn [fst snd] in Hverified.
  destruct (local_matches company_data) as [|cert found_certs] eqn:Hmatches.
  - cbn [length Nat.eqb].
    change (local_certification <$> []) with (@nil json) in *.
    change (local_citation <$> []) with (@nil json) in *.
    pose proof (proj1 (search_queries_nonempty w company_name company_data "certifications"))
      as Hne.
    destruct (generate_search_queries w company_name company_data "certifications")
      as [t1 qs].
    run_trace. cbn [snd] in Hne. destruct qs as [|query rest]; [contradiction|].
    destruct (search_text_tavily w query 3) as [t2 results] eqn:Hsearch.
    assert (Hweb : Forall (λ entry, entry_field "verified" entry = Some (JBool false))
                     (([] : list string), ([] : list json), ([] : list json)).1.2)
      by constructor.
    destruct (scan_results_consistent results ([], [], []) Hlocal Hweb)
      as (Hst & Hunverified & Hlen).
    destruct (scan_results results ([], [], [])) as [[names certifications] citations].
    destruct Hst as (Hnodup & Hsub & Hcerts & Hcits).
    cbn [fst snd length] in *.
    exists names. repeat (split; [assumption|]).
    right. split; [reflexivity|]. split; [assumption|].
    exists query. split; [reflexivity|]. rewrite Hsearch. cbn [snd]. lia.
  - cbn [length Nat.eqb]. run_trace. cbn [fst snd].
    destruct Hlocal as (Hnodup & Hsub & Hcerts & Hcits).
    exists (cert :: found_certs). repeat (split; [assumption|]).
    left. split; [reflexivity|]. split; [discriminate | assumption].
Qed.

(** The certifications and the citations returned go in pairs: as many
    citations as certifications, carrying the same names in the same order.
    No certification is named twice, and every name is an entry of the
    catalog.  The certifications are either all read off the company data
    and marked verified, or all taken from the web search and marked
    unverified, never a mix; from the web there is at most one per search
    result. *)
Theorem certification_entries w company_name company_data :
  let found := value_of (search_certifications w company_name company_data) in
  ∃ names : list string,
    NoDup names ∧
    names ⊆ common_certs ∧
    entry_field "name" <$> found.1 = named <$> names ∧
    entry_field "name" <$> found.2 = named <$> names ∧
    ((names = local_matches company_data ∧ names ≠ [] ∧
      Forall (λ entry, entry_field "verified" entry = Some (JBool true) ∧
                       entry_field "source" entry = Some (JStr "company_data")) found.1) ∨
     (local_matches company_data = [] ∧
      Forall (λ entry, entry_field "verified" entry = Some (JBool false)) found.1 ∧
      ∃ query,
        head (value_of (generate_search_queries w company_name company_data
                          "certifications")) = Some query ∧
        (length names <= length (value_of (search_text_tavily w query 3)))%nat)).
Proof. apply search_certifications_facts. Qed.

End WebResultsProps.

(** ** The whole web search *)

Module WebDataProps.
Import Py Builtins WebSearch WebData WebSearchProps WebResultsProps.

Ltac run_web :=
  cbv [mbind mret traced_bind traced_ret tell trace_of value_of lift] in *.

(** *** Business information *)

(** An entry of [market_info] or [partners]: a title, a snippet and a URL,
    the snippet being at most 300 characters long when it is text. *)
Definition is_info_entry (entry : json) : Prop :=
  ∃ title snippet url,
    entry = JObj [("title", title); ("snippet", snippet); ("url", url)] ∧
    ∀ s, snippet = JStr s → len s <= 300.

Lemma info_entry_shape result entry : info_entry result = Some entry → is_info_entry entry.
Proof.
  unfold info_entry.
  destruct (sliced 300 _) as [snippet|] eqn:Hsliced; [|discriminate].
  intros Hentry. injection Hentry as <-. eexists _, snippet, _. split; [reflexivity|].
  intros s ->. unfold sliced in Hsliced.
  destruct (dict_get_default "body" (JStr EmptyString) result) as [| | | |body|items|];
    try discriminate Hsliced.
  pose proof (str_take_length 300 body) as Hlen.
  remember (str_take 300 body) as taken. injection Hsliced as ->. unfold len. lia.
Qed.

(** What the two ways of appending have in common. *)
Definition entries (results : business_info) : list json :=
  (market_info results ++ partners results)%list.

Definition adds_one (add : json → json → business_info → business_info) : Prop :=
  ∀ entry citation results,
    trends (add entry citation results) = trends results ∧
    length (citations (add entry citation results)) = S (length (citations results)) ∧
    length (entries (add entry citation results)) = S (length (entries results)) ∧
    (is_info_entry entry → Forall is_info_entry (entries results) →
     Forall is_info_entry (entries (add entry citation results))).

Lemma add_market_info_adds_one : adds_one add_market_info.
Proof.
  intros entry citation results. unfold entries. simpl.
  rewrite !length_app. simpl. repeat split; try lia.
  intros Hentry [Hm Hp]%Forall_app. rewrite !Forall_app, Forall_singleton. auto.
Qed.

Lemma add_partner_adds_one : adds_one add_partner.
Proof.
  intros entry citation results. unfold entries. simpl.
  rewrite !length_app. simpl. repeat split; try lia.
  intros Hentry [Hm Hp]%Forall_app. rewrite !Forall_app, Forall_singleton. auto.
Qed.

Lemma info_loop_adds add kind search_results results :
  adds_one add →
  let after := info_loop add kind search_results results in
  trends after.1 = trends results ∧
  (length (citations after.1) + length (entries results) =
   length (citations results) + length (entries after.1))%nat ∧
  (Forall is_info_entry (entries results) → Forall is_info_entry (entries after.1)) ∧
  (after.2 = true → ∃ result, result ∈ search_results ∧ info_entry result = None).
Proof.
  intros Hadd. revert results.
  induction search_results as [|result rest IH]; intros results; cbn [info_loop].
  - cbn [fst snd]. repeat split; auto. discriminate.
  - destruct (info_entry result) as [entry|] eqn:Hentry.
    + destruct (Hadd entry (info_citation kind result) results)
        as (Htrends & Hcits & Hentries & Hshape).
      destruct (IH (add entry (info_citation kind result) results))
        as (IHtrends & IHlen & IHshape & IHraised).
      cbv zeta. split; [congruence|]. split; [lia|]. split.
      * intros Hall. apply IHshape, Hshape; [|exact Hall].
        now apply (info_entry_shape result).
      * intros Hraised. destruct (IHraised Hraised) as (r & Hin & Hr).
        exists r. split; [now right | exact Hr].
    + cbn [fst snd]. repeat split; auto.
      intros _. exists result. split; [left | exact Hentry].
Qed.

Lemma market_loop_keeps_partners search_results results :
  partners (info_loop add_market_info "market_info" search_results results).1
  = partners results.
Proof.
  revert results. induction search_results as [|result rest IH]; intros results;
    cbn [info_loop]; [reflexivity|].
  destruct (info_entry result); [|reflexivity]. now rewrite IH.
Qed.

Lemma search_business_info_facts w company_name company_data max_results :
  let run := search_business_info w company_name company_data max_results in
  let found := value_of run in
  trends found = [] ∧
  (length (citations found) = length (market_info found) + length (partners found))%nat ∧
  Forall is_info_entry (market_info found ++ partners found) ∧
  ∃ market_query partner_query,
    head (value_of (generate_search_queries w company_name company_data "business_info"))
      = Some market_query ∧
    head (value_of (generate_search_queries w company_name company_data "partners"))
      = Some partner_query ∧
    let asked :=
      [ ModelCall company_name (truncated company_data) "business_info";
        ModelCall company_name (truncated company_data) "partners";
        TextSearch market_query max_results ] in
    (trace_of run = (asked ++ [TextSearch partner_query max_results])%list ∨
     (trace_of run = asked ∧
      partners found = [] ∧
      ∃ result,
        result ∈ value_of (search_text_tavily w market_query max_results) ∧
        info_entry result = None)).
Proof.
  intros run found. subst found run. unfold search_business_info.
  pose proof (generate_search_queries_trace w company_name company_data "business_info")
    as Htrace1.
  pose proof (proj1 (search_queries_nonempty w company_name company_data "business_info"))
    as Hne1.
  pose proof (generate_search_queries_trace w company_name company_data "partners")
    as Htrace2.
  pose proof (proj1 (search_queries_nonempty w company_name company_data "partners"))
    as Hne2.
  destruct (generate_search_queries w company_name company_data "business_info")
    as [t1 business_queries].
  destruct (generate_search_queries w company_name company_data "partners")
    as [t2 partner_queries].
  run_web. cbn [fst snd] in *. subst t1 t2.
  destruct business_queries as [|market_query more1]; [contradiction|].
  destruct partner_queries as [|partner_query more2]; [contradiction|].
  pose proof (search_text_tavily_trace w market_query max_results) as Hsearch1.
  pose proof (search_text_tavily_trace w partner_query max_results) as Hsearch2.
  destruct (search_text_tavily w market_query max_results) as [t3 market_results] eqn:Hm.
  destruct (search_text_tavily w partner_query max_results) as [t4 partner_results] eqn:Hp.
  run_web. cbn [fst snd] in *. subst t3 t4.
  set (start := {| market_info := []; partners := []; trends := []; citations := [] |}).
  destruct (info_loop_adds add_market_info "market_info" market_results start
              add_market_info_adds_one) as (Htrends1 & Hlen1 & Hshape1 & Hraised1).
  pose proof (market_loop_keeps_partners market_results start) as Hpartners1.
  destruct (info_loop add_market_info "market_info" market_results start)
    as [market raised] eqn:Hloop1.
  cbn [fst snd] in *.
  assert (Hstart : Forall is_info_entry (entries start)) by constructor.
  clear Hloop1. subst start. unfold entries in *.
  cbn [market_info partners trends citations app length] in *.
  destruct raised.
  - cbn [fst snd].
    split; [exact Htrends1|]. split; [rewrite length_app in Hlen1; lia|].
    split; [auto|].
    exists market_query, partner_query. split; [reflexivity|]. split; [reflexivity|].
    right. split; [reflexivity|]. split; [exact Hpartners1|].
    rewrite Hm. cbn [snd]. auto.
  - destruct (info_loop_adds add_partner "partner" partner_results market
                add_partner_adds_one) as (Htrends2 & Hlen2 & Hshape2 & _).
    destruct (info_loop add_partner "partner" partner_results market)
      as [both raised2].
    cbn [fst snd] in *. unfold entries in *.
    rewrite !length_app in *.
    split; [congruence|]. split; [lia|]. split; [auto|].
    exists market_query, partner_query. split; [reflexivity|]. split; [reflexivity|].
    left. reflexivity.
Qed.

(** [search_business_info] never fills [trends]; it records one citation per
    entry of [market_info] and [partners]; each entry is a title, a snippet
    and a URL, with at most 300 characters of snippet.  It asks the model for
    queries twice, makes the market search for the first of the first list
    and then the partner search for the first of the second, unless a result
    of the market search has a body that cannot be sliced: then the handler
    returns what was collected and the partner search is not made. *)
Theorem business_info_results w company_name company_data max_results :
  let run := search_business_info w company_name company_data max_results in
  let found := value_of run in
  trends found = [] ∧
  (length (citations found) = length (market_info found) + length (partners found))%nat ∧
  Forall is_info_entry (market_info found ++ partners found) ∧
  ∃ market_query partner_query,
    head (value_of (generate_search_queries w company_name company_data "business_info"))
      = Some market_query ∧
    head (value_of (generate_search_queries w company_name company_data "partners"))
      = Some partner_query ∧
    let asked :=
      [ ModelCall company_name (truncated company_data) "business_info";
        ModelCall company_name (truncated company_data) "partners";
        TextSearch market_query max_results ] in
    (trace_of run = (asked ++ [TextSearch partner_query max_results])%list ∨
     (trace_of run = asked ∧
      partners found = [] ∧
      ∃ result,
        result ∈ value_of (search_text_tavily w market_query max_results) ∧
        info_entry result = None)).
Proof. apply search_business_info_facts. Qed.

(** *** Images *)

(** An image and its citation are about the same photo. *)
Definition goes_with (image citation : json) : Prop :=
  entry_field "type" image = Some (JStr "generic") ∧
  entry_field "type" citation = Some (JStr "image") ∧
  entry_field "url" image = entry_field "url" citation ∧
  entry_field "source" image = entry_field "source" citation ∧
  entry_field "photographer" image = entry_field "photographer" citation.

Lemma photo_entries_pair u query photo image citation :
  photo_entries u query photo = Some (image, citation) → goes_with image citation.
Proof.
  unfold photo_entries. intros Hentries.
  destruct (index photo "urls") as [urls|]; [|discriminate].
  cbn [mbind option_bind] in Hentries.
  destruct (index urls "regular") as [image_url|]; [|discriminate].
  cbn [mbind option_bind] in Hentries.
  destruct (index urls "full") as [download_url|]; [|discriminate].
  cbn [mbind option_bind] in Hentries.
  destruct (index photo "user") as [user|]; [|discriminate].
  cbn [mbind option_bind] in Hentries.
  destruct (index user "name") as [photographer|]; [|discriminate].
  cbn [mbind option_bind] in Hentries.
  destruct (index user "links") as [user_links|]; [|discriminate].
  cbn [mbind option_bind] in Hentries.
  destruct (index user_links "html") as [photographer_url|]; [|discriminate].
  cbn [mbind option_bind] in Hentries.
  destruct (index photo "links") as [links|]; [|discriminate].
  cbn [mbind option_bind] in Hentries.
  destruct (index links "html") as [source|]; [|discriminate].
  cbn [mbind option_bind] in Hentries.
  injection Hentries as <- <-. repeat split; reflexivity.
Qed.

Definition paired (g : gallery) : Prop := Forall2 goes_with g.1 g.2.

Lemma photo_loop_paired u query photos g : paired g → paired (photo_loop u query photos g).
Proof.
  revert g. induction photos as [|photo rest IH]; intros g Hg; cbn [photo_loop]; [exact Hg|].
  destruct (photo_entries u query photo) as [[image citation]|] eqn:Hentries; [|exact Hg].
  apply IH. unfold paired. cbn [fst snd]. apply Forall2_app; [exact Hg|].
  constructor; [|constructor]. now apply (photo_entries_pair u query photo).
Qed.

Lemma photos_of_reply_paired u query data g :
  paired g → paired (photos_of_reply u query data g).
Proof.
  intros Hg. unfold photos_of_reply. destruct data; try exact Hg.
  destruct (dict_get_default "results" (JArr []) members); try exact Hg.
  now apply photo_loop_paired.
Qed.

Lemma query_loop_facts u max_results queries g :
  paired g →
  paired (value_of (query_loop u max_results queries g)) ∧
  trace_of (query_loop u max_results queries g) =
    (λ query, ImageSearch query (Z.of_nat max_results)) <$> queries.
Proof.
  revert g. induction queries as [|query rest IH]; intros g Hg; cbn [query_loop].
  - split; [exact Hg | reflexivity].
  - destruct (unsplash_get u query (Z.of_nat max_results)) as [data|e].
    + destruct (IH (photos_of_reply u query data g)) as [IHg IHt];
        [now apply photos_of_reply_paired|].
      destruct (query_loop u max_results rest _) as [t g']. run_web.
      cbn [fst snd] in *. split; [exact IHg|]. now rewrite IHt.
    + destruct (IH g Hg) as [IHg IHt].
      destruct (query_loop u max_results rest g) as [t g']. run_web.
      cbn [fst snd] in *. split; [exact IHg|]. now rewrite IHt.
Qed.

Lemma search_images_facts w u company_name company_data max_results :
  let run := search_images w u company_name company_data max_results in
  let images := (value_of run).1 in
  let image_citations := (value_of run).2 in
  (length images <= max_results * 2)%nat ∧
  length images = Nat.min (max_results * 2) (length image_citations) ∧
  Forall2 goes_with images (take (max_results * 2)%nat image_citations) ∧
  trace_of run =
    Text (ModelCall company_name (truncated company_data) "images")
    :: ((λ query, ImageSearch query (Z.of_nat max_results))
          <$> take 2 (value_of (generate_search_queries w company_name company_data
                                  "images"))).
Proof.
  intros run images image_citations. subst images image_citations run.
  unfold search_images.
  pose proof (generate_search_queries_trace w company_name company_data "images") as Htrace.
  destruct (generate_search_queries w company_name company_data "images") as [t1 queries].
  assert (Hstart : paired (([], []) : gallery)) by constructor.
  destruct (query_loop_facts u max_results (take 2 queries) ([], []) Hstart)
    as [Hpaired Hsearches].
  run_web. cbn [fst snd] in *.
  destruct (query_loop u max_results (take 2 queries) ([], [])) as [t2 [all cits]].
  cbn [fst snd] in *. subst t1 t2.
  unfold paired in Hpaired. cbn [fst snd] in Hpaired.
  pose proof (Forall2_length _ _ _ Hpaired) as Hlen.
  rewrite length_take. split; [lia|]. split; [lia|]. split.
  - now apply Forall2_take.
  - cbn [fmap list_fmap app]. now rewrite app_nil_r.
Qed.

(** [search_images] returns at most [2 * max_results] images, the first ones
    found, but the citations of all the photos found; an image and the
    citation at the same place are about the same photo.  It asks the model
    once and searches photos for the first two queries only, one request for
    each, whether or not the first request fails. *)
Theorem image_results w u company_name company_data max_results :
  let run := search_images w u company_name company_data max_results in
  let images := (value_of run).1 in
  let image_citations := (value_of run).2 in
  (length images <= max_results * 2)%nat ∧
  length images = Nat.min (max_results * 2) (length image_citations) ∧
  Forall2 goes_with images (take (max_results * 2)%nat image_citations) ∧
  trace_of run =
    Text (ModelCall company_name (truncated company_data) "images")
    :: ((λ query, ImageSearch query (Z.of_nat max_results))
          <$> take 2 (value_of (generate_search_queries w company_name company_data
                                  "images"))).
Proof. apply search_images_facts. Qed.

(** *** The whole search *)

Definition is_model_call (c : web_call) : bool :=
  match c with Text (ModelCall _ _ _) => true | _ => false end.
Definition is_text_search (c : web_call) : bool :=
  match c with Text (TextSearch _ _) => true | _ => false end.
Definition is_image_search (c : web_call) : bool :=
  match c with ImageSearch _ _ => true | _ => false end.

(** How many calls of a kind a trace holds. *)
Definition count (kind : web_call → bool) (t : list web_call) : nat :=
  length (filter (λ c, kind c = true) t).

Lemma count_app kind a b : count kind (a ++ b) = (count kind a + count kind b)%nat.
Proof. unfold count. now rewrite filter_app, length_app. Qed.

Lemma count_cons kind c t :
  count kind (c :: t) = ((if kind c then 1 else 0) + count kind t)%nat.
Proof.
  unfold count. rewrite filter_cons. destruct (kind c).
  - now rewrite decide_True by reflexivity.
  - now rewrite decide_False by discriminate.
Qed.

Lemma count_image_searches per_page queries :
  count is_image_search ((λ query, ImageSearch query per_page) <$> queries) = length queries ∧
  count is_model_call ((λ query, ImageSearch query per_page) <$> queries) = 0%nat ∧
  count is_text_search ((λ query, ImageSearch query per_page) <$> queries) = 0%nat.
Proof.
  unfold count. induction queries as [|query rest (IHi & IHm & IHt)]; [repeat split|].
  rewrite fmap_cons, !filter_cons. cbn [is_image_search is_model_call is_text_search].
  rewrite decide_True by reflexivity. rewrite !decide_False by discriminate.
  cbn [length]. auto.
Qed.

Lemma web_data_facts w u company_name company_data :
  let run := get_web_data_for_company w u company_name company_data in
  (∃ images photo_citations certifications certification_citations business,
     value_of run =
       JObj [ ("images", JArr images);
              ("certifications", JArr certifications);
              ("business_info", business_info_dict business);
              ("citations",
               JArr (photo_citations ++ certification_citations ++ citations business)%list) ] ∧
     length images = Nat.min 6 (length photo_citations) ∧
     length certification_citations = length certifications ∧
     trends business = [] ∧
     (length (citations business) =
      length (market_info business) + length (partners business))%nat) ∧
  (3 <= count is_model_call (trace_of run) <= 4)%nat ∧
  (1 <= count is_image_search (trace_of run) <= 2)%nat ∧
  (1 <= count is_text_search (trace_of run) <= 3)%nat.
Proof.
  intros run. subst run. unfold get_web_data_for_company.
  pose proof (search_images_facts w u company_name company_data 3) as Himages.
  pose proof (proj1 (search_queries_nonempty w company_name company_data "images")) as Hne.
  pose proof (search_certifications_facts w company_name company_data) as Hcerts.
  pose proof (search_certifications_trace w company_name company_data) as Hcert_trace.
  pose proof (search_business_info_facts w company_name company_data 5) as Hbusiness.
  cbv zeta in Himages, Hcerts, Hbusiness.
  destruct (search_images w u company_name company_data 3)
    as [t1 [images photo_citations]].
  destruct (search_certifications w company_name company_data)
    as [t2 [certifications certification_citations]].
  destruct (search_business_info w company_name company_data 5) as [t3 business].
  run_web. cbn [fst snd] in *.
  destruct Himages as (_ & Hshown & _ & Ht1).
  destruct Hcerts as (names & _ & _ & Hnames1 & Hnames2 & _).
  destruct Hbusiness as (Htrends & Hcount & _ & market_query & partner_query & _ & _ & Ht3).
  split.
  - exists images, photo_citations, certifications, certification_citations, business.
    split; [reflexivity|]. split; [exact Hshown|]. split; [|split; assumption].
    apply (f_equal length) in Hnames1, Hnames2. rewrite !length_fmap in Hnames1, Hnames2.
    congruence.
  - assert (Hqueries :
      (1 <= length (take 2 (generate_search_queries w company_name company_data "images").2)
       <= 2)%nat).
    { rewrite length_take.
      destruct (generate_search_queries w company_name company_data "images").2;
        [contradiction | cbn [length]; lia]. }
    destruct (count_image_searches 3
                (take 2 (generate_search_queries w company_name company_data "images").2))
      as (Hi & Hm & Ht).
    change (Z.of_nat 3) with 3 in Ht1.
    rewrite Ht1. rewrite !app_nil_r.
    rewrite !count_app, !count_cons, Hi, Hm, Ht.
    cbn [is_model_call is_image_search is_text_search].
    assert (Hnone : ∀ kind, count kind [] = 0%nat) by reflexivity.
    destruct Hcert_trace as [-> | [query ->]];
      destruct Ht3 as [-> | [-> _]];
      cbn [fmap list_fmap app]; rewrite ?count_cons, ?Hnone;
      cbn [is_model_call is_image_search is_text_search]; lia.
Qed.

(** The result of [get_web_data_for_company] always has the four entries
    [images], [certifications], [business_info] and [citations].  Its
    citations are those of the photos, then those of the certifications, one
    for each, then those of the business information, one for each market
    and partner entry; there are at most 6 images, and only a photo beyond
    the sixth has a citation without an image.  One company costs 3 or 4
    calls of the model, 1 or 2 photo searches and 1 to 3 text searches. *)
Theorem web_data_results w u company_name company_data :
  let run := get_web_data_for_company w u company_name company_data in
  (∃ images photo_citations certifications certification_citations business,
     value_of run =
       JObj [ ("images", JArr images);
              ("certifications", JArr certifications);
              ("business_info", business_info_dict business);
              ("citations",
               JArr (photo_citations ++ certification_citations ++ citations business)%list) ] ∧
     length images = Nat.min 6 (length photo_citations) ∧
     length certification_citations = length certifications ∧
     trends business = [] ∧
     (length (citations business) =
      length (market_info business) + length (partners business))%nat) ∧
  (3 <= count is_model_call (trace_of run) <= 4)%nat ∧
  (1 <= count is_image_search (trace_of run) <= 2)%nat ∧
  (1 <= count is_text_search (trace_of run) <= 3)%nat.
Proof. apply web_data_facts. Qed.

End WebDataProps.

(** ** The entry point *)

Module EntryPointProps.
Import Py OsPath Main EntryPoint.

Lemma drop_app_plus (x y : string) k :
  str_drop (String.length x + k) (x ++ y) = str_drop k y.
Proof. induction x as [|c x IH]; [reflexivity | exact IH]. Qed.

(** Appending to the front does not change how a text ends. *)
Lemma endswith_app suffix (x y : string) :
  (String.length suffix <= String.length y)%nat →
  str_endswith suffix (x ++ y) = str_endswith suffix y.
Proof.
  intros Hlen. unfold str_endswith. rewrite StrFacts.length_app.
  replace (String.length x + String.length y - String.length suffix)%nat
    with (String.length x + (String.length y - String.length suffix))%nat by lia.
  rewrite drop_app_plus.
  destruct (Nat.leb_spec (String.length suffix) (String.length y)) as [_|Hgt]; [|lia].
  destruct (Nat.leb_spec (String.length suffix) (String.length x + String.length y))
    as [_|Hgt]; [reflexivity | lia].
Qed.

Lemma app_not_empty (x y : string) : y ≠ EmptyString → String.eqb (x ++ y) EmptyString = false.
Proof.
  intros Hy. apply String.eqb_neq. destruct x as [|c x]; [exact Hy | discriminate].
Qed.

(** [join] onto a directory whose name ends with a given component. *)
Lemma join_after (x component name : string) :
  component ≠ EmptyString →
  (1 <= String.length component)%nat →
  str_endswith "/" component = false →
  str_startswith "/" name = false →
  join (x ++ component) name = x ++ component ++ "/" ++ name.
Proof.
  intros Hne Hlen Hend Hname. unfold join.
  rewrite Hname, (app_not_empty x component Hne), (endswith_app "/" x component Hlen), Hend.
  cbn [orb]. now rewrite StrFacts.app_assoc.
Qed.

(** The folder the entry point checks is the folder the pipeline reads. *)
Lemma checked_folder cwd target_company :
  join cwd (join_all "data" ["input"; target_company]) = input_dir_of cwd target_company.
Proof.
  unfold input_dir_of, join_all. cbn [fold_left].
  change (join "data" "input") with "data/input".
  destruct (str_startswith "/" target_company) eqn:Habs.
  - unfold join at 1 2 3. rewrite Habs. unfold join. now rewrite Habs.
  - assert (Hinner : join "data/input" target_company
                     = "data/input" ++ "/" ++ target_company).
    { apply (join_after EmptyString "data/input" target_company);
        [discriminate | cbn [String.length]; lia | reflexivity | exact Habs]. }
    rewrite Hinner.
    set (prefix := if String.eqb cwd EmptyString || str_endswith "/" cwd
                   then cwd else cwd ++ "/").
    assert (Hdata : join cwd "data" = prefix ++ "data").
    { unfold join, prefix. change (str_startswith "/" "data") with false. cbv iota.
      destruct (String.eqb cwd EmptyString || str_endswith "/" cwd);
        [reflexivity | now rewrite StrFacts.app_assoc]. }
    assert (Hrel : join cwd ("data/input" ++ "/" ++ target_company)
                   = prefix ++ "data/input" ++ "/" ++ target_company).
    { unfold join, prefix.
      change (str_startswith "/" ("data/input" ++ "/" ++ target_company)) with false.
      cbv iota.
      destruct (String.eqb cwd EmptyString || str_endswith "/" cwd);
        [reflexivity | now rewrite StrFacts.app_assoc]. }
    rewrite Hrel, Hdata.
    rewrite (join_after prefix "data" "input");
      [|discriminate | cbn [String.length]; lia | reflexivity | reflexivity].
    rewrite <- (StrFacts.app_assoc prefix "data" ("/" ++ "input")).
    change ("/" ++ "input") with "/input".
    rewrite (StrFacts.app_assoc prefix "data" "/input").
    change ("data" ++ "/input") with "data/input".
    rewrite (join_after prefix "data/input" target_company);
      [|discriminate | cbn [String.length]; lia | reflexivity | exact Habs].
    reflexivity.
Qed.

(** *** What a corpus starts with *)

Definition starts_on_new_line (text : string) : Prop :=
  text = EmptyString ∨ ∃ rest, text = Ingestor.nl ++ rest.

Lemma app_starts_on_new_line a b :
  starts_on_new_line a → starts_on_new_line b → starts_on_new_line (a ++ b).
Proof.
  intros [-> | [rest ->]] Hb; [exact Hb|].
  right. exists (rest ++ b). now rewrite StrFacts.app_assoc.
Qed.

Lemma excel_text_starts filename sheets :
  starts_on_new_line (Ingestor.excel_text filename sheets EmptyString).
Proof.
  destruct sheets as [|[sheet_name [table_text|e]] rest]; [now left | | now left].
  cbn [Ingestor.excel_text]. rewrite CorpusProps.excel_text_appends.
  apply app_starts_on_new_line; [|].
  - right. eexists. reflexivity.
  - induction rest as [|[name [text|e]] rest IH]; [now left | | now left].
    cbn [Ingestor.excel_text]. rewrite CorpusProps.excel_text_appends.
    apply app_starts_on_new_line; [right; eexists; reflexivity | exact IH].
Qed.

Lemma contribution_starts d folder_path filename :
  starts_on_new_line (CorpusProps.contribution d folder_path filename).
Proof.
  unfold CorpusProps.contribution, Ingestor.ingest_file.
  destruct (str_startswith "." filename); [now left|].
  destruct (str_endswith_any [".txt"; ".md"] (str_lower filename)).
  { destruct (Ingestor.read_text d _); [right; eexists; reflexivity | now left]. }
  destruct (str_endswith ".pdf" (str_lower filename)).
  { destruct (Ingestor.pdf_pages d _) as [pages|e]; [|now left].
    destruct (Ingestor.pdf_text pages EmptyString);
      [right; eexists; reflexivity | now left]. }
  destruct (str_endswith_any [".xlsx"; ".xls"] (str_lower filename)); [|now left].
  destruct (Ingestor.excel_sheets d _) as [sheets|e]; [|now left].
  apply excel_text_starts.
Qed.

Lemma concat_starts d folder_path listing :
  starts_on_new_line
    (IngestorProps.concat_sections (CorpusProps.contribution d folder_path <$> listing)).
Proof.
  induction listing as [|name listing IH]; [left; reflexivity|].
  rewrite fmap_cons. cbn [IngestorProps.concat_sections].
  apply app_starts_on_new_line; [apply contribution_starts | exact IH].
Qed.

Lemma corpus_starts d folder_path raw_text :
  folder_path ∈ Ingestor.paths d →
  Ingestor.ingest_company_data d folder_path = Ok raw_text →
  raw_text = Ingestor.no_files_found ∨ starts_on_new_line raw_text.
Proof.
  intros Hin Hraw.
  destruct (Ingestor.listdir d folder_path) as [[|f files]|e] eqn:Hls.
  - left. unfold Ingestor.ingest_company_data, path_exists in Hraw.
    rewrite bool_decide_eq_true_2, Hls in Hraw by exact Hin. now injection Hraw.
  - right.
    rewrite (IngestorProps.ingest_listing d folder_path (f :: files) Hin Hls) in Hraw
      by discriminate.
    injection Hraw as <-. rewrite CorpusProps.ingest_files_concat.
    apply (concat_starts d folder_path (f :: files)).
  - unfold Ingestor.ingest_company_data, path_exists in Hraw.
    rewrite bool_decide_eq_true_2, Hls in Hraw by exact Hin. discriminate Hraw.
Qed.

(** The pipeline that reads the disk [d]. *)
Definition reading (d : Ingestor.disk) (st : stages) : stages :=
  {| ingest_company_data := Ingestor.ingest_company_data d;
     analyze_data := analyze_data st;
     get_web_data_for_company := get_web_data_for_company st;
     create_presentation := create_presentation st |}.

(** The entry point runs the pipeline only for an input folder that exists;
    otherwise it prints its two lines and calls nothing.  The folder it
    checks is the folder the pipeline reads, so, the folder being still there
    when it is read, the ingestor's missing-folder text never comes up: what
    the extractor is sent through the entry point never starts with "Error",
    it is text that starts on a new line. *)
Theorem entry_point_guards_folder cwd d st argv :
  let target_company := target_company_of argv in
  let input_dir := input_dir_of cwd target_company in
  let run := main cwd (Ingestor.paths d) (reading d st) argv in
  (input_dir ∉ Ingestor.paths d →
   run = ([inr (FolderDoesNotExist target_company); inr PleaseCreateIt], Ok tt)) ∧
  (input_dir ∈ Ingestor.paths d →
   trace_of run = inl <$> trace_of (run_pipeline cwd (reading d st) target_company) ∧
   (∀ raw_text,
      Ingestor.ingest_company_data d input_dir = Ok raw_text →
      raw_text ≠ Ingestor.folder_not_found input_dir) ∧
   (∀ raw_text,
      inl (Analyze raw_text) ∈ trace_of run →
      ∃ rest, raw_text = Ingestor.nl ++ rest)).
Proof.
  intros target_company input_dir run. subst run. unfold main, exists_from.
  fold target_company. rewrite (checked_folder cwd target_company). fold input_dir.
  unfold path_exists. split.
  - intros Hout. rewrite bool_decide_eq_false_2 by exact Hout. reflexivity.
  - intros Hin. rewrite bool_decide_eq_true_2 by exact Hin.
    split; [reflexivity|]. split.
    + intros raw_text Hraw Heq.
      destruct (corpus_starts d input_dir raw_text Hin Hraw) as [-> | [-> | [rest ->]]];
        discriminate Heq.
    + intros raw_text Hcall. unfold trace_of in Hcall. cbn [fst] in Hcall.
      apply list_elem_of_fmap in Hcall as (e & He & Hcall). injection He as <-.
      assert (Hsent : Ingestor.ingest_company_data d input_dir = Ok raw_text ∧
                      too_short raw_text = false).
      { destruct (PipelineProps.run_pipeline_ending cwd (reading d st) target_company)
          as [e Hingest Hrun | raw Hingest Hshort Hrun | raw Hingest Hlong Hanalyze Hrun
             | raw structured_data Hingest Hlong Hanalyze Hrecord Hrun];
          cbv zeta in Hrun; rewrite Hrun in Hcall; cbn [fst] in Hcall.
        - exfalso. PipelineProps.not_listed Hcall.
        - exfalso. PipelineProps.not_listed Hcall.
        - apply elem_of_app in Hcall as [Hcall | Hcall];
            [exfalso; PipelineProps.not_listed Hcall|].
          PipelineProps.listed Hcall. injection Hcall as ->. auto.
        - rewrite !elem_of_app in Hcall.
          destruct Hcall as [Hcall | [Hcall | [Hcall | [Hcall | Hcall]]]].
          + exfalso. PipelineProps.not_listed Hcall.
          + unfold MainProps.analysis_trace in Hcall.
            PipelineProps.listed Hcall. injection Hcall as ->. auto.
          + exfalso. destruct (get_web_data_for_company _ _ raw);
              PipelineProps.not_listed Hcall.
          + exfalso. PipelineProps.not_listed Hcall.
          + exfalso. destruct (create_presentation _ _ _);
              PipelineProps.not_listed Hcall. }
      destruct Hsent as [Hraw Hlong].
      destruct (corpus_starts d input_dir raw_text Hin Hraw) as [-> | [-> | Hrest]];
        [vm_compute in Hlong; discriminate Hlong | discriminate Hlong | exact Hrest].
Qed.

End EntryPointProps.

(** ** The text of a slide *)

Module SlidesProps.
Import Py Builtins TextLayout Slides CleanJsonProps TextLayoutProps.

(** *** Markdown *)

(** [s] without its occurrences of [c]. *)
Fixpoint remove_char (c : ascii) (s : string) : string :=
  match s with
  | EmptyString => EmptyString
  | String a r => if Ascii.eqb a c then remove_char c r else String a (remove_char c r)
  end.

Lemma prefix_char c a r :
  String.prefix (String c EmptyString) (String a r) = Ascii.eqb a c.
Proof.
  destruct (Ascii.eqb_spec a c) as [->|Hne].
  - apply (prefix_app_same (String c EmptyString) r).
  - apply prefix_first. now apply Ascii.eqb_neq.
Qed.

(** Replacing a character by nothing removes it. *)
Lemma replace_char c s : str_replace (String c EmptyString) EmptyString s = remove_char c s.
Proof.
  unfold str_replace. induction s as [|a r IH]; [reflexivity|].
  cbn [str_replace_from remove_char]. rewrite prefix_char.
  destruct (Ascii.eqb a c); [|now rewrite IH].
  cbn [String.length Nat.sub]. exact IH.
Qed.

Lemma prefix_double c a b r :
  String.prefix (String c (String c EmptyString)) (String a (String b r))
  = Ascii.eqb a c && Ascii.eqb b c.
Proof.
  destruct (Ascii.eqb_spec a c) as [->|Ha].
  - destruct (Ascii.eqb_spec b c) as [->|Hb].
    + apply (prefix_app_same (String c (String c EmptyString)) r).
    + apply not_prefix. intros post H. simpl in H. now injection H.
  - apply prefix_first. now apply Ascii.eqb_neq.
Qed.

(** Removing the doubled character first changes nothing. *)
Lemma remove_after_double c s :
  remove_char c (str_replace (String c (String c EmptyString)) EmptyString s)
  = remove_char c s.
Proof.
  unfold str_replace.
  assert (Hboth :
    remove_char c (str_replace_from (String c (String c EmptyString)) EmptyString O s)
    = remove_char c s ∧
    ∀ a, remove_char c
           (str_replace_from (String c (String c EmptyString)) EmptyString O (String a s))
         = remove_char c (String a s)); [|exact (proj1 Hboth)].
  induction s as [|b r [IH1 IH2]].
  - split; [reflexivity|]. intros a. cbn [str_replace_from].
    assert (Hshort : String.prefix (String c (String c EmptyString)) (String a EmptyString)
                     = false).
    { apply not_prefix. intros post H. simpl in H. injection H as _ H. discriminate H. }
    rewrite Hshort. reflexivity.
  - split; [apply IH2|]. intros a. cbn [str_replace_from].
    rewrite prefix_double.
    destruct (Ascii.eqb a c) eqn:Ha; cbn [andb].
    + destruct (Ascii.eqb b c) eqn:Hb.
      * cbn [String.length Nat.sub]. change (EmptyString ++ ?t) with t.
        cbn [str_replace_from remove_char]. rewrite Ha, Hb. exact IH1.
      * cbn [remove_char]. rewrite Ha. apply IH2.
    + cbn [remove_char]. rewrite Ha. f_equal. apply IH2.
Qed.

Lemma lacks_removed c s : lacks c (remove_char c s) = true.
Proof.
  induction s as [|a r IH]; [reflexivity|]. cbn [remove_char].
  destruct (Ascii.eqb a c) eqn:Ha; [exact IH|]. cbn [lacks]. now rewrite Ha, IH.
Qed.

Lemma lacks_lstrip c s : lacks c s = true → lacks c (str_lstrip s) = true.
Proof.
  induction s as [|a r IH]; [reflexivity|]. cbn [str_lstrip].
  destruct (is_space a); [|auto]. cbn [lacks]. intros [_ Hr]%andb_true_iff. auto.
Qed.

Lemma lacks_rstrip c s : lacks c s = true → lacks c (str_rstrip s) = true.
Proof.
  induction s as [|a r IH]; [reflexivity|]. cbn [str_rstrip lacks].
  intros [Ha Hr]%andb_true_iff.
  destruct (is_space a && String.eqb (str_rstrip r) EmptyString); [reflexivity|].
  cbn [lacks]. now rewrite Ha, IH.
Qed.

(** The text [clean_text] makes of text holds no asterisk: it is the text
    without its asterisks, stripped; the first of the two replacements
    changes nothing. *)
Theorem clean_text_removes_asterisks py s :
  clean_text py (JStr s) = str_strip (remove_char "*" s) ∧
  str_contains "*" (clean_text py (JStr s)) = false.
Proof.
  assert (Hclean : clean_text py (JStr s) = str_strip (remove_char "*" s)).
  { unfold clean_text, truthy. destruct (String.eqb_spec s EmptyString) as [->|Hne];
      [reflexivity|]. cbn [negb]. unfold without_markdown.
    now rewrite replace_char, remove_after_double. }
  split; [exact Hclean|]. rewrite Hclean. apply lacks_iff.
  unfold str_strip. apply lacks_rstrip, lacks_lstrip, lacks_removed.
Qed.

(** *** Lists *)

Lemma split_lacking c s : lacks c s = true → str_split c s = [s].
Proof.
  induction s as [|a r IH]; [reflexivity|]. cbn [lacks str_split].
  intros [Ha Hr]%andb_true_iff. apply negb_true_iff in Ha. now rewrite Ha, (IH Hr).
Qed.

Lemma split_app c l r :
  lacks c l = true → str_split c (l ++ String c r) = l :: str_split c r.
Proof.
  induction l as [|a l IH].
  - intros _. change (EmptyString ++ String c r) with (String c r).
    cbn [str_split]. now rewrite Ascii.eqb_refl.
  - cbn [lacks]. intros [Ha Hl]%andb_true_iff. apply negb_true_iff in Ha.
    change (String a l ++ String c r) with (String a (l ++ String c r)).
    cbn [str_split]. now rewrite Ha, (IH Hl).
Qed.

(** Joining lines that hold no newline and cutting at the newlines gives
    the lines back. *)
Lemma split_join c lines :
  lines ≠ [] → Forall (λ line, lacks c line = true) lines →
  str_split c (str_join (String c EmptyString) lines) = lines.
Proof.
  intros Hne Hlines. induction Hlines as [|line rest Hline Hrest IH]; [contradiction|].
  destruct rest as [|next rest].
  - now apply split_lacking.
  - rewrite str_join_cons by discriminate.
    change (String c EmptyString ++ ?t) with (String c t).
    rewrite (split_app c line _ Hline), IH by discriminate. reflexivity.
Qed.

Lemma join_contains c first second rest :
  str_contains (String c EmptyString)
    (str_join (String c EmptyString) (first :: second :: rest)) = true.
Proof.
  rewrite str_join_cons by discriminate.
  apply StrFacts.str_contains_iff. eexists first, _. reflexivity.
Qed.

Lemma lacks_app c (a b : string) : lacks c (a ++ b) = lacks c a && lacks c b.
Proof.
  induction a as [|x a IH]; [reflexivity|].
  change (String x a ++ b) with (String x (a ++ b)). cbn [lacks].
  now rewrite IH, andb_assoc.
Qed.

(** A list of more than one item is laid out one item to a line: [format_list]
    makes a bulleted line of each of the first [max_items] items, and
    [fill_text_placeholder] cuts the text back into exactly these lines, as
    long as no cleaned item holds a newline itself; the wrapping loop is not
    applied to them however long they are. *)
Theorem bulleted_items_become_lines py items n :
  let shown := take (S n) items in
  let lines := (λ item, bullet ++ " " ++ clean_text py item) <$> shown in
  items ≠ [] →
  format_list py (JArr items) (Some (S n)) bullet = Some (str_join newline lines) ∧
  (length lines <= S n)%nat ∧
  (Forall (λ item, str_contains newline (clean_text py item) = false) shown →
   (2 <= length lines)%nat →
   text_lines (str_join newline lines) = lines).
Proof.
  intros shown lines Hne. split; [|split].
  - unfold format_list, truthy. rewrite bool_decide_eq_false_2 by exact Hne. reflexivity.
  - subst lines shown. rewrite length_fmap, length_take. lia.
  - intros Hitems Hmany.
    assert (Hlines : Forall (λ line, lacks (ascii_of_nat 10) line = true) lines).
    { subst lines. apply Forall_fmap. eapply Forall_impl; [exact Hitems|].
      intros item Hitem. cbv [compose]. apply (lacks_iff (ascii_of_nat 10)) in Hitem.
      rewrite !lacks_app, Hitem. reflexivity. }
    unfold text_lines.
    destruct lines as [|first [|second rest]] eqn:Hshape; cbn [length] in Hmany; try lia.
    unfold newline. rewrite join_contains.
    apply split_join; [discriminate | exact Hlines].
Qed.

(** *** Records the template generator cannot take *)

(** The entries read as lists. *)
Definition list_entries : list string :=
  ["business_overview"; "product_portfolio"; "applications"; "investment_highlights"].

Lemma format_list_object py member members max_items :
  format_list py (JObj (member :: members)) (Some (S max_items)) bullet = None.
Proof. reflexivity. Qed.

Lemma get_present key default (d : dict) v :
  dict_get key d = Some v → dict_get_default key default d = v.
Proof. unfold dict_get_default. now intros ->. Qed.

(** One step along the chain of lookups that builds [data_dict]. *)
Ltac next_lookup :=
  match goal with
  | |- mbind _ ?m = None =>
      destruct m; [cbn [mbind option_bind] | reflexivity]
  end.

Lemma malformed_data_dict py structured_data :
  (∃ v, dict_get "financials" structured_data = Some v ∧ ∀ members, v ≠ JObj members) ∨
  (∃ key member members,
     key ∈ list_entries ∧
     dict_get key structured_data = Some (JObj (member :: members))) →
  data_dict py structured_data = None.
Proof.
  intros [(v & Hv & Hshape) | (key & member & members & Hkey & Hentry)].
  - assert (Hebitda : financial py "ebitda" structured_data = None).
    { unfold financial. rewrite (get_present _ _ _ _ Hv).
      destruct v; try reflexivity. exfalso. eapply Hshape. reflexivity. }
    unfold data_dict. do 5 next_lookup. now rewrite Hebitda.
  - unfold data_dict, list_entries in *.
    apply elem_of_cons in Hkey as [-> | Hkey];
      [rewrite (get_present _ _ _ _ Hentry), format_list_object; reflexivity|].
    next_lookup.
    apply elem_of_cons in Hkey as [-> | Hkey];
      [rewrite (get_present _ _ _ _ Hentry), format_list_object; reflexivity|].
    next_lookup.
    apply elem_of_cons in Hkey as [-> | Hkey];
      [rewrite (get_present _ _ _ _ Hentry), format_list_object; reflexivity|].
    do 7 next_lookup.
    apply list_elem_of_singleton in Hkey as ->.
    now rewrite (get_present _ _ _ _ Hentry), format_list_object.
Qed.

(** The outcomes of [create_presentation] when the texts can be built: the
    programmatic generator is called exactly when there is no template, the
    template does not load, or the filling and saving returns [False]; an
    exception of the filling and saving is not caught. *)
Lemma generator_fallback py tools structured_data output_path texts :
  data_dict py structured_data = Some texts →
  let run := create_presentation py tools structured_data output_path in
  let fallback := Programmatic structured_data output_path in
  let programmatic := create_presentation_programmatic tools structured_data output_path in
  (template_exists tools = false → run = ([fallback], programmatic)) ∧
  (template_exists tools = true →
   (load_template tools = None → run = ([LoadTemplate; fallback], programmatic)) ∧
   (load_template tools ≠ None →
    let filling := FillAndSave texts output_path in
    match fill_and_save tools texts structured_data output_path with
    | Some true => run = ([LoadTemplate; filling], Some tt)
    | Some false => run = ([LoadTemplate; filling; fallback], programmatic)
    | None => run = ([LoadTemplate; filling], None)
    end)).
Proof.
  intros Htexts run fallback programmatic. subst run fallback programmatic.
  unfold create_presentation, create_presentation_from_template, run_programmatic.
  split.
  - intros ->. reflexivity.
  - intros ->. cbn [negb]. split.
    + intros ->. reflexivity.
    + intros Hloads. destruct (load_template tools) as [[]|]; [|contradiction].
      rewrite Htexts. cbv zeta.
      destruct (fill_and_save tools texts structured_data output_path) as [[|]|];
        reflexivity.
Qed.

(** With a template that exists and loads, a record whose [financials] is
    not an object (text such as "N/A", a list, null), or one of whose list
    entries is an object, makes [create_presentation] raise while the texts
    are built: nothing is filled or saved, and the programmatic generator,
    which is what is tried when the template generator returns [False], is
    not tried. *)
Theorem malformed_record_has_no_fallback py tools structured_data output_path :
  template_exists tools = true →
  load_template tools = Some tt →
  (∃ v, dict_get "financials" structured_data = Some v ∧ ∀ members, v ≠ JObj members) ∨
  (∃ key member members,
     key ∈ list_entries ∧
     dict_get key structured_data = Some (JObj (member :: members))) →
  data_dict py structured_data = None ∧
  create_presentation py tools structured_data output_path = ([LoadTemplate], None) ∧
  (∀ other texts,
     data_dict py other = Some texts →
     fill_and_save tools texts other output_path = Some false →
     create_presentation py tools other output_path =
       ([LoadTemplate; FillAndSave texts output_path; Programmatic other output_path],
        create_presentation_programmatic tools other output_path)).
Proof.
  intros Hexists Hloads Hmalformed.
  pose proof (malformed_data_dict py structured_data Hmalformed) as Hraises.
  split; [exact Hraises|]. split.
  - unfold create_presentation, create_presentation_from_template.
    rewrite Hexists, Hloads, Hraises. reflexivity.
  - intros other texts Htexts Hfalse.
    assert (Hloaded : load_template tools ≠ None) by (rewrite Hloads; discriminate).
    pose proof (proj2 (proj2 (generator_fallback py tools other output_path texts Htexts)
                         Hexists) Hloaded) as Hrun.
    cbv zeta in Hrun. rewrite Hfalse in Hrun. exact Hrun.
Qed.

Definition plain_python : python :=
  {| py_str := λ _, "?"; float_truth := λ _, true |}.

(** A template that is there and loads. *)
Definition with_template : deck_tools :=
  {| template_exists := true;
     load_template := Some tt;
     fill_and_save := λ _ _ _, Some true;
     create_presentation_programmatic := λ _ _, Some tt |}.

(** A record as the model may give it, with "N/A" where the figures go. *)
Definition no_figures : dict :=
  [ ("company_codename", JStr "Project Atlas");
    ("business_overview", JArr [JStr "Makes valves."; JStr "Sells them."]);
    ("financials", JStr "N/A") ].

Lemma malformed_record_has_no_fallback_witness :
  create_presentation plain_python with_template no_figures "/srv/teaser/out.pptx"
  = ([LoadTemplate], None).
Proof.
  apply (malformed_record_has_no_fallback plain_python with_template no_figures
           "/srv/teaser/out.pptx" eq_refl eq_refl).
  left. exists (JStr "N/A"). split; [reflexivity|]. intros members. discriminate.
Defined.

Lemma bulleted_items_become_lines_witness :
  text_lines
    (str_join newline
       [bullet ++ " Makes valves."; bullet ++ " Sells them."])
  = [bullet ++ " Makes valves."; bullet ++ " Sells them."].
Proof.
  assert (Hne : [JStr "Makes **valves**."; JStr "Sells them."; JStr "Third"] ≠ [])
    by discriminate.
  apply (proj2 (proj2 (bulleted_items_become_lines plain_python
                         [JStr "Makes **valves**."; JStr "Sells them."; JStr "Third"] 1 Hne))).
  - repeat constructor.
  - cbn. lia.
Defined.

End SlidesProps.

(** ** The customer images *)

Module CustomersProps.
Import Py Builtins Customers.

Ltac run_requests :=
  cbv [mbind mret traced_bind traced_ret tell trace_of value_of] in *.

(** What the loop asks for, from position [i] on. *)
Lemma image_loop_requests py partners i placeholder_indices :
  let run := image_loop py (JArr partners) i placeholder_indices in
  (length (trace_of run) <= Nat.min (length partners - i) (length placeholder_indices))%nat ∧
  ∀ image_url filename,
    Download image_url filename ∈ trace_of run →
    str_startswith "http" image_url = true ∧
    ∃ j partner,
      (i <= j)%nat ∧
      partners !! j = Some partner ∧
      filename = "customer_" ++ str_of_nat j ++ ".jpg" ∧
      partner_image_url py partner = Some (JStr image_url).
Proof.
  revert i. induction placeholder_indices as [|index rest IH]; intros i; cbn [image_loop].
  - run_requests. cbn [fst length]. split; [lia|].
    intros image_url filename Hin. now apply elem_of_nil in Hin.
  - cbn [py_len]. destruct (Nat.leb_spec (length partners) i) as [Hdone | Hmore].
    + run_requests. cbn [fst length]. split; [lia|].
      intros image_url filename Hin. now apply elem_of_nil in Hin.
    + cbn [item]. destruct (partners !! i) as [partner|] eqn:Hpartner;
        [|apply lookup_ge_None in Hpartner; lia].
      cbn [mbind option_bind].
      destruct (partner_image_url py partner) as [found|] eqn:Hfound;
        cbn [mbind option_bind].
      2:{ run_requests. cbn [fst length]. split; [lia|].
          intros image_url filename Hin. now apply elem_of_nil in Hin. }
      destruct (wanted py found) as [[image_url|]|] eqn:Hwanted.
      * destruct (IH (S i)) as [IHlen IHin].
        destruct (image_loop py (JArr partners) (S i) rest) as [t r].
        run_requests. cbn [fst snd length app] in *. split; [lia|].
        intros url filename [Heq | Hin]%elem_of_cons.
        -- injection Heq as -> ->.
           unfold wanted in Hwanted. destruct (truthy py found); [|discriminate].
           destruct found; try discriminate.
           destruct (str_startswith "http" s) eqn:Hhttp; [|discriminate].
           injection Hwanted as ->. split; [exact Hhttp|].
           exists i, partner. auto.
        -- destruct (IHin url filename Hin) as (Hhttp & j & p & Hj & Hp & Hname & Hurl).
           split; [exact Hhttp|]. exists j, p. split; [lia|]. auto.
      * destruct (IH (S i)) as [IHlen IHin].
        split; [cbn [length]; lia|].
        intros url filename Hin.
        destruct (IHin url filename Hin) as (Hhttp & j & p & Hj & Hp & Hname & Hurl).
        split; [exact Hhttp|]. exists j, p. split; [lia|]. auto.
      * run_requests. cbn [fst length]. split; [lia|].
        intros image_url filename Hin. now apply elem_of_nil in Hin.
Qed.

(** Called with a list, as the template generator does, the function never
    turns to the general images of the web data: what it does is the same
    whatever the slide carries.  It asks for at most one download per
    placeholder and per partner, each for a text that starts with "http"
    and is the partner's [image_url], [image] or [url], in this order of
    preference, under the name [customer_<position>.jpg].  For a partner
    entry as [search_business_info] makes it, that is the URL of the page
    found. *)
Theorem customer_images_come_from_partners py partners web_data web_data'
    placeholder_indices :
  let run :=
    insert_customer_images_by_placeholder py (JArr partners) web_data placeholder_indices in
  run = insert_customer_images_by_placeholder py (JArr partners) web_data'
          placeholder_indices ∧
  (length (trace_of run) <= Nat.min (length partners) (length placeholder_indices))%nat ∧
  (∀ image_url filename,
     Download image_url filename ∈ trace_of run →
     str_startswith "http" image_url = true ∧
     ∃ i partner,
       partners !! i = Some partner ∧
       filename = "customer_" ++ str_of_nat i ++ ".jpg" ∧
       partner_image_url py partner = Some (JStr image_url)) ∧
  (∀ title snippet url,
     partner_image_url py (JObj [("title", title); ("snippet", snippet); ("url", url)])
     = Some url).
Proof.
  intros run. subst run. unfold insert_customer_images_by_placeholder.
  cbn [truthy chosen].
  destruct partners as [|partner partners].
  - cbn. split; [reflexivity|]. split; [lia|]. split; [|reflexivity].
    intros image_url filename Hin. now apply elem_of_nil in Hin.
  - rewrite bool_decide_eq_false_2 by discriminate. cbn [negb].
    unfold with_general_images. cbn [truthy].
    rewrite bool_decide_eq_false_2 by discriminate. cbn [negb].
    destruct (image_loop_requests py (partner :: partners) 0 placeholder_indices)
      as [Hlen Hin].
    split; [reflexivity|]. split; [rewrite Nat.sub_0_r in Hlen; exact Hlen|].
    split; [|reflexivity].
    intros image_url filename Hreq.
    destruct (Hin image_url filename Hreq) as (Hhttp & j & p & _ & Hp & Hname & Hurl).
    split; [exact Hhttp|]. exists j, p. auto.
Qed.

End CustomersProps.
